(** * fdaPDE-core: the bit-packed binary matrix engine (binary_matrix.h)

    A shallow embedding of [BinaryMatrix], [BinMtxBase], the lazy expression
    nodes ([BinMtxUnaryOp], [BinMtxBinaryOp], [BinMtxBlock], [BinMtxRepeatOp],
    [BinMtxReshapedOp]), the reduction visitors and the comparison
    operators, followed by the properties of the specification that concern
    them.

    Conventions of the embedding.
    - A C++ [int] is a [Z].  Signed overflow is undefined in C++: the
      sized constructor and [resize] check that the number of coefficients
      is an [int], and the traversals check their loop bound
      [i + PackSize], which can leave the range on a matrix whose size
      does not ([int_result]).  The statements below are about matrices
      whose extents are not negative and whose size fits an [int] (see
      [well_formed]), and carry as hypotheses the further bounds they rely
      on.  [/] and [%] on [int] truncate towards zero: [Z.quot] and
      [Z.rem].
    - [BitPackType] is [std::uintmax_t]: a [Z] in [[0, 2^64)], every
      operation that can leave the range is reduced modulo [2^64] ([wrap]).
    - A computation either returns, aborts on a failed [fdapde_assert],
      runs into undefined behaviour (out-of-range subscript, shift by a
      negative count or by at least the word width, division by zero,
      signed overflow) or cannot go on (a storage of a negative number of
      words cannot be allocated), or is rejected at compile time
      ([fdapde_static_assert], [requires]).
    - A [BinaryMatrix] is nested by reference in an expression
      ([NestAsRef = 1]); the matrices live in a store and a leaf of an
      expression is an index into it.  Every other node is nested by copy. *)

From stdpp Require Import base list.
From Stdlib Require Import ZArith Lia Floats.

Open Scope Z_scope.

(** ** Outcomes of a computation *)

Inductive outcome (A : Type) : Type :=
| Ok (a : A)
| AssertionFailure
| Undefined
| Rejected.

Arguments Ok {A} a.
Arguments AssertionFailure {A}.
Arguments Undefined {A}.
Arguments Rejected {A}.

Definition bind {A B : Type} (c : outcome A) (k : A -> outcome B) : outcome B :=
  match c with
  | Ok a => k a
  | AssertionFailure => AssertionFailure
  | Undefined => Undefined
  | Rejected => Rejected
  end.

Notation "'let*' x ':=' c 'in' k" := (bind c (fun x => k))
  (at level 10, x name, c at level 100, k at level 200).

(** Modelled from the spec: the macro [fdapde_assert] is defined in
    utils/assert.h, which is not among the sources.  The spec (section 7):
    all invariant checks are assert-and-abort; this is a build in which the
    assertions are compiled in. *)
Definition fdapde_assert (cond : bool) : outcome unit :=
  if cond then Ok tt else AssertionFailure.

(** Modelled from the spec: the macro [fdapde_static_assert] is defined in
    utils/assert.h, which is not among the sources.  The spec (section 7):
    a compile-time shape mismatch must be a compile-time error. *)
Definition fdapde_static_assert (cond : bool) : outcome unit :=
  if cond then Ok tt else Rejected.

(** Modelled from the spec: the constant [Dynamic] is declared in
    utils/symbols.h, which is not among the sources.  The spec only needs a
    marker that no extent can take; the value is the one of Eigen. *)
Definition Dynamic : Z := -1.

(** [for (int i = 0; i < n; ++i) body], threading the state [s]. *)
Fixpoint for_loop {S : Type} (fuel : nat) (i : Z) (body : Z -> S -> outcome S) (s : S)
  : outcome S :=
  match fuel with
  | O => Ok s
  | Datatypes.S fuel' => let* s' := body i s in for_loop fuel' (i + 1) body s'
  end.

Definition for_range {S : Type} (n : Z) (body : Z -> S -> outcome S) (s : S) : outcome S :=
  for_loop (Z.to_nat n) 0 body s.

(** ** Machine arithmetic *)

Definition INT_MAX : Z := 2147483647.
Definition INT_MIN : Z := -2147483648.

(** The value of an [int] expression whose exact result is [z]: the result
    itself when it is an [int], undefined behaviour when it is not. *)
Definition int_result (z : Z) : outcome Z :=
  if (INT_MIN <=? z) && (z <=? INT_MAX) then Ok z else Undefined.

Definition int_div (a b : Z) : outcome Z :=
  if b =? 0 then Undefined else Ok (Z.quot a b).

Definition int_rem (a b : Z) : outcome Z :=
  if b =? 0 then Undefined else Ok (Z.rem a b).

Definition PackSize : Z := 64.

Definition wrap (z : Z) : Z := z mod 2 ^ PackSize.

(** [~b] on a [BitPackType]. *)
Definition bit_not (b : Z) : Z := wrap (Z.lnot b).

(** [b << s] and [b >> s] on a [BitPackType]; the count is an [int]. *)
Definition shl (b s : Z) : outcome Z :=
  if (0 <=? s) && (s <? PackSize) then Ok (wrap (Z.shiftl b s)) else Undefined.

Definition shr (b s : Z) : outcome Z :=
  if (0 <=? s) && (s <? PackSize) then Ok (Z.shiftr b s) else Undefined.

(** [std::ceil] applied to an [int]: the argument is already integral
    ([n_rows_ * n_cols_ / PackSize] is an integer division), so the value
    comes back unchanged. *)
Definition std_ceil (q : Z) : Z := q.

(** Conversion of an [int] to [double] (exact) and [std::floor] of a
    [double] read back as an integer; [None] on infinities and NaN. *)
Definition double_of_int (z : Z) : float :=
  if z <? 0 then PrimFloat.opp (PrimFloat.of_uint63 (Uint63.of_Z (- z)))
  else PrimFloat.of_uint63 (Uint63.of_Z z).

Definition std_floor (f : float) : option Z :=
  match Prim2SF f with
  | S754_zero _ => Some 0
  | S754_finite s m e =>
      let mag := if 0 <=? e then Z.shiftl (Z.pos m) e else Z.shiftr (Z.pos m) (- e) in
      let exact := if 0 <=? e then true else Z.shiftl mag (- e) =? Z.pos m in
      Some (if s then (if exact then - mag else - mag - 1) else mag)
  | S754_infinity _ => None
  | S754_nan => None
  end.

(** ** The base class of every expression *)

(** [BinMtxBase<Rows, Cols, XprType>]: the template parameters [Rows] and
    [Cols] and the three fields. *)
Record BinMtxBase : Type := mkBase {
  Rows : Z;
  Cols : Z;
  n_rows_ : Z;
  n_cols_ : Z;
  n_bitpacks_ : Z
}.

(** [BinMtxBase() = default] and [BinMtxBase(int n_rows, int n_cols)].  The
    product in the second is one of [int]s: these are the fields that the
    constructor leaves when [n_rows * n_cols] is an [int].  The sized
    constructor of a matrix and [resize] check that it is; for the nodes
    of expressions the statements bound the product of the extents. *)
Definition BinMtxBase_default (R C : Z) : BinMtxBase := mkBase R C 0 0 0.

Definition BinMtxBase_init (R C : Z) (n_rows n_cols : Z) : BinMtxBase :=
  mkBase R C n_rows n_cols (1 + std_ceil (Z.quot (n_rows * n_cols) PackSize)).

Definition rows (b : BinMtxBase) : Z := n_rows_ b.
Definition cols (b : BinMtxBase) : Z := n_cols_ b.
Definition bitpacks (b : BinMtxBase) : Z := n_bitpacks_ b.
Definition size (b : BinMtxBase) : Z := n_rows_ b * n_cols_ b.

(** ** The concrete matrix *)

Record BinaryMatrix : Type := mkMatrix {
  base : BinMtxBase;
  data_ : list Z
}.

Definition is_dynamic_sized (R C : Z) : bool := (R =? Dynamic) || (C =? Dynamic).

(** [data_[k]], reading and writing. *)
Definition data_at (d : list Z) (k : Z) : outcome Z :=
  if k <? 0 then Undefined
  else match d !! Z.to_nat k with
       | Some w => Ok w
       | None => Undefined
       end.

Definition data_write (d : list Z) (k : Z) (w : Z) : outcome (list Z) :=
  if k <? 0 then Undefined
  else if k <? Z.of_nat (length d) then Ok (<[Z.to_nat k := w]> d)
  else Undefined.

Definition with_data (m : BinaryMatrix) (d : list Z) : BinaryMatrix :=
  mkMatrix (base m) d.

(** Static default constructor ([requires(!is_dynamic_sized)]); the storage
    is [std::array<BitPackType, 1 + (Rows * Cols) / PackSize>]. *)
Definition BinaryMatrix_static (R C : Z) : outcome BinaryMatrix :=
  if is_dynamic_sized R C then Rejected
  else Ok (mkMatrix (BinMtxBase_init R C R C)
             (replicate (Z.to_nat (1 + Z.quot (R * C) PackSize)) 0)).

(** Dynamic constructors: [BinaryMatrix()] and [BinaryMatrix(n_rows, n_cols)].
    The second multiplies its arguments as [int]s in the base constructor,
    and a negative number of words cannot be allocated. *)
Definition BinaryMatrix_empty (R C : Z) : outcome BinaryMatrix :=
  if is_dynamic_sized R C then Ok (mkMatrix (BinMtxBase_default R C) [])
  else Rejected.

Definition BinaryMatrix_sized (R C : Z) (n_rows n_cols : Z) : outcome BinaryMatrix :=
  if is_dynamic_sized R C then
    let* _ := int_result (n_rows * n_cols) in
    let b := BinMtxBase_init R C n_rows n_cols in
    let n := 1 + std_ceil (Z.quot (n_rows_ b * n_cols_ b) PackSize) in
    if n <? 0 then Undefined
    else Ok (mkMatrix b (replicate (Z.to_nat n) 0))
  else Rejected.

(** [BinaryMatrix<Rows, Cols> result;] picks the default constructor whose
    constraint holds. *)
Definition BinaryMatrix_declare (R C : Z) : outcome BinaryMatrix :=
  if is_dynamic_sized R C then BinaryMatrix_empty R C else BinaryMatrix_static R C.

(** [resize(rows, cols)], enabled when a dimension is dynamic; the product
    is one of [int]s, and a negative number of words cannot be
    allocated. *)
Definition resize (m : BinaryMatrix) (r c : Z) : outcome BinaryMatrix :=
  let R := Rows (base m) in
  let C := Cols (base m) in
  if is_dynamic_sized R C then
    let* _ := fdapde_assert
                (((R =? Dynamic) || ((R =? 1) && (r =? 1))) &&
                 ((C =? Dynamic) || ((C =? 1) && (c =? 1)))) in
    let* _ := int_result (r * c) in
    let nb := 1 + std_ceil (Z.quot (r * c) PackSize) in
    if nb <? 0 then Undefined
    else Ok (mkMatrix (mkBase R C r c nb) (replicate (Z.to_nat nb) 0))
  else Rejected.

(** [resize(rows)], the vector-like overload. *)
Definition resize_vector (m : BinaryMatrix) (r : Z) : outcome BinaryMatrix :=
  let R := Rows (base m) in
  let C := Cols (base m) in
  if (R =? Dynamic) && (C =? 1) then
    let nb := 1 + std_ceil (Z.quot r PackSize) in
    if nb <? 0 then Undefined
    else Ok (mkMatrix (mkBase R C r 1 nb) (replicate (Z.to_nat nb) 0))
  else Rejected.

Definition pack_of (m : BinaryMatrix) (i j : Z) : Z :=
  Z.quot (i * n_cols_ (base m) + j) PackSize.

(** [BinaryMatrix::operator()(i, j)]: no assertion, the bit is read directly. *)
Definition BinaryMatrix_call (m : BinaryMatrix) (i j : Z) : outcome bool :=
  let* w := data_at (data_ m) (pack_of m i j) in
  let* s := shl 1 (Z.rem (i * n_cols_ (base m) + j) PackSize) in
  Ok (negb (Z.land w s =? 0)).

(** The condition of the bounds assertions of [set], [clear] and of the
    base-class access operator: [i < n_rows_ && j < n_cols_]. *)
Definition in_bounds (b : BinMtxBase) (i j : Z) : bool :=
  (i <? n_rows_ b) && (j <? n_cols_ b).

Definition set_bit (m : BinaryMatrix) (i j : Z) : outcome BinaryMatrix :=
  let* w := data_at (data_ m) (pack_of m i j) in
  let* s := shl 1 (Z.rem (i * n_cols_ (base m) + j) PackSize) in
  let* d := data_write (data_ m) (pack_of m i j) (Z.lor w s) in
  Ok (with_data m d).

Definition clear_bit (m : BinaryMatrix) (i j : Z) : outcome BinaryMatrix :=
  let* w := data_at (data_ m) (pack_of m i j) in
  let* s := shl 1 (Z.rem (i * n_cols_ (base m) + j) PackSize) in
  let* d := data_write (data_ m) (pack_of m i j) (Z.land w (bit_not s)) in
  Ok (with_data m d).

(** [set(i, j)] and [clear(i, j)]. *)
Definition set (m : BinaryMatrix) (i j : Z) : outcome BinaryMatrix :=
  let* _ := fdapde_assert (in_bounds (base m) i j) in set_bit m i j.

Definition clear (m : BinaryMatrix) (i j : Z) : outcome BinaryMatrix :=
  let* _ := fdapde_assert (in_bounds (base m) i j) in clear_bit m i j.

(** [set()] and [clear()]: every coefficient, row by row. *)
Definition set_all (m : BinaryMatrix) : outcome BinaryMatrix :=
  for_range (n_rows_ (base m))
    (fun i m1 => for_range (n_cols_ (base m1)) (fun j m2 => set_bit m2 i j) m1) m.

Definition clear_all (m : BinaryMatrix) : outcome BinaryMatrix :=
  for_range (n_rows_ (base m))
    (fun i m1 => for_range (n_cols_ (base m1)) (fun j m2 => clear_bit m2 i j) m1) m.

(** [Ones(i, j)]: every bitpack, the last one included, becomes [-1]. *)
Definition Ones (R C : Z) (i j : Z) : outcome BinaryMatrix :=
  let* result := BinaryMatrix_declare R C in
  let* result := (if is_dynamic_sized R C then resize result i j else Ok result) in
  for_range (bitpacks (base result))
    (fun k r => let* d := data_write (data_ r) k (wrap (-1)) in Ok (with_data r d))
    result.

(** A dense numeric matrix of the linear-algebra library, as far as the
    code looks at it: its compile-time and run-time extents and its
    coefficients. *)
Record EigenMatrix : Type := mkEigen {
  RowsAtCompileTime : Z;
  ColsAtCompileTime : Z;
  eigen_rows : Z;
  eigen_cols : Z;
  coeff : Z -> Z -> Z
}.

(** [operator=(const Eigen::MatrixBase<Derived>& mtx)]. *)
Definition assign_eigen (m : BinaryMatrix) (mtx : EigenMatrix) : outcome BinaryMatrix :=
  let R := Rows (base m) in
  let C := Cols (base m) in
  let* _ := fdapde_static_assert
              (is_dynamic_sized R C ||
               ((R =? RowsAtCompileTime mtx) && (C =? ColsAtCompileTime mtx))) in
  let m1 := mkMatrix (mkBase R C (eigen_rows mtx) (eigen_cols mtx) (n_bitpacks_ (base m)))
              (data_ m) in
  let* m2 := (if is_dynamic_sized R C
              then resize m1 (n_rows_ (base m1)) (n_cols_ (base m1)) else Ok m1) in
  for_range (n_rows_ (base m2))
    (fun i ma =>
       for_range (n_cols_ (base ma))
         (fun j mb => if coeff mtx i j =? 0 then Ok mb else set mb i j) ma)
    m2.

(** ** Lazy expressions *)

(** [std::bit_and<>], [std::bit_or<>], [std::bit_xor<>]: the same functor is
    applied to words by [bitpack] and to booleans by [operator()]. *)
Inductive BinaryOperation : Type := bit_and | bit_or | bit_xor.

Definition apply_word (f : BinaryOperation) (a b : Z) : Z :=
  match f with
  | bit_and => Z.land a b
  | bit_or => Z.lor a b
  | bit_xor => Z.lxor a b
  end.

Definition apply_bool (f : BinaryOperation) (a b : bool) : bool :=
  match f with
  | bit_and => a && b
  | bit_or => a || b
  | bit_xor => xorb a b
  end.

(** The matrices an expression refers to. *)
Definition store : Type := list BinaryMatrix.

(** The nodes.  [XUnaryOp] is only built by [operator~], with
    [std::bit_not<>] on words and [std::logical_not<>] on booleans. *)
Inductive Xpr : Type :=
| XMatrix (ref : nat)
| XUnaryOp (b : BinMtxBase) (op_ : Xpr)
| XBinaryOp (b : BinMtxBase) (op1_ op2_ : Xpr) (f_ : BinaryOperation)
| XBlock (b : BinMtxBase) (xpr_ : Xpr) (start_row_ start_col_ : Z).

Definition deref (st : store) (ref : nat) : outcome BinaryMatrix :=
  match st !! ref with
  | Some m => Ok m
  | None => Undefined
  end.

Definition xpr_base (st : store) (e : Xpr) : outcome BinMtxBase :=
  match e with
  | XMatrix ref => let* m := deref st ref in Ok (base m)
  | XUnaryOp b _ => Ok b
  | XBinaryOp b _ _ _ => Ok b
  | XBlock b _ _ _ => Ok b
  end.

(** [operator()(i, j)] of each node (the derived-class operator). *)
Fixpoint xpr_call (st : store) (e : Xpr) (i j : Z) : outcome bool :=
  match e with
  | XMatrix ref => let* m := deref st ref in BinaryMatrix_call m i j
  | XUnaryOp _ op => let* v := xpr_call st op i j in Ok (negb v)
  | XBinaryOp _ op1 op2 f =>
      let* v1 := xpr_call st op1 i j in
      let* v2 := xpr_call st op2 i j in
      Ok (apply_bool f v1 v2)
  | XBlock b xpr start_row start_col =>
      let* _ := fdapde_assert (in_bounds b i j) in
      xpr_call st xpr (i + start_row) (j + start_col)
  end.

(** [BinMtxBase::operator()(i, j)]: the assertion, then the derived operator. *)
Definition BinMtxBase_call (st : store) (e : Xpr) (i j : Z) : outcome bool :=
  let* b := xpr_base st e in
  let* _ := fdapde_assert (in_bounds b i j) in
  xpr_call st e i j.

(** The loop of [BinMtxBlock::bitpack]:
    [for (int j = 0; j < PackSize && i * PackSize + j < size(); ++j)]. *)
Fixpoint block_gather (read : Z -> Z -> outcome bool) (b : BinMtxBase)
    (i row_offset col_offset : Z) (fuel : nat) (j out : Z) : outcome Z :=
  match fuel with
  | O => Ok out
  | Datatypes.S fuel' =>
      if (j <? PackSize) && (i * PackSize + j <? size b) then
        let* q := int_div j (n_cols_ b) in
        let* r := int_rem j (n_cols_ b) in
        let* v := read (row_offset + q) (col_offset + r) in
        let* sh := shl (Z.land 1 (Z.b2z v)) j in
        block_gather read b i row_offset col_offset fuel' (j + 1) (Z.lor out sh)
      else Ok out
  end.

(** The first (row, column) of the [i]-th bitpack of a block. *)
Definition block_col_offset (b : BinMtxBase) (start_col i : Z) : outcome Z :=
  if i =? 0 then Ok (start_col + 0)
  else let* r := int_rem (i * PackSize) (n_cols_ b) in
       Ok (start_col + (n_cols_ b - (n_cols_ b - r))).

Definition block_row_offset (b : BinMtxBase) (start_row i : Z) : outcome Z :=
  match std_floor (PrimFloat.mul (double_of_int i)
                     (PrimFloat.div (double_of_int PackSize) (double_of_int (n_cols_ b)))) with
  | Some f => Ok (start_row + f)
  | None => Undefined
  end.

(** [bitpack(i)] of each node. *)
Fixpoint xpr_bitpack (st : store) (e : Xpr) (i : Z) : outcome Z :=
  match e with
  | XMatrix ref => let* m := deref st ref in data_at (data_ m) i
  | XUnaryOp _ op => let* w := xpr_bitpack st op i in Ok (bit_not w)
  | XBinaryOp _ op1 op2 f =>
      let* w1 := xpr_bitpack st op1 i in
      let* w2 := xpr_bitpack st op2 i in
      Ok (apply_word f w1 w2)
  | XBlock b xpr start_row start_col =>
      let* col_offset := block_col_offset b start_col i in
      let* row_offset := block_row_offset b start_row i in
      block_gather (xpr_call st xpr) b i row_offset col_offset (Z.to_nat PackSize) 0 0
  end.

(** [operator~], [operator&], [operator|], [operator^]. *)
Definition operator_not (st : store) (e : Xpr) : outcome Xpr :=
  let* b := xpr_base st e in
  Ok (XUnaryOp (BinMtxBase_init (Rows b) (Cols b) (rows b) (cols b)) e).

Definition binary_operator (f : BinaryOperation) (st : store) (e1 e2 : Xpr) : outcome Xpr :=
  let* b1 := xpr_base st e1 in
  let* b2 := xpr_base st e2 in
  let* _ := fdapde_static_assert ((Rows b1 =? Rows b2) && (Cols b1 =? Cols b2)) in
  let* _ := fdapde_assert ((rows b1 =? rows b2) && (cols b1 =? cols b2)) in
  Ok (XBinaryOp (BinMtxBase_init (Rows b1) (Cols b1) (rows b1) (cols b1)) e1 e2 f).

Definition operator_and := binary_operator bit_and.
Definition operator_or := binary_operator bit_or.
Definition operator_xor := binary_operator bit_xor.

(** The three constructors of [BinMtxBlock] and the members that call them. *)
Definition BinMtxBlock_rowcol (st : store) (BlockRows BlockCols : Z) (xpr : Xpr) (i : Z)
  : outcome Xpr :=
  let* xb := xpr_base st xpr in
  let* _ := fdapde_static_assert ((BlockRows =? 1) || (BlockCols =? 1)) in
  let* _ := fdapde_assert
              ((0 <=? i) &&
               (((BlockRows =? 1) && (i <? rows xb)) || ((BlockCols =? 1) && (i <? cols xb)))) in
  Ok (XBlock (BinMtxBase_init BlockRows BlockCols
                (if BlockRows =? 1 then 1 else rows xb)
                (if BlockCols =? 1 then 1 else cols xb))
        xpr (if BlockRows =? 1 then i else 0) (if BlockCols =? 1 then i else 0)).

Definition BinMtxBlock_static (st : store) (BlockRows BlockCols : Z) (xpr : Xpr)
    (start_row start_col : Z) : outcome Xpr :=
  let* xb := xpr_base st xpr in
  let* _ := fdapde_static_assert
              (negb (BlockRows =? Dynamic) && negb (BlockCols =? Dynamic)) in
  let* _ := fdapde_assert
              ((0 <=? start_row) && (0 <=? BlockRows) && (start_row + BlockRows <=? rows xb) &&
               (0 <=? start_col) && (0 <=? BlockCols) && (start_col + BlockCols <=? cols xb)) in
  Ok (XBlock (BinMtxBase_init BlockRows BlockCols BlockRows BlockCols) xpr start_row start_col).

Definition BinMtxBlock_dynamic (st : store) (BlockRows BlockCols : Z) (xpr : Xpr)
    (start_row start_col block_rows block_cols : Z) : outcome Xpr :=
  let* xb := xpr_base st xpr in
  let* _ := fdapde_assert ((BlockRows =? Dynamic) || (BlockCols =? Dynamic)) in
  let* _ := fdapde_assert
              ((0 <=? start_row) && (start_row + block_rows <=? rows xb) &&
               (0 <=? start_col) && (start_col + block_cols <=? cols xb)) in
  Ok (XBlock (BinMtxBase_init BlockRows BlockCols block_rows block_cols) xpr start_row start_col).

Definition row (st : store) (e : Xpr) (i : Z) : outcome Xpr :=
  let* b := xpr_base st e in BinMtxBlock_rowcol st 1 (Cols b) e i.

Definition col (st : store) (e : Xpr) (i : Z) : outcome Xpr :=
  let* b := xpr_base st e in BinMtxBlock_rowcol st (Rows b) 1 e i.

Definition block (st : store) (e : Xpr) (start_row start_col block_rows block_cols : Z)
  : outcome Xpr :=
  BinMtxBlock_dynamic st Dynamic Dynamic e start_row start_col block_rows block_cols.

(** [set(i, j)] through a view: the block translates the indices and calls
    [set] of what it views; operator nodes have no such member. *)
Fixpoint xpr_set (st : store) (e : Xpr) (i j : Z) : outcome store :=
  match e with
  | XMatrix ref =>
      let* m := deref st ref in
      let* m' := set m i j in
      Ok (<[ref := m']> st)
  | XBlock _ xpr start_row start_col => xpr_set st xpr (i + start_row) (j + start_col)
  | XUnaryOp _ _ => Rejected
  | XBinaryOp _ _ _ _ => Rejected
  end.

(** Block assignment from an expression:
    [operator=(const BinMtxBase<Rows_, Cols_, Rhs_>& rhs)]. *)
Definition block_assign (st : store) (blk rhs : Xpr) : outcome store :=
  match blk with
  | XBlock b _ _ _ =>
      let* rb := xpr_base st rhs in
      let* _ := fdapde_static_assert
                  (((Rows b =? Dynamic) || (Cols b =? Dynamic)) ||
                   ((Rows b =? Rows rb) && (Cols b =? Cols rb)) ||
                   ((Cols b =? 1) && ((Rows rb =? 1) || (Cols rb =? 1)))) in
      let* _ := fdapde_assert ((rows rb =? n_rows_ b) && (cols rb =? n_cols_ b)) in
      for_range (rows rb)
        (fun i st1 =>
           for_range (cols rb)
             (fun j st2 =>
                let* v := BinMtxBase_call st2 rhs i j in
                if v then xpr_set st2 blk i j else Ok st2) st1)
        st
  | _ => Rejected
  end.

(** Block assignment from a block of the same type:
    [operator=(const BinMtxBlock& rhs)]. *)
Definition block_assign_block (st : store) (blk rhs : Xpr) : outcome store :=
  match blk, rhs with
  | XBlock _ _ _ _, XBlock rb _ _ _ =>
      for_range (rows rb)
        (fun i st1 =>
           for_range (cols rb)
             (fun j st2 =>
                let* v := xpr_call st2 rhs i j in
                if v then xpr_set st2 blk i j else Ok st2) st1)
        st
  | _, _ => Rejected
  end.

(** ** Reduction visitors *)

(** The visitor contract of the word-level strategy: the running result
    [res], [apply(b)], [apply(b, size)] and the conversion to [bool] that
    asks the traversal to stop. *)
Record Visitor : Type := mkVisitor {
  res_init : bool;
  apply : bool -> Z -> bool;
  apply_sized : bool -> Z -> Z -> outcome bool;
  stop : bool -> bool
}.

Definition all_visitor : Visitor :=
  mkVisitor
    true
    (fun res b => res && (bit_not b =? 0))
    (fun res b size =>
       let* one := shl 1 (PackSize - size) in
       Ok (res && (Z.land (wrap (one - 1)) b =? wrap (one - 1))))
    (fun res => Bool.eqb res false).

Definition any_visitor : Visitor :=
  mkVisitor
    false
    (fun res b => res || negb (b =? 0))
    (fun res b size =>
       let* mask := shr (bit_not 0) (PackSize - size) in
       Ok (res || negb (Z.land mask b =? 0)))
    (fun res => Bool.eqb res true).

(** The state of the loop of [linear_bitpack_visit::run] when it is left:
    the bitpack [k], the coefficient index [i], the visitor's [res], and
    whether the visitor asked to return. *)
Record visit_state : Type := mkVisit {
  visit_k : Z;
  visit_i : Z;
  visit_res : bool;
  visit_return : bool
}.

(** [for (; i + PackSize - 1 < size; i += PackSize)
       { visitor.apply(xpr.bitpack(k)); if (visitor) return; k++; }]
    The bound [i + PackSize - 1] is computed on [int]s, [i + PackSize]
    first. *)
Fixpoint visit_loop (V : Visitor) (read : Z -> outcome Z) (size : Z)
    (fuel : nat) (k i : Z) (res : bool) : outcome visit_state :=
  match fuel with
  | O => Ok (mkVisit k i res false)
  | Datatypes.S fuel' =>
      let* next := int_result (i + PackSize) in
      let* last := int_result (next - 1) in
      if last <? size then
        let* w := read k in
        let res' := apply V res w in
        if stop V res' then Ok (mkVisit k i res' true)
        else visit_loop V read size fuel' (k + 1) next res'
      else Ok (mkVisit k i res false)
  end.

(** [linear_bitpack_visit::run]; the loop body runs [size / PackSize] times
    at most, the fuel is one more than that. *)
Definition linear_bitpack_visit (V : Visitor) (st : store) (xpr : Xpr) : outcome bool :=
  let* b := xpr_base st xpr in
  let size := size b in
  if size =? 0 then Ok (res_init V)
  else if size <? PackSize then
    let* w := xpr_bitpack st xpr 0 in
    apply_sized V (res_init V) w (PackSize - size)
  else
    let* s := visit_loop V (xpr_bitpack st xpr) size
                (Datatypes.S (Z.to_nat (size / PackSize))) 0 0 (res_init V) in
    if visit_return s then Ok (visit_res s)
    else if visit_i s <? size then
      let* w := xpr_bitpack st xpr (visit_k s) in
      apply_sized V (visit_res s) w (size - visit_i s)
    else Ok (visit_res s).

Definition all (st : store) (xpr : Xpr) : outcome bool := linear_bitpack_visit all_visitor st xpr.
Definition any (st : store) (xpr : Xpr) : outcome bool := linear_bitpack_visit any_visitor st xpr.

(** ** Comparison *)

(** [for (int i = 0; i < n && result; i++)
       { result &= (op1.bitpack(i) == op2.bitpack(i)); }] *)
Fixpoint eq_loop (read1 read2 : Z -> outcome Z) (fuel : nat) (i : Z) (result : bool)
  : outcome bool :=
  match fuel with
  | O => Ok result
  | Datatypes.S fuel' =>
      if result then
        let* w1 := read1 i in
        let* w2 := read2 i in
        eq_loop read1 read2 fuel' (i + 1) (result && (w1 =? w2))
      else Ok result
  end.

(** [for (int i = 0; i < n && !result; i++)
       { result |= (op1.bitpack(i) != op2.bitpack(i)); }] *)
Fixpoint neq_loop (read1 read2 : Z -> outcome Z) (fuel : nat) (i : Z) (result : bool)
  : outcome bool :=
  match fuel with
  | O => Ok result
  | Datatypes.S fuel' =>
      if negb result then
        let* w1 := read1 i in
        let* w2 := read2 i in
        neq_loop read1 read2 fuel' (i + 1) (result || negb (w1 =? w2))
      else Ok result
  end.

Definition comparable (b1 b2 : BinMtxBase) : bool :=
  negb (negb (Rows b1 =? Dynamic) && negb (Cols b1 =? Dynamic) &&
        negb (Rows b2 =? Dynamic) && negb (Cols b2 =? Dynamic))
  || ((Rows b1 =? Cols b1) && (Rows b2 =? Cols b2)).

Definition operator_eq (st : store) (op1 op2 : Xpr) : outcome bool :=
  let* b1 := xpr_base st op1 in
  let* b2 := xpr_base st op2 in
  let* _ := fdapde_static_assert (comparable b1 b2) in
  let* _ := fdapde_assert ((rows b1 =? rows b2) && (cols b1 =? cols b2)) in
  let n := bitpacks b1 - 1 in
  let* result := eq_loop (xpr_bitpack st op1) (xpr_bitpack st op2) (Z.to_nat n) 0 true in
  let* mask := shr (bit_not 0) (PackSize - (size b1 - PackSize * n)) in
  let* w1 := xpr_bitpack st op1 n in
  let* w2 := xpr_bitpack st op2 n in
  Ok (result && (Z.land mask w1 =? Z.land mask w2)).

Definition operator_neq (st : store) (op1 op2 : Xpr) : outcome bool :=
  let* b1 := xpr_base st op1 in
  let* b2 := xpr_base st op2 in
  let* _ := fdapde_static_assert (comparable b1 b2) in
  let* _ := fdapde_assert ((rows b1 =? rows b2) && (cols b1 =? cols b2)) in
  let n := bitpacks b1 - 1 in
  let* result := neq_loop (xpr_bitpack st op1) (xpr_bitpack st op2) (Z.to_nat n) 0 false in
  let* mask := shr (bit_not 0) (PackSize - (size b1 - PackSize * n)) in
  let* w1 := xpr_bitpack st op1 n in
  let* w2 := xpr_bitpack st op2 n in
  Ok (result || negb (Z.land mask w1 =? Z.land mask w2)).

(** ** Well-formed matrices *)

Definition is_word (w : Z) : bool := (0 <=? w) && (w <? 2 ^ PackSize).

(** What the constructors and [resize] establish and every mutator keeps:
    non-negative extents, a size that fits an [int], as many words as
    [n_bitpacks_] says, each of them a 64-bit value. *)
Definition well_formed (m : BinaryMatrix) : bool :=
  (0 <=? n_rows_ (base m)) && (0 <=? n_cols_ (base m)) &&
  (size (base m) <=? INT_MAX) &&
  (n_bitpacks_ (base m) =? 1 + size (base m) / PackSize) &&
  (Z.of_nat (length (data_ m)) =? n_bitpacks_ (base m)) &&
  forallb is_word (data_ m).

(** The minimum number of words that hold [n] bits. *)
Definition ceil_div (n d : Z) : Z := (n + d - 1) / d.

(** The word of index [p], zero outside the storage. *)
Definition word_at (d : list Z) (p : Z) : Z := default 0 (d !! Z.to_nat p).

(** The coefficient with row-major index [k], read in the packed words. *)
Definition bit_of (d : list Z) (k : Z) : bool :=
  Z.testbit (word_at d (k / PackSize)) (k mod PackSize).

(** [xor_or_and st m1 m2] builds [(m1 ^ m2) | (m1 & m2)]. *)
Definition xor_or_and (st : store) (m1 m2 : Xpr) : outcome Xpr :=
  let* x := operator_xor st m1 m2 in
  let* a := operator_and st m1 m2 in
  operator_or st x a.

(** [m'] has just been constructed or resized with [r] rows and [c]
    columns. *)
Definition sized_with (r c : Z) (m' : BinaryMatrix) : Prop :=
  BinaryMatrix_static r c = Ok m' \/
  (exists R C, BinaryMatrix_sized R C r c = Ok m') \/
  (exists m, resize m r c = Ok m') \/
  (exists m, c = 1 /\ resize_vector m r = Ok m').

(** Whether the coefficient of [mtx] with row-major index [k] (for [C]
    columns) is non-zero. *)
Definition nonzero_at (mtx : EigenMatrix) (C k : Z) : bool :=
  negb (coeff mtx (k / C) (k mod C) =? 0).

(** The words [d] are the words [d0] with the bits of the non-zero
    coefficients of index below [n] turned on. *)
Definition eigen_filled (mtx : EigenMatrix) (C : Z) (d0 d : list Z) (n : Z) : Prop :=
  forall k, 0 <= k ->
    bit_of d k = bit_of d0 k || ((k <? n) && nonzero_at mtx C k).

(** Whether the cell with row-major index [k] of a matrix with [N] columns
    lies in the block at [(sr, sc)] with [bc] columns, at a block position
    that comes before [(i, j)] in row-major order, and is true in [src]. *)
Definition assigned_before (src : Z -> Z -> bool) (N sr sc bc : Z) (i j k : Z) : bool :=
  (0 <=? k / N - sr) && (0 <=? k mod N - sc) && (k mod N - sc <? bc) &&
  ((k / N - sr <? i) || ((k / N - sr =? i) && (k mod N - sc <? j))) &&
  src (k / N - sr) (k mod N - sc).

(** The cell [(i, j)] of the source [ms] of an assignment to the block [b],
    read in the words of [ms]. *)
Definition source_bit (ms : BinaryMatrix) (b : BinMtxBase) (i j : Z) : bool :=
  bit_of (data_ ms) (i * n_cols_ b + j).

(** The state of the store while [ms] is assigned to the block [b] at
    [(sr, sc)] of [mt], when the cells before [(i, j)] have been processed. *)
Definition assigned_upto (target source : nat) (mt ms : BinaryMatrix) (b : BinMtxBase)
    (sr sc : Z) (i j : Z) (st' : store) : Prop :=
  st' !! source = Some ms /\
  exists mt', st' !! target = Some mt' /\
    base mt' = base mt /\
    length (data_ mt') = length (data_ mt) /\
    forall k, 0 <= k ->
      bit_of (data_ mt') k =
      bit_of (data_ mt) k ||
      assigned_before (source_bit ms b) (n_cols_ (base mt)) sr sc (n_cols_ b) i j k.

(** Reading an outcome as the boolean "returned true". *)
Definition is_ok_true (o : outcome bool) : bool :=
  match o with
  | Ok true => true
  | _ => false
  end.

(** ** Concrete inputs used below *)

Definition C6_m1 : BinaryMatrix := mkMatrix (BinMtxBase_init Dynamic Dynamic 1 1) [1].
Definition C6_m2 : BinaryMatrix := mkMatrix (BinMtxBase_init Dynamic Dynamic 1 1) [0].

Definition C10_static : BinaryMatrix := mkMatrix (BinMtxBase_init 2 2 2 2) [1].
Definition C10_dynamic : BinaryMatrix := mkMatrix (BinMtxBase_init Dynamic Dynamic 2 2) [1].
Definition C10_source (R C : Z) : EigenMatrix :=
  mkEigen R C 2 2 (fun i j => if (i =? 1) && (j =? 1) then 7 else 0).

(** ** Scenarios of the repository's tests (test/src/binary_matrix_test.cpp) *)

(** [binary_expresssions]: the nine expectations of the test, in order. *)
Definition test_binary_expressions : outcome (list bool) :=
  let* m1 := BinaryMatrix_sized Dynamic Dynamic 4 5 in
  let* m1 := set m1 3 3 in
  let* m2 := BinaryMatrix_sized Dynamic Dynamic 4 5 in
  let* m2 := set m2 2 2 in
  let* m2 := set m2 3 3 in
  let* ones := Ones Dynamic Dynamic 4 5 in
  let* zero := BinaryMatrix_sized Dynamic Dynamic 4 5 in
  let* I := Ones Dynamic Dynamic 2 2 in
  let st := [m1; m2; ones; zero; I] in
  let* not_m1 := operator_not st (XMatrix 0) in
  let* m1_or_not := operator_or st (XMatrix 0) not_m1 in
  let* r1 := operator_eq st m1_or_not (XMatrix 2) in
  let* m1_and_not := operator_and st (XMatrix 0) not_m1 in
  let* r2 := operator_eq st m1_and_not (XMatrix 3) in
  let* e1 := operator_or st (XMatrix 0) (XMatrix 1) in
  let* v1 := BinMtxBase_call st e1 3 3 in
  let* v2 := BinMtxBase_call st e1 2 2 in
  let* e2 := operator_and st (XMatrix 0) (XMatrix 1) in
  let* v3 := BinMtxBase_call st e2 3 3 in
  let* e3 := operator_xor st (XMatrix 0) (XMatrix 1) in
  let* v4 := BinMtxBase_call st e3 2 2 in
  let* e4 := operator_or st e3 e2 in
  let* r3 := operator_eq st e4 (XMatrix 1) in
  let* row1 := row st e1 0 in
  let* row2 := row st e2 0 in
  let* r4 := operator_eq st row1 row2 in
  let* blk := block st (XMatrix 0) 2 3 2 2 in
  let* blk_and_I := operator_and st blk (XMatrix 4) in
  let* r5 := operator_eq st blk_and_I blk in
  Ok [r1; r2; v1; v2; v3; v4; r3; r4; r5].

(** [visitors]: the values of [all()] and [any()] the test looks at. *)
Definition test_visitors : outcome (list bool) :=
  let* m1 := Ones Dynamic Dynamic 150 4 in
  let* a1 := all [m1] (XMatrix 0) in
  let* m1 := clear m1 0 0 in
  let* a2 := all [m1] (XMatrix 0) in
  let* m1 := set m1 0 0 in
  let* m1 := clear m1 100 2 in
  let* a3 := all [m1] (XMatrix 0) in
  let* m1 := set m1 100 2 in
  let* m1 := clear m1 149 3 in
  let* a4 := all [m1] (XMatrix 0) in
  let* v1 := Ones Dynamic 1 500 1 in
  let* a5 := all [v1] (XMatrix 0) in
  let* v1 := clear v1 0 0 in
  let* a6 := all [v1] (XMatrix 0) in
  let* v2 := BinaryMatrix_sized Dynamic 1 500 1 in
  let* b1 := any [v2] (XMatrix 0) in
  let* v2 := set v2 0 0 in
  let* b2 := any [v2] (XMatrix 0) in
  let* v2 := clear v2 0 0 in
  let* v2 := set v2 300 0 in
  let* b3 := any [v2] (XMatrix 0) in
  let* v2 := clear v2 300 0 in
  let* v2 := set v2 499 0 in
  let* b4 := any [v2] (XMatrix 0) in
  let* v3 := BinaryMatrix_static 3 1 in
  let* v3 := set v3 0 0 in
  let* v3 := set v3 1 0 in
  let* v3 := set v3 2 0 in
  let* c1 := all [v3] (XMatrix 0) in
  let* v3 := clear v3 1 0 in
  let* c2 := all [v3] (XMatrix 0) in
  let* v3 := clear v3 0 0 in
  let* v3 := clear v3 2 0 in
  let* c3 := any [v3] (XMatrix 0) in
  Ok [a1; a2; a3; a4; a5; a6; b1; b2; b3; b4; c1; c2; c3].

(** [block_operations]: the dynamic block against the static one. *)
Definition test_block_operations : outcome bool :=
  let* m := BinaryMatrix_sized Dynamic Dynamic 5 100 in
  let* m := set m 3 40 in
  let* m := set m 4 60 in
  let* blk := block [m] (XMatrix 0) 2 40 3 30 in
  let* static_block := BinMtxBlock_static [m] 3 30 (XMatrix 0) 2 40 in
  operator_eq [m] blk static_block.

(** ** More of the concrete matrix *)

(** [operator[](i)], [set(i)] and [clear(i)], the vector-like accessors
    ([Cols == 1]). *)
Definition BinaryMatrix_subscript (m : BinaryMatrix) (i : Z) : outcome bool :=
  if Cols (base m) =? 1 then BinaryMatrix_call m i 0 else Rejected.

Definition set_vector (m : BinaryMatrix) (i : Z) : outcome BinaryMatrix :=
  let* _ := fdapde_static_assert (Cols (base m) =? 1) in set m i 0.

Definition clear_vector (m : BinaryMatrix) (i : Z) : outcome BinaryMatrix :=
  let* _ := fdapde_static_assert (Cols (base m) =? 1) in clear m i 0.

(** [explicit BinaryMatrix(int n_rows)], the vector constructor. *)
Definition BinaryMatrix_vector (R C : Z) (n_rows : Z) : outcome BinaryMatrix :=
  let* _ := fdapde_static_assert ((R =? Dynamic) && (C =? 1)) in
  BinaryMatrix_sized R C n_rows 1.

(** [Ones(i)], the vector-like factory. *)
Definition Ones_vector (R C : Z) (i : Z) : outcome BinaryMatrix :=
  let* _ := fdapde_static_assert ((R =? Dynamic) && (C =? 1)) in
  let* result := BinaryMatrix_vector R 1 i in
  for_range (bitpacks (base result))
    (fun k r => let* d := data_write (data_ r) k (wrap (-1)) in Ok (with_data r d))
    result.

(** [Identity(i, j)]; the loop [for (k = 0; k < j && k < i; ++k)] runs
    [min(i, j)] times. *)
Definition Identity (R C : Z) (i j : Z) : outcome BinaryMatrix :=
  let* _ := fdapde_static_assert (negb (R =? 1) && negb (C =? 1)) in
  let* result := BinaryMatrix_declare R C in
  let* result := resize result i j in
  for_range (Z.min j i) (fun k r => set r k k) result.

(** ** Expressions through their interface *)

(** What generic code sees of an expression node: the fields of the base
    class and the two members of the derived class, [operator()(i, j)] and
    [bitpack(i)]. *)
Record Expression : Type := mkExpression {
  expr_base : BinMtxBase;
  expr_call : Z -> Z -> outcome bool;
  expr_bitpack : Z -> outcome Z
}.

Definition expression_of (st : store) (e : Xpr) : outcome Expression :=
  let* b := xpr_base st e in
  Ok (mkExpression b (xpr_call st e) (xpr_bitpack st e)).

(** [which(b)]: the row-major indices of the coefficients equal to [b];
    [push_back] appends. *)
Definition which (x : Expression) (b : bool) : outcome (list Z) :=
  for_range (n_rows_ (expr_base x))
    (fun i result =>
       for_range (n_cols_ (expr_base x))
         (fun j result =>
            let* v := expr_call x i j in
            Ok (if Bool.eqb v b then result ++ [i * n_cols_ (expr_base x) + j] else result))
         result)
    [].

(** The free function [which(mtx)]. *)
Definition which_of (x : Expression) : outcome (list Z) := which x true.

(** The visitor contract of the bit-level strategy: the running result
    [res] and [apply(bool)]. *)
Record BitVisitor (R : Type) : Type := mkBitVisitor {
  bit_res_init : R;
  bit_apply : R -> bool -> R
}.

Arguments mkBitVisitor {R} _ _.
Arguments bit_res_init {R} _.
Arguments bit_apply {R} _ _ _.

Definition count_visitor : BitVisitor Z :=
  mkBitVisitor 0 (fun res b => if b then res + 1 else res).

(** [{ visitor.apply((bitpack & 1) == 1); bitpack = bitpack >> 1; }],
    [n] times. *)
Fixpoint bit_loop {R : Type} (V : BitVisitor R) (n : nat) (bitpack : Z) (res : R)
  : outcome R :=
  match n with
  | O => Ok res
  | Datatypes.S n' =>
      let* next := shr bitpack 1 in
      bit_loop V n' next (bit_apply V res (Z.land bitpack 1 =? 1))
  end.

(** [linear_bit_visit::run]; the state of the outer loop is the coefficient
    index [i] and the visitor.  The test [i + PackSize < size] adds two
    [int]s. *)
Definition linear_bit_visit {R : Type} (V : BitVisitor R) (x : Expression) : outcome R :=
  let sz := size (expr_base x) in
  if sz =? 0 then Ok (bit_res_init V)
  else
    let* s := for_range (bitpacks (expr_base x))
                (fun k (s : Z * R) =>
                   let* bitpack := expr_bitpack x k in
                   let* next := int_result (fst s + PackSize) in
                   if next <? sz then
                     let* res := bit_loop V (Z.to_nat PackSize) bitpack (snd s) in
                     Ok (next, res)
                   else
                     let* res := bit_loop V (Z.to_nat (sz - fst s)) bitpack (snd s) in
                     Ok (Z.max (fst s) sz, res))
                (0, bit_res_init V) in
    Ok (snd s).

Definition count (x : Expression) : outcome Z := linear_bit_visit count_visitor x.

(** *** Block repetition *)

(** The loop of [BinMtxRepeatOp::bitpack]:
    [for (int j = 0; j < PackSize && i * PackSize + j < size(); ++j)]. *)
Fixpoint repeat_gather (xpr : Expression) (b : BinMtxBase) (i : Z) (fuel : nat) (j out : Z)
  : outcome Z :=
  match fuel with
  | O => Ok out
  | Datatypes.S fuel' =>
      if (j <? PackSize) && (i * PackSize + j <? size b) then
        let* q := int_div (i * PackSize + j) (n_cols_ b) in
        let* r := int_rem q (rows (expr_base xpr)) in
        let* c := int_rem (i * PackSize + j) (cols (expr_base xpr)) in
        let* v := expr_call xpr r c in
        let* sh := shl (Z.land 1 (Z.b2z v)) j in
        repeat_gather xpr b i fuel' (j + 1) (Z.lor out sh)
      else Ok out
  end.

(** [BinMtxRepeatOp<Dynamic, Dynamic, XprType>(xpr, rep_row, rep_col)]. *)
Definition BinMtxRepeatOp (xpr : Expression) (rep_row rep_col : Z) : Expression :=
  let b := BinMtxBase_init Dynamic Dynamic
             (rows (expr_base xpr) * rep_row) (cols (expr_base xpr) * rep_col) in
  mkExpression b
    (fun i j =>
       let* _ := fdapde_assert (in_bounds b i j) in
       let* r := int_rem i (rows (expr_base xpr)) in
       let* c := int_rem j (cols (expr_base xpr)) in
       expr_call xpr r c)
    (fun i => repeat_gather xpr b i (Z.to_nat PackSize) 0 0).

Definition repeat (x : Expression) (rep_row rep_col : Z) : Expression :=
  BinMtxRepeatOp x rep_row rep_col.

(** *** Reshaping *)

(** [BinMtxReshapedOp<Dynamic, Dynamic, XprType>(xpr, reshaped_rows,
    reshaped_cols)]; the storage layout is the one of [xpr]. *)
Definition BinMtxReshapedOp (xpr : Expression) (reshaped_rows reshaped_cols : Z)
  : outcome Expression :=
  let* _ := fdapde_assert
              (reshaped_rows * reshaped_cols =? rows (expr_base xpr) * cols (expr_base xpr)) in
  Ok (mkExpression (BinMtxBase_init Dynamic Dynamic reshaped_rows reshaped_cols)
        (fun i j =>
           let* _ := fdapde_assert ((i <? reshaped_rows) && (j <? reshaped_cols)) in
           let* q := int_div (i * reshaped_cols + j) (cols (expr_base xpr)) in
           let* r := int_rem (i * reshaped_cols + j) (cols (expr_base xpr)) in
           expr_call xpr q r)
        (expr_bitpack xpr)).

Definition reshaped (x : Expression) (n_row n_col : Z) : outcome Expression :=
  BinMtxReshapedOp x n_row n_col.

Definition vector_view (x : Expression) : outcome Expression :=
  reshaped x (size (expr_base x)) 1.

(** ** Assignment of an expression to a matrix *)

(** [data_.resize(n, 0)] of a [std::vector]: the first [n] words are kept,
    missing ones are zero.  A negative count is converted to a huge
    unsigned one and the call does not return a vector. *)
Definition vector_resize (d : list Z) (n : Z) : outcome (list Z) :=
  if n <? 0 then Undefined
  else Ok (take (Z.to_nat n) d ++ replicate (Z.to_nat n - length d) 0).

(** The extents that the assignment gives the target whose static number of
    columns is [C]. *)
Definition assigned_rows (C : Z) (rb : BinMtxBase) : Z :=
  if (C =? 1) && ((Rows rb =? 1) || (Cols rb =? 1))
  then (if Rows rb =? 1 then cols rb else rows rb)
  else rows rb.

Definition assigned_cols (C : Z) (rb : BinMtxBase) : Z :=
  if C =? 1 then 1 else cols rb.

(** [BinaryMatrix::operator=(const BinMtxBase<Rows_, Cols_, Rhs_>& rhs)] on
    the matrix [target] of the store.  The right-hand side is given as what
    it evaluates to in a store, since it may refer to the target itself:
    every [rhs.bitpack(i)] is read in the store as it is at that
    iteration.  The extents and the number of bitpacks of [rhs] are read
    once: an operator node keeps its own copy of them, and for the target
    itself the statements that precede the loop write back what they
    read. *)
Definition assign (st : store) (target : nat) (rhs : store -> outcome Expression)
  : outcome store :=
  let* m := deref st target in
  let* x := rhs st in
  let rb := expr_base x in
  let R := Rows (base m) in
  let C := Cols (base m) in
  let* _ := fdapde_static_assert
              (is_dynamic_sized R C ||
               ((R =? Rows rb) && (C =? Cols rb)) ||
               ((C =? 1) && ((Rows rb =? 1) || (Cols rb =? 1)))) in
  let* d := (if is_dynamic_sized R C then vector_resize (data_ m) (bitpacks rb)
             else Ok (data_ m)) in
  let st1 := <[target := mkMatrix (mkBase R C (assigned_rows C rb) (assigned_cols C rb)
                                     (bitpacks rb)) d]> st in
  for_range (bitpacks rb)
    (fun i st2 =>
       let* x2 := rhs st2 in
       let* w := expr_bitpack x2 i in
       let* m2 := deref st2 target in
       let* d2 := data_write (data_ m2) i w in
       Ok (<[target := with_data m2 d2]> st2))
    st1.

(** ** Writing through views *)

(** [clear(i, j)] through a view, as [xpr_set]. *)
Fixpoint xpr_clear (st : store) (e : Xpr) (i j : Z) : outcome store :=
  match e with
  | XMatrix ref =>
      let* m := deref st ref in
      let* m' := clear m i j in
      Ok (<[ref := m']> st)
  | XBlock _ xpr start_row start_col => xpr_clear st xpr (i + start_row) (j + start_col)
  | XUnaryOp _ _ => Rejected
  | XBinaryOp _ _ _ _ => Rejected
  end.

(** [set()] and [clear()] of a block: every coefficient of the block, row
    by row, through [set(i, j)] and [clear(i, j)]. *)
Definition block_set_all (st : store) (blk : Xpr) : outcome store :=
  match blk with
  | XBlock b _ _ _ =>
      for_range (n_rows_ b)
        (fun i st1 => for_range (n_cols_ b) (fun j st2 => xpr_set st2 blk i j) st1) st
  | _ => Rejected
  end.

Definition block_clear_all (st : store) (blk : Xpr) : outcome store :=
  match blk with
  | XBlock b _ _ _ =>
      for_range (n_rows_ b)
        (fun i st1 => for_range (n_cols_ b) (fun j st2 => xpr_clear st2 blk i j) st1) st
  | _ => Rejected
  end.

(** ** Construction from a range *)

(** [*it] at the [i]-th position of the range; at or past the end there is
    nothing to read. *)
Definition iterator_read {A : Type} (l : list A) (i : Z) : outcome A :=
  if i <? 0 then Undefined
  else match l !! Z.to_nat i with
       | Some v => Ok v
       | None => Undefined
       end.

(** [for (it = begin; it != end || i < n; ++it, ++i)], whose body writes
    the [i]-th cell when [*it] is true. *)
Fixpoint iterator_loop (l : list bool) (n : Z)
    (write : Z -> BinaryMatrix -> outcome BinaryMatrix)
    (fuel : nat) (i : Z) (m : BinaryMatrix) : outcome BinaryMatrix :=
  match fuel with
  | O => Ok m
  | Datatypes.S fuel' =>
      if negb (i =? Z.of_nat (length l)) || (i <? n) then
        let* v := iterator_read l i in
        let* m' := (if v then write i m else Ok m) in
        iterator_loop l n write fuel' (i + 1) m'
      else Ok m
  end.

(** The loop is left at the latest when [i] has passed both the end of the
    range and [n]. *)
Definition iterator_fuel (l : list bool) (n : Z) : nat :=
  Datatypes.S (Nat.max (length l) (Z.to_nat n)).

(** [BinaryMatrix(Iterator begin, Iterator end, int n_rows, int n_cols)];
    [l] holds the truth values of the elements of the range. *)
Definition BinaryMatrix_of_range (R C : Z) (l : list bool) (n_rows n_cols : Z)
  : outcome BinaryMatrix :=
  let* _ := fdapde_static_assert ((R =? Dynamic) && (C =? Dynamic)) in
  let* m := resize (mkMatrix (BinMtxBase_init R C n_rows n_cols) []) n_rows n_cols in
  iterator_loop l (n_rows * n_cols)
    (fun i m1 =>
       let* q := int_div i n_rows in
       let* r := int_rem i n_cols in
       set m1 q r)
    (iterator_fuel l (n_rows * n_cols)) 0 m.

(** [BinaryMatrix(Iterator begin, Iterator end, int n_rows)]. *)
Definition BinaryMatrix_of_range_vector (R C : Z) (l : list bool) (n_rows : Z)
  : outcome BinaryMatrix :=
  let* _ := fdapde_static_assert ((R =? Dynamic) && (C =? 1)) in
  let* m := BinaryMatrix_sized R C n_rows 1 in
  let* m := resize_vector m n_rows in
  iterator_loop l n_rows (fun i m1 => set_vector m1 i) (iterator_fuel l n_rows) 0 m.

(** [make_binary_vector(first, last, c)]; [eqb] is [operator==] of the
    value type. *)
Definition make_binary_vector {A : Type} (eqb : A -> A -> bool) (values : list A) (c : A)
  : outcome BinaryMatrix :=
  let n_rows := Z.of_nat (length values) in
  let* vec := BinaryMatrix_vector Dynamic 1 n_rows in
  for_range n_rows
    (fun i vec1 =>
       let* v := iterator_read values i in
       if eqb v c then set_vector vec1 i else Ok vec1)
    vec.

(** ** What an expression denotes *)

(** The expression [x] denotes the row-major sequence [cell]: its extents
    are sound, [operator()] returns the cell, and bit [t] of [bitpack(k)]
    is the cell of index [k * PackSize + t] as far as there are cells. *)
Definition represents (x : Expression) (cell : Z -> bool) : Prop :=
  let b := expr_base x in
  0 <= n_rows_ b /\ 0 <= n_cols_ b /\ size b <= INT_MAX /\
  n_bitpacks_ b = 1 + size b / PackSize /\
  (forall i j, 0 <= i < n_rows_ b -> 0 <= j < n_cols_ b ->
     expr_call x i j = Ok (cell (i * n_cols_ b + j))) /\
  (forall k, 0 <= k < n_bitpacks_ b ->
     exists w, expr_bitpack x k = Ok w /\ 0 <= w < 2 ^ PackSize /\
       forall t, 0 <= t < PackSize -> k * PackSize + t < size b ->
         Z.testbit w t = cell (k * PackSize + t)).

(** The indices below [n] at which [cell] holds, in increasing order. *)
Definition cells_below (cell : Z -> bool) (n : Z) : list Z :=
  List.filter cell (List.map Z.of_nat (List.seq 0 (Z.to_nat n))).

(** Whether the expression [e] reads the matrix [target] of the store. *)
Fixpoint mentions (target : nat) (e : Xpr) : bool :=
  match e with
  | XMatrix ref => Nat.eqb ref target
  | XUnaryOp _ op => mentions target op
  | XBinaryOp _ op1 op2 _ => mentions target op1 || mentions target op2
  | XBlock _ xpr _ _ => mentions target xpr
  end.

(** *** The repository's tests of counting, repetition and reshaping *)

Definition count_of (st : store) (e : Xpr) : outcome Z :=
  let* x := expression_of st e in count x.

(** TEST(binary_matrix_test, visitors): the checks of [count()]. *)
Definition test_count : outcome bool :=
  let* m1 := Ones Dynamic Dynamic 150 4 in
  let* c1 := count_of [m1] (XMatrix 0) in
  let* m1 := clear m1 0 0 in
  let* c2 := count_of [m1] (XMatrix 0) in
  let* v1 := Ones_vector Dynamic 1 500 in
  let* c3 := count_of [v1] (XMatrix 0) in
  let* v1 := clear v1 0 0 in
  let* c4 := count_of [v1] (XMatrix 0) in
  let* v1 := clear v1 200 0 in
  let* c5 := count_of [v1] (XMatrix 0) in
  let* v2 := BinaryMatrix_vector Dynamic 1 500 in
  let* c6 := count_of [v2] (XMatrix 0) in
  Ok ((c1 =? size (base m1)) && (c2 =? size (base m1) - 1) &&
      (c3 =? size (base v1)) && (c4 =? size (base v1) - 1) &&
      (c5 =? size (base v1) - 2) && (c6 =? 0)).

(** TEST(binary_matrix_test, block_repeat), first part; the constructor
    from an expression runs the statements of [operator=] on a new
    matrix. *)
Definition test_block_repeat : outcome bool :=
  let* m1 := Ones Dynamic Dynamic 3 4 in
  let* m2 := BinaryMatrix_empty Dynamic Dynamic in
  let* res := Ones Dynamic Dynamic 6 16 in
  let st := [m1; m2; res] in
  let* r := row st (XMatrix 0) 1 in
  let* st := block_clear_all st r in
  let* st := xpr_set st (XMatrix 0) 1 1 in
  let* st := assign st 1 (fun s => let* x := expression_of s (XMatrix 0) in
                                   Ok (repeat x 2 4)) in
  let* b2 := xpr_base st (XMatrix 1) in
  let* r1 := row st (XMatrix 2) 1 in
  let* st := block_clear_all st r1 in
  let* r4 := row st (XMatrix 2) 4 in
  let* st := block_clear_all st r4 in
  let* st := xpr_set st (XMatrix 2) 1 1 in
  let* st := xpr_set st (XMatrix 2) 1 5 in
  let* st := xpr_set st (XMatrix 2) 1 9 in
  let* st := xpr_set st (XMatrix 2) 1 13 in
  let* st := xpr_set st (XMatrix 2) 4 1 in
  let* st := xpr_set st (XMatrix 2) 4 5 in
  let* st := xpr_set st (XMatrix 2) 4 9 in
  let* st := xpr_set st (XMatrix 2) 4 13 in
  let* same := operator_eq st (XMatrix 1) (XMatrix 2) in
  Ok ((rows b2 =? 6) && (cols b2 =? 16) && same).

(** TEST(binary_matrix_test, reshaped). *)
Definition test_reshaped : outcome bool :=
  let* m1 := BinaryMatrix_sized Dynamic Dynamic 5 20 in
  let* m1 := set m1 3 15 in
  let* m1 := set m1 4 19 in
  let* m2 := BinaryMatrix_empty Dynamic Dynamic in
  let* m3 := BinaryMatrix_empty Dynamic Dynamic in
  let* m4 := BinaryMatrix_sized Dynamic Dynamic 100 10 in
  let st := [m1; m2; m3; m4] in
  let* st := assign st 1 (fun s => let* x := expression_of s (XMatrix 0) in reshaped x 4 25) in
  let* b2 := xpr_base st (XMatrix 1) in
  let* c := count_of st (XMatrix 1) in
  let* a := BinMtxBase_call st (XMatrix 1) 3 0 in
  let* b := BinMtxBase_call st (XMatrix 1) 3 24 in
  let* st := assign st 2 (fun s => let* x := expression_of s (XMatrix 0) in
                                   let* v := vector_view x in
                                   Ok (repeat v 1 10)) in
  let* r75 := row st (XMatrix 3) 75 in
  let* st := block_set_all st r75 in
  let* r99 := row st (XMatrix 3) 99 in
  let* st := block_set_all st r99 in
  let* same := operator_eq st (XMatrix 2) (XMatrix 3) in
  Ok ((rows b2 =? 4) && (cols b2 =? 25) && (c =? 2) && a && b && same).

(** TEST(binary_matrix_test, block_repeat), second part, with the
    repetition assigned to a matrix before the comparison. *)
Definition test_vector_repeat : outcome bool :=
  let* v1 := BinaryMatrix_vector Dynamic 1 10 in
  let* v1 := set_vector v1 4 in
  let* res2 := BinaryMatrix_sized Dynamic Dynamic 10 10 in
  let* tmp := BinaryMatrix_empty Dynamic Dynamic in
  let st := [v1; res2; tmp] in
  let* r4 := row st (XMatrix 1) 4 in
  let* st := block_set_all st r4 in
  let* st := assign st 2 (fun s => let* x := expression_of s (XMatrix 0) in
                                   Ok (repeat x 1 10)) in
  operator_eq st (XMatrix 2) (XMatrix 1).

(** What [which] and the nodes that gather their bitpacks use of an
    expression: its extents and its coefficients through [operator()],
    numbered by rows in [cell].  Nothing is asked of its bitpacks, so that
    a block view, whose bitpacks read outside the block, is covered. *)
Definition reads (x : Expression) (cell : Z -> bool) : Prop :=
  let b := expr_base x in
  0 <= n_rows_ b /\ 0 <= n_cols_ b /\ size b <= INT_MAX /\
  (forall i j, 0 <= i < n_rows_ b -> 0 <= j < n_cols_ b ->
     expr_call x i j = Ok (cell (i * n_cols_ b + j))).

(** A matrix of 30 rows and 4 columns whose only true cell is (21, 3), and
    one with the cell (2, 1) true as well; the view of their first three
    columns leaves the cell (21, 3) out. *)
Definition view_source : BinaryMatrix :=
  mkMatrix (BinMtxBase_init Dynamic Dynamic 30 4) [0; 2 ^ 23].

Definition view_source_two : BinaryMatrix :=
  mkMatrix (BinMtxBase_init Dynamic Dynamic 30 4) [2 ^ 9; 2 ^ 23].

Definition view_of_three_columns (st : store) : outcome Xpr :=
  block st (XMatrix 0) 0 0 30 3.

(** The number of indices in [[a, a + n)] at which [cell] holds. *)
Fixpoint count_from (cell : Z -> bool) (a : Z) (n : nat) : Z :=
  match n with
  | O => 0
  | Datatypes.S n' => (if cell a then 1 else 0) + count_from cell (a + 1) n'
  end.

(** * Properties *)

(** ** Evaluation on concrete inputs *)

(** Closes a goal that is settled by running the embedding. *)
Ltac by_evaluation := vm_compute; reflexivity.

Lemma forall_below (n : nat) (P : Z -> bool) :
  forallb P (map Z.of_nat (seq 0 n)) = true ->
  forall j, 0 <= j < Z.of_nat n -> P j = true.
Proof.
  intros H j Hj.
  rewrite forallb_forall in H. apply H.
  apply in_map_iff. exists (Z.to_nat j). split; [lia |].
  apply in_seq. lia.
Qed.

Lemma forall_below2 (n1 n2 : nat) (P : Z -> Z -> bool) :
  forallb (fun i => forallb (P i) (map Z.of_nat (seq 0 n2))) (map Z.of_nat (seq 0 n1)) = true ->
  forall i j, 0 <= i < Z.of_nat n1 -> 0 <= j < Z.of_nat n2 -> P i j = true.
Proof.
  intros H i j Hi Hj.
  apply (forall_below n2 (P i)); [| exact Hj].
  apply (forall_below n1 (fun i => forallb (P i) (map Z.of_nat (seq 0 n2)))); assumption.
Qed.

Lemma is_ok_true_spec (o : outcome bool) : is_ok_true o = true -> o = Ok true.
Proof. destruct o as [[|] | | |]; simpl; congruence. Qed.

(** ** The tests of the repository *)

(** The embedding gives the answers the test suite expects. *)
Lemma test_binary_expressions_pass :
  test_binary_expressions = Ok [true; true; true; true; true; true; true; true; true].
Proof. by_evaluation. Qed.

Lemma test_visitors_pass :
  test_visitors =
  Ok [true; false; false; false; true; false;
      false; true; true; true;
      true; false; false].
Proof. by_evaluation. Qed.

Lemma test_block_operations_pass : test_block_operations = Ok true.
Proof. by_evaluation. Qed.

(** ** Results that fit an int *)

Lemma int_result_in_range (z : Z) : INT_MIN <= z <= INT_MAX -> int_result z = Ok z.
Proof.
  intros [Hlo Hhi]. unfold int_result.
  rewrite (proj2 (Z.leb_le _ _) Hlo), (proj2 (Z.leb_le _ _) Hhi). reflexivity.
Qed.

Lemma int_result_Ok (z v : Z) : int_result z = Ok v -> v = z /\ INT_MIN <= z <= INT_MAX.
Proof.
  unfold int_result. intros H.
  destruct (Z.leb_spec INT_MIN z) as [Hlo | Hlo]; simpl in H; [| discriminate].
  destruct (Z.leb_spec z INT_MAX) as [Hhi | Hhi]; [| discriminate].
  injection H as <-. split; [reflexivity | split; assumption].
Qed.

(** ** Sizing of the storage *)

Lemma quot_PackSize (k : Z) : 0 <= k -> Z.quot k PackSize = k / PackSize.
Proof. intros Hk. apply Z.quot_div_nonneg; [exact Hk | reflexivity]. Qed.

Lemma std_ceil_quot (n : Z) : 0 <= n -> std_ceil (Z.quot n PackSize) = n / PackSize.
Proof.
  intros Hn. unfold std_ceil. apply Z.quot_div_nonneg; [exact Hn | reflexivity].
Qed.

Lemma storage_count_nonneg (n : Z) : 0 <= n -> (1 + std_ceil (Z.quot n PackSize) <? 0) = false.
Proof.
  intros Hn. rewrite std_ceil_quot by exact Hn. apply Z.ltb_ge.
  pose proof (Z.div_pos n PackSize Hn ltac:(reflexivity)). lia.
Qed.

Lemma BinaryMatrix_sized_in_range (R C r c : Z) :
  is_dynamic_sized R C = true -> 0 <= r -> 0 <= c -> r * c <= INT_MAX ->
  BinaryMatrix_sized R C r c =
  Ok (mkMatrix (BinMtxBase_init R C r c)
        (replicate (Z.to_nat (1 + std_ceil (Z.quot (r * c) PackSize))) 0)).
Proof.
  intros Hdyn Hr Hc Hsz. unfold BinaryMatrix_sized. rewrite Hdyn.
  rewrite int_result_in_range by (unfold INT_MIN; nia). cbn [bind].
  cbn [BinMtxBase_init n_rows_ n_cols_].
  rewrite storage_count_nonneg by nia. reflexivity.
Qed.

Lemma resize_in_range (m : BinaryMatrix) (r c : Z) :
  is_dynamic_sized (Rows (base m)) (Cols (base m)) = true ->
  ((Rows (base m) =? Dynamic) || ((Rows (base m) =? 1) && (r =? 1))) &&
  ((Cols (base m) =? Dynamic) || ((Cols (base m) =? 1) && (c =? 1))) = true ->
  0 <= r -> 0 <= c -> r * c <= INT_MAX ->
  resize m r c =
  Ok (mkMatrix (mkBase (Rows (base m)) (Cols (base m)) r c
                  (1 + std_ceil (Z.quot (r * c) PackSize)))
        (replicate (Z.to_nat (1 + std_ceil (Z.quot (r * c) PackSize))) 0)).
Proof.
  intros Hdyn Hassert Hr Hc Hsz. unfold resize. rewrite Hdyn, Hassert.
  cbn [fdapde_assert bind].
  rewrite int_result_in_range by (unfold INT_MIN; nia). cbn [bind].
  rewrite storage_count_nonneg by nia. reflexivity.
Qed.

Lemma ceil_div_floor (n : Z) :
  0 <= n ->
  (n mod PackSize <> 0 -> 1 + n / PackSize = ceil_div n PackSize) /\
  (n mod PackSize = 0 -> 1 + n / PackSize = ceil_div n PackSize + 1).
Proof.
  intros Hn. unfold ceil_div, PackSize.
  pose proof (Z.div_mod n 64 ltac:(lia)) as Hdm.
  pose proof (Z.mod_pos_bound n 64 ltac:(lia)) as Hb.
  split; intros Hm.
  - apply Z.div_unique with (r := n mod 64 - 1); lia.
  - assert (n / 64 = (n + 64 - 1) / 64) as <-; [| lia].
    apply Z.div_unique with (r := 63); lia.
Qed.

(** ** Bounds assertions *)

(** C9.  The assertions of [set(i, j)], [clear(i, j)] and of the base-class
    access operator only compare with the upper bounds: an index that is
    negative passes its comparison, so with a negative [i] (or [j]) and the
    other index negative or below its bound the three operations go on to
    the unchecked read or write of the bit. *)
Theorem C9_negative_indices_pass_the_assertions :
  forall (st : store) (ref : nat) (m : BinaryMatrix) (i j : Z),
    st !! ref = Some m ->
    0 <= n_rows_ (base m) -> 0 <= n_cols_ (base m) ->
    i < 0 \/ i < n_rows_ (base m) ->
    j < 0 \/ j < n_cols_ (base m) ->
    in_bounds (base m) i j = true /\
    set m i j = set_bit m i j /\
    clear m i j = clear_bit m i j /\
    BinMtxBase_call st (XMatrix ref) i j = BinaryMatrix_call m i j.
Proof.
  intros st ref m i j Hst Hr Hc Hi Hj.
  assert (Hb : in_bounds (base m) i j = true).
  { unfold in_bounds. apply andb_true_intro. split; apply Z.ltb_lt; lia. }
  split; [exact Hb |].
  unfold set, clear, BinMtxBase_call, xpr_base, xpr_call, deref.
  rewrite Hst. simpl. rewrite Hb. simpl. auto.
Qed.

Lemma C9_negative_indices_pass_the_assertions_witness :
  in_bounds (BinMtxBase_init 5 3 5 3) (-1) (-2) = true /\
  set (mkMatrix (BinMtxBase_init 5 3 5 3) [0]) (-1) (-2) = Undefined.
Proof.
  destruct (C9_negative_indices_pass_the_assertions
              [mkMatrix (BinMtxBase_init 5 3 5 3) [0]] 0%nat
              (mkMatrix (BinMtxBase_init 5 3 5 3) [0]) (-1) (-2)
              eq_refl ltac:(simpl; lia) ltac:(simpl; lia)
              ltac:(left; lia) ltac:(left; lia)) as (Hb & Hs & _).
  split; [exact Hb |].
  rewrite Hs. reflexivity.
Defined.

(** C8 (the code at an out-of-range index).  Called on a concrete matrix,
    [operator()] is the one of [BinaryMatrix], which has no assertion: on the
    zero-initialised [BinaryMatrix<5, 3>] the access [m(0, 3)], with
    [3 >= cols()], returns [false] (the bit of coefficient (1, 0)), while the
    same access through the base-class operator and [set(0, 3)] abort. *)
Theorem C8_concrete_access_is_unchecked :
  exists m, BinaryMatrix_static 5 3 = Ok m /\
    cols (base m) = 3 /\
    BinaryMatrix_call m 0 3 = Ok false /\
    BinMtxBase_call [m] (XMatrix 0) 0 3 = AssertionFailure /\
    set m 0 3 = AssertionFailure.
Proof.
  eexists. split; [reflexivity |].
  repeat split; by_evaluation.
Qed.

(** ** Reading and writing single bits *)

Lemma shl_one (s : Z) : 0 <= s < PackSize -> shl 1 s = Ok (2 ^ s).
Proof.
  intros [H0 H1]. unfold shl, wrap.
  rewrite (proj2 (Z.leb_le 0 s) H0), (proj2 (Z.ltb_lt s PackSize) H1). simpl.
  rewrite Z.shiftl_1_l. f_equal. apply Z.mod_small. split.
  - apply Z.pow_nonneg. lia.
  - apply Z.pow_lt_mono_r; lia.
Qed.

Lemma land_pow2_is_zero (w s : Z) :
  0 <= s -> (Z.land w (2 ^ s) =? 0) = negb (Z.testbit w s).
Proof.
  intros Hs. destruct (Z.testbit w s) eqn:Hb; simpl.
  - apply Z.eqb_neq. intros Hz.
    assert (Ht : Z.testbit (Z.land w (2 ^ s)) s = true).
    { rewrite Z.land_spec, Hb, Z.pow2_bits_true; auto. }
    rewrite Hz, Z.bits_0 in Ht. discriminate.
  - apply Z.eqb_eq. apply Z.bits_inj'. intros n Hn.
    rewrite Z.land_spec, Z.bits_0, Z.pow2_bits_eqb by exact Hs.
    destruct (Z.eqb_spec s n) as [-> | Hne].
    + rewrite Hb. reflexivity.
    + apply andb_false_r.
Qed.

Lemma rem_PackSize (k : Z) : 0 <= k -> Z.rem k PackSize = k mod PackSize.
Proof. intros Hk. apply Z.rem_mod_nonneg; [exact Hk | reflexivity]. Qed.

Lemma data_at_lookup (d : list Z) (p : Z) :
  0 <= p < Z.of_nat (length d) ->
  exists w, d !! Z.to_nat p = Some w /\ data_at d p = Ok w.
Proof.
  intros [H0 H1]. unfold data_at.
  destruct (d !! Z.to_nat p) as [w |] eqn:Hl.
  - exists w. split; [reflexivity |].
    rewrite (proj2 (Z.ltb_ge p 0) H0). reflexivity.
  - apply lookup_ge_None in Hl. lia.
Qed.

Lemma data_at_word (d : list Z) (p : Z) :
  0 <= p < Z.of_nat (length d) -> data_at d p = Ok (word_at d p).
Proof.
  intros Hp. destruct (data_at_lookup d p Hp) as (w & Hw & ->).
  unfold word_at. rewrite Hw. reflexivity.
Qed.

Lemma bit_of_word (d : list Z) (k : Z) :
  bit_of d k = Z.testbit (word_at d (k / PackSize)) (k mod PackSize).
Proof. reflexivity. Qed.

(** Inside the storage, [operator()] returns the bit with the row-major
    index of the cell. *)
Lemma BinaryMatrix_call_bit (m : BinaryMatrix) (i j : Z) :
  0 <= i * n_cols_ (base m) + j ->
  (i * n_cols_ (base m) + j) / PackSize < Z.of_nat (length (data_ m)) ->
  BinaryMatrix_call m i j = Ok (bit_of (data_ m) (i * n_cols_ (base m) + j)).
Proof.
  intros Hk Hp. unfold BinaryMatrix_call, pack_of, bit_of, word_at.
  set (k := i * n_cols_ (base m) + j) in *.
  rewrite (quot_PackSize k Hk), (rem_PackSize k Hk).
  assert (Hdiv : 0 <= k / PackSize) by (apply Z.div_pos; [exact Hk | reflexivity]).
  destruct (data_at_lookup (data_ m) (k / PackSize) (conj Hdiv Hp)) as (w & Hw & ->).
  assert (Hmod : 0 <= k mod PackSize < PackSize) by (apply Z.mod_pos_bound; reflexivity).
  simpl. rewrite (shl_one _ Hmod). simpl.
  rewrite land_pow2_is_zero by lia. rewrite negb_involutive, Hw. reflexivity.
Qed.

Lemma same_pack_same_index (k k' : Z) :
  k' / PackSize = k / PackSize -> (k mod PackSize =? k' mod PackSize) = (k' =? k).
Proof.
  intros Hq.
  pose proof (Z.div_mod k PackSize ltac:(discriminate)) as H1.
  pose proof (Z.div_mod k' PackSize ltac:(discriminate)) as H2.
  destruct (Z.eqb_spec (k mod PackSize) (k' mod PackSize)) as [He | Hne];
    destruct (Z.eqb_spec k' k) as [He' | Hne']; try reflexivity.
  - exfalso. apply Hne'. rewrite H1, H2, Hq, He. reflexivity.
  - exfalso. apply Hne. rewrite He'. reflexivity.
Qed.

(** [set] inside the storage turns on the bit of the cell and no other. *)
Lemma set_bit_bits (m : BinaryMatrix) (i j : Z) :
  0 <= i * n_cols_ (base m) + j ->
  (i * n_cols_ (base m) + j) / PackSize < Z.of_nat (length (data_ m)) ->
  exists m', set_bit m i j = Ok m' /\
    base m' = base m /\
    length (data_ m') = length (data_ m) /\
    forall k', 0 <= k' ->
      bit_of (data_ m') k' =
      bit_of (data_ m) k' || (k' =? i * n_cols_ (base m) + j).
Proof.
  intros Hk Hp. unfold set_bit, pack_of.
  set (k := i * n_cols_ (base m) + j) in *.
  rewrite (quot_PackSize k Hk), (rem_PackSize k Hk).
  assert (Hdiv : 0 <= k / PackSize) by (apply Z.div_pos; [exact Hk | reflexivity]).
  destruct (data_at_lookup (data_ m) (k / PackSize) (conj Hdiv Hp)) as (w & Hw & ->).
  assert (Hmod : 0 <= k mod PackSize < PackSize) by (apply Z.mod_pos_bound; reflexivity).
  simpl. rewrite (shl_one _ Hmod). simpl.
  unfold data_write.
  rewrite (proj2 (Z.ltb_ge (k / PackSize) 0) Hdiv), (proj2 (Z.ltb_lt _ _) Hp). simpl.
  eexists. split; [reflexivity |]. simpl.
  split; [reflexivity |]. split; [apply length_insert |].
  intros k' Hk'. unfold bit_of, word_at.
  assert (Hdiv' : 0 <= k' / PackSize) by (apply Z.div_pos; [exact Hk' | reflexivity]).
  destruct (Z.eq_dec (k' / PackSize) (k / PackSize)) as [Heq | Hne].
  - rewrite Heq, list_lookup_insert_eq by lia. rewrite Hw. simpl.
    rewrite Z.lor_spec, Z.pow2_bits_eqb by lia.
    rewrite (same_pack_same_index k k' Heq). reflexivity.
  - rewrite list_lookup_insert_ne by lia.
    destruct (Z.eqb_spec k' k) as [-> | _]; [contradiction Hne; reflexivity |].
    rewrite orb_false_r. reflexivity.
Qed.

Lemma bit_of_zeros (n : nat) (k : Z) : bit_of (replicate n 0) k = false.
Proof.
  unfold bit_of, word_at.
  destruct (replicate n 0 !! Z.to_nat (k / PackSize)) as [w |] eqn:Hl; simpl.
  - apply lookup_replicate in Hl as [-> _]. apply Z.bits_0.
  - apply Z.bits_0.
Qed.

Lemma well_formed_facts (m : BinaryMatrix) :
  well_formed m = true ->
  0 <= n_rows_ (base m) /\ 0 <= n_cols_ (base m) /\
  0 <= size (base m) <= INT_MAX /\
  n_bitpacks_ (base m) = 1 + size (base m) / PackSize /\
  Z.of_nat (length (data_ m)) = n_bitpacks_ (base m) /\
  (forall w, In w (data_ m) -> 0 <= w < 2 ^ PackSize).
Proof.
  unfold well_formed. intros H.
  apply andb_prop in H as [H Hwords]. apply andb_prop in H as [H Hlen].
  apply andb_prop in H as [H Hnb]. apply andb_prop in H as [H Hsz].
  apply andb_prop in H as [Hr Hc].
  apply Z.leb_le in Hr, Hc, Hsz. apply Z.eqb_eq in Hnb, Hlen.
  repeat split; try assumption.
  - unfold size. nia.
  - rewrite forallb_forall in Hwords. specialize (Hwords w H).
    unfold is_word in Hwords. apply andb_prop in Hwords as [? ?]. lia.
  - rewrite forallb_forall in Hwords. specialize (Hwords w H).
    unfold is_word in Hwords. apply andb_prop in Hwords as [? ?]. lia.
Qed.

Lemma word_at_range (m : BinaryMatrix) (p : Z) :
  well_formed m = true -> 0 <= word_at (data_ m) p < 2 ^ PackSize.
Proof.
  intros Hwf. destruct (well_formed_facts m Hwf) as (_ & _ & _ & _ & _ & Hwords).
  unfold word_at. destruct (data_ m !! Z.to_nat p) as [w |] eqn:Hl; simpl.
  - apply Hwords. apply list_elem_of_In. apply (list_elem_of_lookup_2 _ _ _ Hl).
  - split; [lia | reflexivity].
Qed.

(** ** Words and masks *)

Lemma all_ones_word : bit_not 0 = Z.ones PackSize.
Proof. by_evaluation. Qed.

Lemma mask_of_valid_bits (v : Z) :
  0 < v <= PackSize -> shr (bit_not 0) (PackSize - v) = Ok (Z.ones v).
Proof.
  intros Hv. unfold shr.
  rewrite (proj2 (Z.leb_le 0 (PackSize - v))), (proj2 (Z.ltb_lt (PackSize - v) PackSize))
    by lia.
  simpl. f_equal. rewrite all_ones_word. apply Z.bits_inj'. intros n Hn.
  rewrite Z.shiftr_spec by exact Hn.
  rewrite !Z.testbit_ones_nonneg by (unfold PackSize in *; lia).
  destruct (Z.ltb_spec (n + (PackSize - v)) PackSize); destruct (Z.ltb_spec n v);
    try reflexivity; lia.
Qed.

Lemma masked_equal_iff (v a b : Z) :
  0 <= v ->
  Z.land (Z.ones v) a = Z.land (Z.ones v) b <->
  (forall n, 0 <= n < v -> Z.testbit a n = Z.testbit b n).
Proof.
  intros Hv. split.
  - intros Heq n Hn.
    assert (Hbit : Z.testbit (Z.land (Z.ones v) a) n = Z.testbit (Z.land (Z.ones v) b) n)
      by (rewrite Heq; reflexivity).
    rewrite !Z.land_spec, Z.testbit_ones_nonneg in Hbit by lia.
    rewrite (proj2 (Z.ltb_lt n v)) in Hbit by lia. exact Hbit.
  - intros Hbits. apply Z.bits_inj'. intros n Hn.
    rewrite !Z.land_spec, Z.testbit_ones_nonneg by lia.
    destruct (Z.ltb_spec n v); [| reflexivity].
    simpl. apply Hbits. lia.
Qed.

Lemma word_equal_iff (a b : Z) :
  0 <= a < 2 ^ PackSize -> 0 <= b < 2 ^ PackSize ->
  a = b <-> (forall n, 0 <= n < PackSize -> Z.testbit a n = Z.testbit b n).
Proof.
  intros Ha Hb.
  rewrite <- (masked_equal_iff PackSize a b) by discriminate.
  rewrite !(Z.land_comm (Z.ones PackSize)), !Z.land_ones by discriminate.
  rewrite !Z.mod_small by assumption. reflexivity.
Qed.

Lemma matrix_base (st : store) (ref : nat) (m : BinaryMatrix) :
  st !! ref = Some m -> xpr_base st (XMatrix ref) = Ok (base m).
Proof. intros Hs. unfold xpr_base, deref. rewrite Hs. reflexivity. Qed.

Lemma matrix_bitpack_word (st : store) (ref : nat) (m : BinaryMatrix) (k : Z) :
  st !! ref = Some m -> 0 <= k < Z.of_nat (length (data_ m)) ->
  xpr_bitpack st (XMatrix ref) k = Ok (word_at (data_ m) k).
Proof.
  intros Hs Hk. simpl. unfold deref. rewrite Hs. simpl. apply data_at_word. exact Hk.
Qed.

(** ** Loops *)

Lemma for_loop_invariant {S : Type} (P : Z -> S -> Prop) (body : Z -> S -> outcome S) :
  forall (fuel : nat) (i : Z) (s : S),
    P i s ->
    (forall i' s', i <= i' < i + Z.of_nat fuel -> P i' s' ->
                   exists s'', body i' s' = Ok s'' /\ P (i' + 1) s'') ->
    exists s', for_loop fuel i body s = Ok s' /\ P (i + Z.of_nat fuel) s'.
Proof.
  induction fuel as [| fuel IH]; intros i s HP Hstep.
  - exists s. split; [reflexivity |]. replace (i + Z.of_nat 0) with i by lia. exact HP.
  - destruct (Hstep i s ltac:(lia) HP) as (s1 & Hb & HP1).
    destruct (IH (i + 1) s1 HP1) as (s' & Hl & HP').
    { intros i' s' Hi'. apply Hstep. lia. }
    exists s'. split.
    + simpl. rewrite Hb. exact Hl.
    + replace (i + Z.of_nat (Datatypes.S fuel)) with (i + 1 + Z.of_nat fuel) by lia.
      exact HP'.
Qed.

(** The fuel of the traversal loop is never what ends it: when the loop
    is left without a request to return, its condition is false. *)
Lemma visit_loop_leaves_by_its_condition (V : Visitor) (read : Z -> outcome Z) (sz : Z) :
  forall (fuel : nat) (k i : Z) (res : bool) (s : visit_state),
    sz - i < PackSize * Z.of_nat fuel ->
    visit_loop V read sz fuel k i res = Ok s ->
    visit_return s = false ->
    ~ (visit_i s + PackSize - 1 < sz).
Proof.
  induction fuel as [| fuel IH]; intros k i res s Hfuel Hrun Hret.
  - simpl in Hrun. injection Hrun as <-. simpl. unfold PackSize in *. lia.
  - simpl in Hrun.
    destruct (int_result (i + PackSize)) as [next | | |] eqn:Hnext; simpl in Hrun;
      try discriminate.
    apply int_result_Ok in Hnext as [-> _].
    destruct (int_result (i + PackSize - 1)) as [last | | |] eqn:Hlast; simpl in Hrun;
      try discriminate.
    apply int_result_Ok in Hlast as [-> _].
    destruct (Z.ltb_spec (i + PackSize - 1) sz) as [Hlt | Hge].
    + destruct (read k) as [w | | |]; simpl in Hrun; try discriminate.
      destruct (stop V (apply V res w)).
      * injection Hrun as <-. discriminate Hret.
      * apply (IH (k + 1) (i + PackSize) (apply V res w) s); [| exact Hrun | exact Hret].
        unfold PackSize in *. lia.
    + injection Hrun as <-. simpl. lia.
Qed.

Lemma visit_fuel_suffices (sz : Z) :
  0 <= sz -> sz - 0 < PackSize * Z.of_nat (Datatypes.S (Z.to_nat (sz / PackSize))).
Proof.
  intros Hsz.
  pose proof (Z.div_mod sz PackSize ltac:(discriminate)) as Hdm.
  pose proof (Z.mod_pos_bound sz PackSize ltac:(reflexivity)) as Hm.
  pose proof (Z.div_pos sz PackSize Hsz ltac:(reflexivity)) as Hq.
  rewrite Nat2Z.inj_succ, Z2Nat.id by exact Hq. unfold PackSize in *. lia.
Qed.

(** Neither is the fuel of the gather of a block: 64 iterations reach
    [j = PackSize], more fuel changes nothing. *)
Lemma block_gather_fuel (read : Z -> Z -> outcome bool) (b : BinMtxBase)
    (i row_offset col_offset : Z) :
  forall (fuel : nat) (j out : Z),
    PackSize - j <= Z.of_nat fuel ->
    block_gather read b i row_offset col_offset (Datatypes.S fuel) j out =
    block_gather read b i row_offset col_offset fuel j out.
Proof.
  induction fuel as [| fuel IH]; intros j out Hfuel.
  - simpl. rewrite (proj2 (Z.ltb_ge j PackSize)) by lia. reflexivity.
  - change (block_gather read b i row_offset col_offset (Datatypes.S (Datatypes.S fuel)) j out)
      with (if (j <? PackSize) && (i * PackSize + j <? size b) then
              let* q := int_div j (n_cols_ b) in
              let* r := int_rem j (n_cols_ b) in
              let* v := read (row_offset + q) (col_offset + r) in
              let* sh := shl (Z.land 1 (Z.b2z v)) j in
              block_gather read b i row_offset col_offset (Datatypes.S fuel) (j + 1)
                (Z.lor out sh)
            else Ok out).
    change (block_gather read b i row_offset col_offset (Datatypes.S fuel) j out)
      with (if (j <? PackSize) && (i * PackSize + j <? size b) then
              let* q := int_div j (n_cols_ b) in
              let* r := int_rem j (n_cols_ b) in
              let* v := read (row_offset + q) (col_offset + r) in
              let* sh := shl (Z.land 1 (Z.b2z v)) j in
              block_gather read b i row_offset col_offset fuel (j + 1) (Z.lor out sh)
            else Ok out).
    destruct ((j <? PackSize) && (i * PackSize + j <? size b)); [| reflexivity].
    destruct (int_div j (n_cols_ b)) as [q | | |]; simpl; try reflexivity.
    destruct (int_rem j (n_cols_ b)) as [r | | |]; simpl; try reflexivity.
    destruct (read (row_offset + q) (col_offset + r)) as [v | | |]; simpl; try reflexivity.
    destruct (shl (Z.land 1 (Z.b2z v)) j) as [sh | | |]; simpl; try reflexivity.
    apply IH. lia.
Qed.

(** ** Assignment from a dense numeric matrix *)

Lemma row_major_index (C i j : Z) :
  0 <= j < C -> (i * C + j) / C = i /\ (i * C + j) mod C = j.
Proof.
  intros Hj. split.
  - symmetry. apply Z.div_unique with (r := j); lia.
  - symmetry. apply Z.mod_unique with (q := i); lia.
Qed.

Lemma eigen_filled_step (mtx : EigenMatrix) (C : Z) (d0 d d' : list Z) (i j : Z) :
  0 <= j < C ->
  eigen_filled mtx C d0 d (i * C + j) ->
  (forall k', 0 <= k' ->
     bit_of d' k' = bit_of d k' || ((k' =? i * C + j) && negb (coeff mtx i j =? 0))) ->
  eigen_filled mtx C d0 d' (i * C + j + 1).
Proof.
  intros Hj Hfill Hd' k Hk.
  rewrite (Hd' k Hk), (Hfill k Hk), <- orb_assoc. f_equal.
  destruct (Z.eqb_spec k (i * C + j)) as [-> | Hne].
  - unfold nonzero_at. destruct (row_major_index C i j Hj) as [-> ->].
    rewrite Z.ltb_irrefl, (proj2 (Z.ltb_lt _ _)) by lia. reflexivity.
  - simpl. rewrite orb_false_r.
    destruct (Z.ltb_spec k (i * C + j)); destruct (Z.ltb_spec k (i * C + j + 1));
      try reflexivity; lia.
Qed.

(** The two nested loops of the assignment, started on [m0]. *)
Lemma eigen_fill_loops (mtx : EigenMatrix) (m0 : BinaryMatrix) :
  0 <= n_rows_ (base m0) -> 0 <= n_cols_ (base m0) ->
  size (base m0) / PackSize < Z.of_nat (length (data_ m0)) ->
  exists m',
    for_range (n_rows_ (base m0))
      (fun i ma =>
         for_range (n_cols_ (base ma))
           (fun j mb => if coeff mtx i j =? 0 then Ok mb else set mb i j) ma)
      m0 = Ok m' /\
    base m' = base m0 /\
    length (data_ m') = length (data_ m0) /\
    eigen_filled mtx (n_cols_ (base m0)) (data_ m0) (data_ m') (size (base m0)).
Proof.
  intros HR HC Hlen. unfold size in *.
  set (R := n_rows_ (base m0)) in *. set (C := n_cols_ (base m0)) in *.
  pose (P := fun (n : Z) (ma : BinaryMatrix) =>
               base ma = base m0 /\ length (data_ ma) = length (data_ m0) /\
               eigen_filled mtx C (data_ m0) (data_ ma) n).
  assert (Houter :
    exists m', for_loop (Z.to_nat R) 0
      (fun i ma =>
         for_range (n_cols_ (base ma))
           (fun j mb => if coeff mtx i j =? 0 then Ok mb else set mb i j) ma)
      m0 = Ok m' /\ P ((0 + Z.of_nat (Z.to_nat R)) * C) m').
  { apply (for_loop_invariant (fun i ma => P (i * C) ma)).
    - repeat split. intros k Hk.
      rewrite (proj2 (Z.ltb_ge k (0 * C))) by lia. rewrite orb_false_r. reflexivity.
    - intros i ma Hi (Hb & Hl & Hf).
      assert (Hinner :
        exists mb, for_loop (Z.to_nat C) 0
          (fun j mb => if coeff mtx i j =? 0 then Ok mb else set mb i j) ma = Ok mb /\
          P (i * C + (0 + Z.of_nat (Z.to_nat C))) mb).
      { apply (for_loop_invariant (fun j mb => P (i * C + j) mb)).
        - replace (i * C + 0) with (i * C) by lia. repeat split; assumption.
        - intros j mb Hj (Hb' & Hl' & Hf').
          assert (HjC : 0 <= j < C) by lia.
          destruct (Z.eqb_spec (coeff mtx i j) 0) as [Hz | Hnz].
          + exists mb. split; [reflexivity |]. repeat split; try assumption.
            replace (i * C + (j + 1)) with (i * C + j + 1) by lia.
            apply (eigen_filled_step mtx C (data_ m0) (data_ mb) (data_ mb) i j HjC Hf').
            intros k' Hk'. rewrite Hz. simpl. rewrite andb_false_r, orb_false_r. reflexivity.
          + assert (Hk : 0 <= i * n_cols_ (base mb) + j) by (rewrite Hb'; fold C; nia).
            assert (Hp : (i * n_cols_ (base mb) + j) / PackSize
                         < Z.of_nat (length (data_ mb))).
            { rewrite Hb', Hl'. fold C.
              apply Z.le_lt_trans with (m := (R * C) / PackSize); [| exact Hlen].
              apply Z.div_le_mono; [reflexivity | nia]. }
            destruct (set_bit_bits mb i j Hk Hp) as (mb' & Hset & Hb'' & Hl'' & Hbits).
            exists mb'. split.
            * unfold set, in_bounds. rewrite Hb'. fold R C.
              rewrite (proj2 (Z.ltb_lt i R)), (proj2 (Z.ltb_lt j C)) by lia.
              simpl. exact Hset.
            * repeat split; [congruence | congruence |].
              replace (i * C + (j + 1)) with (i * C + j + 1) by lia.
              apply (eigen_filled_step mtx C (data_ m0) (data_ mb) (data_ mb') i j HjC Hf').
              intros k' Hk'. rewrite (Hbits k' Hk'), Hb'. fold C.
              destruct (Z.eqb_spec (coeff mtx i j) 0); [contradiction |].
              simpl. rewrite andb_true_r. reflexivity. }
      destruct Hinner as (mb & Hrun & HP).
      exists mb. split.
      + unfold for_range. rewrite Hb. exact Hrun.
      + replace ((i + 1) * C) with (i * C + (0 + Z.of_nat (Z.to_nat C))) by lia.
        exact HP. }
  destruct Houter as (m' & Hrun & Hb & Hl & Hf).
  exists m'. split; [exact Hrun |]. repeat split; try assumption.
  replace (R * C) with ((0 + Z.of_nat (Z.to_nat R)) * C) by lia. exact Hf.
Qed.

(** C10.  Assigning a dense numeric matrix to a statically-sized binary
    matrix only sets bits: every in-range cell ends as "was true before or
    the source entry is non-zero", so a cell that was true keeps its value
    whatever the source holds.  A dynamically-sized target is resized, hence
    zero-filled, first: its cells end as "the source entry is non-zero". *)
Theorem C10_eigen_assignment_keeps_static_contents :
  forall (m : BinaryMatrix) (mtx : EigenMatrix),
    0 <= eigen_rows mtx -> 0 <= eigen_cols mtx ->
    eigen_rows mtx * eigen_cols mtx <= INT_MAX ->
    (is_dynamic_sized (Rows (base m)) (Cols (base m)) = false ->
     well_formed m = true ->
     RowsAtCompileTime mtx = Rows (base m) -> ColsAtCompileTime mtx = Cols (base m) ->
     eigen_rows mtx = n_rows_ (base m) -> eigen_cols mtx = n_cols_ (base m) ->
     exists m', assign_eigen m mtx = Ok m' /\
       forall i j, 0 <= i < eigen_rows mtx -> 0 <= j < eigen_cols mtx ->
         exists before, BinaryMatrix_call m i j = Ok before /\
           BinaryMatrix_call m' i j = Ok (before || negb (coeff mtx i j =? 0)))
    /\
    (is_dynamic_sized (Rows (base m)) (Cols (base m)) = true ->
     Rows (base m) = Dynamic \/ (Rows (base m) = 1 /\ eigen_rows mtx = 1) ->
     Cols (base m) = Dynamic \/ (Cols (base m) = 1 /\ eigen_cols mtx = 1) ->
     exists m', assign_eigen m mtx = Ok m' /\
       forall i j, 0 <= i < eigen_rows mtx -> 0 <= j < eigen_cols mtx ->
         BinaryMatrix_call m' i j = Ok (negb (coeff mtx i j =? 0))).
Proof.
  intros m mtx HR HC Hsz. split.
  - intros Hstatic Hwf HRt HCt Hre Hce.
    unfold well_formed in Hwf.
    repeat (apply andb_prop in Hwf as [Hwf ?]).
    assert (Hnb : n_bitpacks_ (base m) = 1 + size (base m) / PackSize) by lia.
    assert (Hlen : Z.of_nat (length (data_ m)) = n_bitpacks_ (base m)) by lia.
    destruct (eigen_fill_loops mtx m) as (m' & Hrun & Hb & Hl & Hf); [lia | lia | lia |].
    exists m'. split.
    + unfold assign_eigen. rewrite Hstatic, HRt, HCt, !Z.eqb_refl. simpl.
      rewrite Hre, Hce. destruct m as [[R C r c nb] d]. simpl in *. exact Hrun.
    + intros i j Hi Hj. rewrite Hre in Hi. rewrite Hce in Hj.
      assert (Hk : 0 <= i * n_cols_ (base m) + j < size (base m)) by (unfold size; nia).
      assert (Hp : (i * n_cols_ (base m) + j) / PackSize < Z.of_nat (length (data_ m))).
      { apply Z.le_lt_trans with (m := size (base m) / PackSize); [| lia].
        apply Z.div_le_mono; [reflexivity | lia]. }
      exists (bit_of (data_ m) (i * n_cols_ (base m) + j)).
      split; [apply BinaryMatrix_call_bit; [lia | exact Hp] |].
      rewrite BinaryMatrix_call_bit; rewrite ?Hb, ?Hl; [| lia | exact Hp].
      rewrite (Hf _ (proj1 Hk)). unfold nonzero_at.
      destruct (row_major_index (n_cols_ (base m)) i j Hj) as [-> ->].
      rewrite (proj2 (Z.ltb_lt _ _) (proj2 Hk)). reflexivity.
  - intros Hdyn HRd HCd.
    set (r := eigen_rows mtx) in *. set (c := eigen_cols mtx) in *.
    set (nb := 1 + std_ceil (Z.quot (r * c) PackSize)).
    set (m0 := mkMatrix (mkBase (Rows (base m)) (Cols (base m)) r c nb)
                 (replicate (Z.to_nat nb) 0)).
    assert (Hnb : nb = 1 + (r * c) / PackSize).
    { unfold nb. rewrite std_ceil_quot by nia. reflexivity. }
    assert (Hq : 0 <= (r * c) / PackSize) by (apply Z.div_pos; [nia | reflexivity]).
    destruct (eigen_fill_loops mtx m0) as (m' & Hrun & Hb & Hl & Hf).
    { exact HR. } { exact HC. }
    { simpl. unfold size. simpl. rewrite length_replicate. lia. }
    exists m'. split.
    + unfold assign_eigen. rewrite Hdyn. simpl.
      assert (Hassert :
        ((Rows (base m) =? Dynamic) || (Rows (base m) =? 1) && (r =? 1)) &&
        ((Cols (base m) =? Dynamic) || (Cols (base m) =? 1) && (c =? 1)) = true).
      { apply andb_true_intro. split.
        - destruct HRd as [-> | [-> ->]]; [reflexivity | apply orb_true_r].
        - destruct HCd as [-> | [-> ->]]; [reflexivity | apply orb_true_r]. }
      rewrite resize_in_range; [exact Hrun | exact Hdyn | exact Hassert | exact HR
                               | exact HC | exact Hsz].
    + intros i j Hi Hj.
      assert (Hk : 0 <= i * c + j < r * c) by nia.
      rewrite BinaryMatrix_call_bit; rewrite ?Hb, ?Hl; simpl.
      * rewrite (Hf _ (proj1 Hk)). simpl. rewrite bit_of_zeros. simpl.
        unfold nonzero_at, size. simpl.
        destruct (row_major_index c i j Hj) as [-> ->].
        rewrite (proj2 (Z.ltb_lt _ _) (proj2 Hk)). reflexivity.
      * lia.
      * rewrite length_replicate.
        assert ((i * c + j) / PackSize <= (r * c) / PackSize)
          by (apply Z.div_le_mono; [reflexivity | lia]).
        lia.
Qed.

Lemma C10_eigen_assignment_keeps_static_contents_witness :
  (exists m', assign_eigen C10_static (C10_source 2 2) = Ok m' /\
              BinaryMatrix_call C10_static 0 0 = Ok true /\
              BinaryMatrix_call m' 0 0 = Ok true) /\
  (exists m', assign_eigen C10_dynamic (C10_source Dynamic Dynamic) = Ok m' /\
              BinaryMatrix_call C10_dynamic 0 0 = Ok true /\
              BinaryMatrix_call m' 0 0 = Ok false).
Proof.
  split.
  - destruct (C10_eigen_assignment_keeps_static_contents C10_static (C10_source 2 2)
                ltac:(simpl; lia) ltac:(simpl; lia) ltac:(simpl; unfold INT_MAX; lia))
      as [Hstatic _].
    destruct (Hstatic eq_refl eq_refl eq_refl eq_refl eq_refl eq_refl) as (m' & Ha & Hcells).
    exists m'. split; [exact Ha |]. split; [reflexivity |].
    destruct (Hcells 0 0 ltac:(simpl; lia) ltac:(simpl; lia)) as (before & Hb & Hafter).
    rewrite Hafter. vm_compute in Hb. injection Hb as <-. reflexivity.
  - destruct (C10_eigen_assignment_keeps_static_contents C10_dynamic
                (C10_source Dynamic Dynamic)
                ltac:(simpl; lia) ltac:(simpl; lia) ltac:(simpl; unfold INT_MAX; lia))
      as [_ Hdynamic].
    destruct (Hdynamic eq_refl ltac:(left; reflexivity) ltac:(left; reflexivity))
      as (m' & Ha & Hcells).
    exists m'. split; [exact Ha |]. split; [reflexivity |].
    rewrite (Hcells 0 0 ltac:(simpl; lia) ltac:(simpl; lia)). reflexivity.
Defined.

(** ** Reductions *)

(** C2 (the code at two inputs).  On the tail of a matrix of 64 bits or more
    the traversal hands [all_visitor::apply(b, size)] the number of valid
    bits, which the visitor takes for the number of padding bits.
    - The 1 x 70 matrix filled by [set()] has every coefficient true, and
      [all()] returns false: the padding of the last bitpack is inspected.
    - The 1 x 104 matrix of ones with coefficient (0, 100) cleared has
      [all()] true: the valid bit 36 of the last bitpack is not inspected. *)
Theorem C2_all_masks_the_last_bitpack_wrongly :
  (exists m,
      (let* z := BinaryMatrix_sized Dynamic Dynamic 1 70 in set_all z) = Ok m /\
      (forall j, 0 <= j < 70 -> BinaryMatrix_call m 0 j = Ok true) /\
      all [m] (XMatrix 0) = Ok false) /\
  (exists m,
      (let* o := Ones Dynamic Dynamic 1 104 in clear o 0 100) = Ok m /\
      BinaryMatrix_call m 0 100 = Ok false /\
      all [m] (XMatrix 0) = Ok true).
Proof.
  split.
  - eexists. split; [by_evaluation |]. split.
    + intros j Hj. apply is_ok_true_spec.
      apply (forall_below 70 (fun j => is_ok_true (BinaryMatrix_call _ 0 j))); [| exact Hj].
      by_evaluation.
    + by_evaluation.
  - eexists. split; [by_evaluation |].
    split; by_evaluation.
Qed.

(** C3 (the code at an input).  On a matrix of fewer than 64 bits the
    traversal hands [any_visitor::apply(b, size)] the number of padding
    bits, which the visitor takes for the number of valid bits: on the
    vector of 40 zeros with [set(30)] the coefficient 30 is true and
    [any()] returns false. *)
Theorem C3_any_masks_a_short_vector_wrongly :
  exists v,
    (let* z := BinaryMatrix_sized Dynamic 1 40 1 in set z 30 0) = Ok v /\
    BinaryMatrix_call v 30 0 = Ok true /\
    any [v] (XMatrix 0) = Ok false.
Proof.
  eexists. split; [by_evaluation |].
  split; by_evaluation.
Qed.

(** ** Where the reductions are right *)

Lemma nonzero_word_has_a_bit (w : Z) (v : Z) :
  0 <= v -> 0 <= w ->
  Z.land (Z.ones v) w <> 0 <-> exists t, 0 <= t < v /\ Z.testbit w t = true.
Proof.
  intros Hv Hw. split.
  - intros Hnz.
    assert (Hx : 0 <= Z.land (Z.ones v) w) by (apply Z.land_nonneg; right; exact Hw).
    assert (Hpos : 0 < Z.land (Z.ones v) w) by lia.
    pose proof (Z.bit_log2 _ Hpos) as Hbit.
    pose proof (Z.log2_nonneg (Z.land (Z.ones v) w)) as Hl.
    rewrite Z.land_spec, Z.testbit_ones_nonneg in Hbit by lia.
    apply andb_prop in Hbit as [Hlt Hbit]. apply Z.ltb_lt in Hlt.
    exists (Z.log2 (Z.land (Z.ones v) w)). split; [lia | exact Hbit].
  - intros (t & Ht & Hbit) Hz.
    assert (Hx : Z.testbit (Z.land (Z.ones v) w) t = true).
    { rewrite Z.land_spec, Z.testbit_ones_nonneg, Hbit by lia.
      rewrite (proj2 (Z.ltb_lt t v)) by lia. reflexivity. }
    rewrite Hz, Z.bits_0 in Hx. discriminate.
Qed.

Lemma word_nonzero_iff (w : Z) :
  0 <= w < 2 ^ PackSize ->
  w <> 0 <-> exists t, 0 <= t < PackSize /\ Z.testbit w t = true.
Proof.
  intros Hw. rewrite <- (nonzero_word_has_a_bit w PackSize) by (try discriminate; lia).
  rewrite Z.land_comm, Z.land_ones by discriminate.
  rewrite Z.mod_small by exact Hw. reflexivity.
Qed.

Lemma all_ones_below (w v : Z) :
  0 <= v ->
  Z.land (Z.ones v) w = Z.ones v <-> forall t, 0 <= t < v -> Z.testbit w t = true.
Proof.
  intros Hv. split.
  - intros Heq t Ht.
    assert (Hbit : Z.testbit (Z.land (Z.ones v) w) t = true).
    { rewrite Heq, Z.testbit_ones_nonneg by lia. apply Z.ltb_lt. lia. }
    rewrite Z.land_spec in Hbit. apply andb_prop in Hbit as [_ Hbit]. exact Hbit.
  - intros Hbits. apply Z.bits_inj'. intros t Ht.
    rewrite Z.land_spec, Z.testbit_ones_nonneg by lia.
    destruct (Z.ltb_spec t v); [| reflexivity].
    rewrite Hbits by lia. reflexivity.
Qed.

(** The cells of a well-formed matrix, as bits of its words. *)
Lemma cell_is_bit (m : BinaryMatrix) (i j : Z) :
  well_formed m = true ->
  0 <= i < n_rows_ (base m) -> 0 <= j < n_cols_ (base m) ->
  BinaryMatrix_call m i j = Ok (bit_of (data_ m) (i * n_cols_ (base m) + j)) /\
  0 <= i * n_cols_ (base m) + j < size (base m).
Proof.
  intros Hwf Hi Hj.
  destruct (well_formed_facts m Hwf) as (Hr & Hc & Hsz & Hnb & Hl & _).
  assert (Hk : 0 <= i * n_cols_ (base m) + j < size (base m)) by (unfold size; nia).
  split; [| exact Hk].
  apply BinaryMatrix_call_bit; [lia |].
  assert ((i * n_cols_ (base m) + j) / PackSize <= size (base m) / PackSize)
    by (apply Z.div_le_mono; [reflexivity | lia]).
  lia.
Qed.

Lemma bit_is_cell (m : BinaryMatrix) (k : Z) :
  well_formed m = true ->
  0 <= k < size (base m) ->
  exists i j, 0 <= i < n_rows_ (base m) /\ 0 <= j < n_cols_ (base m) /\
              BinaryMatrix_call m i j = Ok (bit_of (data_ m) k).
Proof.
  intros Hwf Hk.
  destruct (well_formed_facts m Hwf) as (Hr & Hc & Hsz & Hnb & Hl & _).
  assert (HC : 0 < n_cols_ (base m)) by (unfold size in Hk; nia).
  pose proof (Z.div_mod k (n_cols_ (base m)) ltac:(lia)) as Hdk.
  pose proof (Z.mod_pos_bound k (n_cols_ (base m)) HC) as Hmk.
  assert (Hi : 0 <= k / n_cols_ (base m) < n_rows_ (base m)).
  { split; [apply Z.div_pos; lia |].
    apply Z.div_lt_upper_bound; [exact HC |]. unfold size in Hk. lia. }
  exists (k / n_cols_ (base m)), (k mod n_cols_ (base m)).
  split; [exact Hi |]. split; [exact Hmk |].
  destruct (cell_is_bit m _ _ Hwf Hi Hmk) as [-> _].
  do 2 f_equal. lia.
Qed.

(** On a matrix of fewer than [PackSize] coefficients [all()] is true exactly
    when every coefficient is. *)
Theorem all_decides_below_word_width :
  forall (st : store) (ref : nat) (m : BinaryMatrix),
    st !! ref = Some m ->
    well_formed m = true ->
    0 < size (base m) < PackSize ->
    exists b,
      all st (XMatrix ref) = Ok b /\
      (b = true <->
       forall i j, 0 <= i < n_rows_ (base m) -> 0 <= j < n_cols_ (base m) ->
                   BinaryMatrix_call m i j = Ok true).
Proof.
  intros st ref m Hs Hwf Hsz.
  destruct (well_formed_facts m Hwf) as (Hr & Hc & _ & Hnb & Hl & _).
  set (sz := size (base m)) in *.
  assert (Hq : sz / PackSize = 0) by (apply Z.div_small; lia).
  exists (Z.land (Z.ones sz) (word_at (data_ m) 0) =? Z.ones sz). split.
  - unfold all, linear_bitpack_visit. rewrite (matrix_base st ref m Hs). simpl. fold sz.
    rewrite (proj2 (Z.eqb_neq sz 0)), (proj2 (Z.ltb_lt sz PackSize)) by lia.
    unfold deref. rewrite Hs. simpl. rewrite data_at_word by lia. simpl.
    replace (PackSize - (PackSize - sz)) with sz by lia.
    rewrite shl_one by lia. simpl.
    assert (Hmask : wrap (2 ^ sz - 1) = Z.ones sz).
    { rewrite Z.ones_equiv. unfold wrap. rewrite Z.mod_small; [lia |].
      assert (0 < 2 ^ sz) by (apply Z.pow_pos_nonneg; lia).
      assert (2 ^ sz < 2 ^ PackSize) by (apply Z.pow_lt_mono_r; lia). lia. }
    rewrite Hmask. reflexivity.
  - rewrite Z.eqb_eq, all_ones_below by lia. split.
    + intros Hbits i j Hi Hj.
      destruct (cell_is_bit m i j Hwf Hi Hj) as [-> Hk]. fold sz in Hk.
      rewrite bit_of_word.
      rewrite Z.div_small, Z.mod_small by lia.
      rewrite Hbits by lia. reflexivity.
    + intros Hcells t Ht.
      destruct (bit_is_cell m t Hwf ltac:(fold sz; lia)) as (i & j & Hi & Hj & Hcall).
      rewrite (Hcells i j Hi Hj) in Hcall. injection Hcall as Hcall.
      rewrite bit_of_word, Z.div_small, Z.mod_small in Hcall by lia.
      symmetry. exact Hcall.
Qed.

(** The loop of the traversal with [any_visitor], started on bitpack [k]
    with nothing found so far: it returns at the first non-zero word, or
    runs to the last full bitpack. *)
Lemma any_visit_loop (read : Z -> outcome Z) (f : Z -> Z) (sz : Z) :
  0 <= sz -> sz <= INT_MAX - PackSize ->
  (forall p, 0 <= p < sz / PackSize -> read p = Ok (f p)) ->
  forall (fuel : nat) (k : Z),
    0 <= k <= sz / PackSize ->
    sz / PackSize - k < Z.of_nat fuel ->
    exists s,
      visit_loop any_visitor read sz fuel k (PackSize * k) false = Ok s /\
      ((visit_return s = true /\ visit_res s = true /\
        exists p, k <= p < sz / PackSize /\ f p <> 0) \/
       (visit_return s = false /\ visit_res s = false /\
        visit_k s = sz / PackSize /\ visit_i s = PackSize * (sz / PackSize) /\
        forall p, k <= p < sz / PackSize -> f p = 0)).
Proof.
  intros Hsz Hint Hreads.
  pose proof (Z.div_mod sz PackSize ltac:(discriminate)) as Hdm.
  pose proof (Z.mod_pos_bound sz PackSize ltac:(reflexivity)) as Hm.
  induction fuel as [| fuel IH]; intros k Hk Hfuel; [lia |].
  cbn [visit_loop].
  rewrite (int_result_in_range (PackSize * k + PackSize))
    by (unfold INT_MIN, INT_MAX, PackSize in *; lia).
  cbn [bind].
  rewrite (int_result_in_range (PackSize * k + PackSize - 1))
    by (unfold INT_MIN, INT_MAX, PackSize in *; lia).
  cbn [bind].
  destruct (Z.ltb_spec (PackSize * k + PackSize - 1) sz) as [Hlt | Hge].
  - assert (Hkn : k < sz / PackSize) by (unfold PackSize in *; lia).
    rewrite (Hreads k ltac:(lia)). simpl.
    destruct (Z.eqb_spec (f k) 0) as [Hz | Hnz]; simpl.
    + destruct (IH (k + 1) ltac:(lia) ltac:(lia)) as (s & Hrun & Hs).
      exists s. split.
      * replace (PackSize * k + PackSize) with (PackSize * (k + 1)) by lia. exact Hrun.
      * destruct Hs as [(H1 & H2 & p & Hp & Hfp) | (H1 & H2 & H3 & H4 & H5)].
        -- left. repeat split; try assumption. exists p. split; [lia | exact Hfp].
        -- right. repeat split; try assumption. intros p Hp.
           destruct (Z.eq_dec p k) as [-> | Hne]; [exact Hz | apply H5; lia].
    + eexists. split; [reflexivity |]. left. simpl. repeat split.
      exists k. split; [lia | exact Hnz].
  - assert (Hkn : k = sz / PackSize) by (unfold PackSize in *; lia).
    eexists. split; [reflexivity |]. right. simpl.
    repeat split; try congruence. intros p Hp. lia.
Qed.

(** On a matrix of [PackSize] coefficients or more [any()] is true exactly
    when some coefficient is, as long as the bound of the traversal,
    [i + PackSize], stays an int: up to [INT_MAX - PackSize] coefficients. *)
Theorem any_decides_from_word_width :
  forall (st : store) (ref : nat) (m : BinaryMatrix),
    st !! ref = Some m ->
    well_formed m = true ->
    PackSize <= size (base m) ->
    size (base m) <= INT_MAX - PackSize ->
    exists b,
      any st (XMatrix ref) = Ok b /\
      (b = true <->
       exists i j, 0 <= i < n_rows_ (base m) /\ 0 <= j < n_cols_ (base m) /\
                   BinaryMatrix_call m i j = Ok true).
Proof.
  intros st ref m Hs Hwf Hsz Hint.
  destruct (well_formed_facts m Hwf) as (Hr & Hc & _ & Hnb & Hl & _).
  set (sz := size (base m)) in *. set (n := sz / PackSize) in *.
  pose proof (Z.div_mod sz PackSize ltac:(discriminate)) as Hdm. fold n in Hdm.
  pose proof (Z.mod_pos_bound sz PackSize ltac:(reflexivity)) as Hm.
  assert (Hn : 0 < n).
  { unfold n. apply Z.div_str_pos. unfold PackSize in *. lia. }
  assert (Hread : forall p, 0 <= p <= n ->
            xpr_bitpack st (XMatrix ref) p = Ok (word_at (data_ m) p)).
  { intros p Hp. apply matrix_bitpack_word; [exact Hs | lia]. }
  assert (Hfound : forall p t, 0 <= p -> 0 <= t < PackSize -> PackSize * p + t < sz ->
            Z.testbit (word_at (data_ m) p) t = true ->
            exists i j, 0 <= i < n_rows_ (base m) /\ 0 <= j < n_cols_ (base m) /\
                        BinaryMatrix_call m i j = Ok true).
  { intros p t Hp Ht Hlt Hbit.
    destruct (bit_is_cell m (PackSize * p + t) Hwf ltac:(fold sz; unfold PackSize in *; lia))
      as (i & j & Hi & Hj & Hcall).
    exists i, j. split; [exact Hi |]. split; [exact Hj |].
    rewrite Hcall, bit_of_word.
    replace ((PackSize * p + t) / PackSize) with p
      by (apply Z.div_unique with (r := t); lia).
    replace ((PackSize * p + t) mod PackSize) with t
      by (apply Z.mod_unique with (q := p); lia).
    rewrite Hbit. reflexivity. }
  assert (Hcellbit : forall i j, 0 <= i < n_rows_ (base m) -> 0 <= j < n_cols_ (base m) ->
            BinaryMatrix_call m i j = Ok true ->
            exists p t, 0 <= p <= n /\ 0 <= t < PackSize /\ PackSize * p + t < sz /\
                        Z.testbit (word_at (data_ m) p) t = true).
  { intros i j Hi Hj Hcall.
    destruct (cell_is_bit m i j Hwf Hi Hj) as [Hc' Hk]. fold sz in Hk.
    rewrite Hc' in Hcall. injection Hcall as Hcall. rewrite bit_of_word in Hcall.
    pose proof (Z.div_mod (i * n_cols_ (base m) + j) PackSize ltac:(discriminate)) as Hdk.
    pose proof (Z.mod_pos_bound (i * n_cols_ (base m) + j) PackSize ltac:(reflexivity)) as Hmk.
    exists ((i * n_cols_ (base m) + j) / PackSize), ((i * n_cols_ (base m) + j) mod PackSize).
    split; [| split; [exact Hmk | split; [lia | exact Hcall]]].
    split; [apply Z.div_pos; [lia | reflexivity] |].
    unfold n. apply Z.div_le_mono; [reflexivity | lia]. }
  destruct (any_visit_loop (xpr_bitpack st (XMatrix ref)) (word_at (data_ m)) sz
              ltac:(lia) Hint ltac:(intros p Hp; apply Hread; fold n in Hp; lia)
              (Datatypes.S (Z.to_nat n)) 0 ltac:(fold n; lia) ltac:(fold n; lia))
    as (s & Hrun & Hcases).
  fold n in Hcases. rewrite Z.mul_0_r in Hrun.
  assert (Hunfold : any st (XMatrix ref) =
    (if visit_return s then Ok (visit_res s)
     else if visit_i s <? sz then
       let* w := xpr_bitpack st (XMatrix ref) (visit_k s) in
       apply_sized any_visitor (visit_res s) w (sz - visit_i s)
     else Ok (visit_res s))).
  { unfold any, linear_bitpack_visit. rewrite (matrix_base st ref m Hs).
    cbn [bind]. fold sz.
    rewrite (proj2 (Z.eqb_neq sz 0)), (proj2 (Z.ltb_ge sz PackSize))
      by (unfold PackSize in *; lia).
    fold n. change (res_init any_visitor) with false. rewrite Hrun. reflexivity. }
  destruct Hcases as [(Hret & Hres & p & Hp & Hfp) | (Hret & Hres & Hk & Hi & Hzero)].
  - exists true. split; [rewrite Hunfold, Hret, Hres; reflexivity |].
    split; [intros _ | reflexivity].
    apply word_nonzero_iff in Hfp; [| apply word_at_range, Hwf].
    destruct Hfp as (t & Ht & Hbit).
    apply (Hfound p t); try assumption; unfold PackSize in *; lia.
  - destruct (Z.ltb_spec (PackSize * n) sz) as [Hlt | Hge].
    + set (v := sz - PackSize * n).
      assert (Hv : 0 < v < PackSize) by (unfold v; lia).
      pose proof (word_at_range m n Hwf) as Hwn.
      exists (negb (Z.land (Z.ones v) (word_at (data_ m) n) =? 0)). split.
      * rewrite Hunfold, Hret, Hres, Hk, Hi.
        rewrite (proj2 (Z.ltb_lt _ _) Hlt), (Hread n ltac:(lia)). cbn [bind].
        cbn [apply_sized any_visitor]. fold v.
        rewrite (mask_of_valid_bits v ltac:(lia)). reflexivity.
      * rewrite negb_true_iff, Z.eqb_neq, nonzero_word_has_a_bit by lia. split.
        -- intros (t & Ht & Hbit). apply (Hfound n t); try assumption; unfold v in *; lia.
        -- intros (i & j & Hi' & Hj' & Hcall).
           destruct (Hcellbit i j Hi' Hj' Hcall) as (p & t & Hp & Ht & Hlt' & Hbit).
           destruct (Z.eq_dec p n) as [-> | Hne].
           ++ exists t. split; [unfold v; lia | exact Hbit].
           ++ rewrite (Hzero p ltac:(lia)), Z.bits_0 in Hbit. discriminate.
    + exists false. split.
      * rewrite Hunfold, Hret, Hres, Hi.
        rewrite (proj2 (Z.ltb_ge _ _) Hge). reflexivity.
      * split; [discriminate |].
        intros (i & j & Hi' & Hj' & Hcall).
        destruct (Hcellbit i j Hi' Hj' Hcall) as (p & t & Hp & Ht & Hlt' & Hbit).
        rewrite (Hzero p ltac:(unfold PackSize in *; lia)), Z.bits_0 in Hbit. discriminate.
Qed.

(** ** Blocks *)

(** C1 (the code at two inputs).
    - In the 30 x 4 matrix with only coefficient (21, 3) set, the block of
      its first three columns has bit 2 of [bitpack(1)] set, whereas the
      block coefficient with linear index [1 * PackSize + 2 = 66], that is
      (22, 0), is false: the gather starts at column 1 of row 21 and reads
      column [1 + 2 = 3], outside the block, instead of wrapping to the next
      row.
    - In the 65 x 49 matrix with only coefficient (64, 0) set, the block
      that covers it all has bit 0 of [bitpack(49)] clear, whereas the block
      coefficient with linear index [49 * PackSize + 0], that is (64, 0), is
      true: in double precision [49 * (64 / 49.0)] is below 64 and
      [std::floor] makes the row offset 63. *)
Theorem C1_block_bitpack_reads_outside_the_block :
  (exists m blk w,
      (let* z := BinaryMatrix_sized Dynamic Dynamic 30 4 in set z 21 3) = Ok m /\
      block [m] (XMatrix 0) 0 0 30 3 = Ok blk /\
      xpr_bitpack [m] blk 1 = Ok w /\
      Z.testbit w 2 = true /\
      xpr_call [m] blk ((1 * PackSize + 2) / 3) ((1 * PackSize + 2) mod 3) = Ok false) /\
  (exists m blk w,
      (let* z := BinaryMatrix_sized Dynamic Dynamic 65 49 in set z 64 0) = Ok m /\
      block [m] (XMatrix 0) 0 0 65 49 = Ok blk /\
      block_row_offset (BinMtxBase_init Dynamic Dynamic 65 49) 0 49 = Ok 63 /\
      xpr_bitpack [m] blk 49 = Ok w /\
      Z.testbit w 0 = false /\
      xpr_call [m] blk ((49 * PackSize + 0) / 49) ((49 * PackSize + 0) mod 49) = Ok true).
Proof.
  split.
  - do 3 eexists.
    split; [by_evaluation |]. split; [by_evaluation |].
    split; [by_evaluation |]. split; by_evaluation.
  - do 3 eexists.
    split; [by_evaluation |]. split; [by_evaluation |]. split; [by_evaluation |].
    split; [by_evaluation |]. split; by_evaluation.
Qed.

(** C4 (the code at an input).  The assignment only sets the cells where
    [rhs] is true and clears nothing: assigning the 1 x 2 zero matrix to a
    block over a 1 x 2 matrix whose coefficient (0, 0) is set leaves
    [B(0, 0)] true although [rhs(0, 0)] is false. *)
Theorem C4_block_assignment_never_clears :
  exists target rhs blk st',
    (let* z := BinaryMatrix_sized Dynamic Dynamic 1 2 in set z 0 0) = Ok target /\
    BinaryMatrix_sized Dynamic Dynamic 1 2 = Ok rhs /\
    block [target; rhs] (XMatrix 0) 0 0 1 2 = Ok blk /\
    block_assign [target; rhs] blk (XMatrix 1) = Ok st' /\
    BinMtxBase_call st' (XMatrix 1) 0 0 = Ok false /\
    BinMtxBase_call st' blk 0 0 = Ok true.
Proof.
  do 4 eexists.
  split; [by_evaluation |].
  split; [by_evaluation |].
  split; [by_evaluation |].
  split; [by_evaluation |].
  split; by_evaluation.
Qed.

(** ** What block assignment computes *)

Lemma assigned_before_start (src : Z -> Z -> bool) (N sr sc bc k : Z) :
  assigned_before src N sr sc bc 0 0 k = false.
Proof.
  unfold assigned_before.
  destruct (Z.leb_spec 0 (k / N - sr)); simpl; [| reflexivity].
  destruct (Z.leb_spec 0 (k mod N - sc)); simpl; [| reflexivity].
  destruct (Z.ltb_spec (k mod N - sc) bc); simpl; [| reflexivity].
  rewrite (proj2 (Z.ltb_ge (k / N - sr) 0)), (proj2 (Z.ltb_ge (k mod N - sc) 0)) by lia.
  rewrite andb_false_r. reflexivity.
Qed.

Lemma assigned_before_next_row (src : Z -> Z -> bool) (N sr sc bc i k : Z) :
  assigned_before src N sr sc bc i bc k = assigned_before src N sr sc bc (i + 1) 0 k.
Proof.
  unfold assigned_before.
  destruct (Z.leb_spec 0 (k / N - sr)); simpl; [| reflexivity].
  destruct (Z.leb_spec 0 (k mod N - sc)); simpl; [| reflexivity].
  destruct (Z.ltb_spec (k mod N - sc) bc); simpl; [| reflexivity].
  f_equal.
  destruct (Z.ltb_spec (k / N - sr) i); destruct (Z.ltb_spec (k / N - sr) (i + 1));
    destruct (Z.eqb_spec (k / N - sr) i); destruct (Z.eqb_spec (k / N - sr) (i + 1));
    destruct (Z.ltb_spec (k mod N - sc) 0); simpl; try reflexivity; lia.
Qed.

Lemma assigned_before_next_cell (src : Z -> Z -> bool) (N sr sc bc i j k : Z) :
  0 <= i -> 0 <= j < bc -> 0 <= sc -> sc + bc <= N ->
  assigned_before src N sr sc bc i (j + 1) k =
  assigned_before src N sr sc bc i j k || ((k =? (i + sr) * N + (j + sc)) && src i j).
Proof.
  intros Hi Hj Hsc HN. unfold assigned_before.
  assert (HNpos : 0 < N) by lia.
  pose proof (Z.div_mod k N ltac:(lia)) as Hdm.
  pose proof (Z.mod_pos_bound k N HNpos) as Hm.
  destruct (Z.eqb_spec k ((i + sr) * N + (j + sc))) as [Hk | Hk].
  - destruct (row_major_index N (i + sr) (j + sc) ltac:(lia)) as [Hq Hr].
    rewrite Hk, Hq, Hr.
    replace (i + sr - sr) with i by lia. replace (j + sc - sc) with j by lia.
    rewrite (proj2 (Z.leb_le 0 i)), (proj2 (Z.leb_le 0 j)), (proj2 (Z.ltb_lt j bc)) by lia.
    rewrite !Z.ltb_irrefl, !Z.eqb_refl, (proj2 (Z.ltb_lt j (j + 1))) by lia.
    simpl. destruct (src i j); reflexivity.
  - rewrite andb_false_l, orb_false_r.
    destruct (Z.leb_spec 0 (k / N - sr)); simpl; [| reflexivity].
    destruct (Z.leb_spec 0 (k mod N - sc)); simpl; [| reflexivity].
    destruct (Z.ltb_spec (k mod N - sc) bc); simpl; [| reflexivity].
    f_equal.
    destruct (Z.ltb_spec (k / N - sr) i); simpl; [reflexivity |].
    destruct (Z.eqb_spec (k / N - sr) i); simpl; [| reflexivity].
    destruct (Z.ltb_spec (k mod N - sc) j); destruct (Z.ltb_spec (k mod N - sc) (j + 1));
      try reflexivity; nia.
Qed.

Section BlockAssignment.

Variables (st : store) (target source : nat) (mt ms : BinaryMatrix).
Variables (b : BinMtxBase) (sr sc : Z).

Hypothesis distinct : target <> source.
Hypothesis target_stored : st !! target = Some mt.
Hypothesis source_stored : st !! source = Some ms.
Hypothesis target_wf : well_formed mt = true.
Hypothesis source_wf : well_formed ms = true.
Hypothesis start_row_ok : 0 <= sr.
Hypothesis start_col_ok : 0 <= sc.
Hypothesis block_rows_ok : 0 <= n_rows_ b /\ sr + n_rows_ b <= n_rows_ (base mt).
Hypothesis block_cols_ok : 0 <= n_cols_ b /\ sc + n_cols_ b <= n_cols_ (base mt).
Hypothesis source_rows : n_rows_ (base ms) = n_rows_ b.
Hypothesis source_cols : n_cols_ (base ms) = n_cols_ b.

Lemma block_assign_cell (i j : Z) (st' : store) :
  0 <= i < n_rows_ b -> 0 <= j < n_cols_ b ->
  assigned_upto target source mt ms b sr sc i j st' ->
  exists st'',
    (let* v := BinMtxBase_call st' (XMatrix source) i j in
     if v then xpr_set st' (XBlock b (XMatrix target) sr sc) i j else Ok st') = Ok st'' /\
    assigned_upto target source mt ms b sr sc i (j + 1) st''.
Proof.
  intros Hi Hj (Hsrc & mt' & Htgt & Hbase & Hlen & Hbits).
  destruct (well_formed_facts mt target_wf) as (HR & HN & Hsz & Hnb & Hl & _).
  assert (Hread : BinMtxBase_call st' (XMatrix source) i j = Ok (source_bit ms b i j)).
  { unfold BinMtxBase_call. rewrite (matrix_base st' source ms Hsrc). cbn [bind].
    unfold in_bounds. rewrite source_rows, source_cols.
    rewrite (proj2 (Z.ltb_lt i _)), (proj2 (Z.ltb_lt j _)) by lia. cbn [bind fdapde_assert andb].
    cbn [xpr_call]. unfold deref. rewrite Hsrc. cbn [bind].
    destruct (cell_is_bit ms i j source_wf ltac:(lia) ltac:(lia)) as [-> _].
    unfold source_bit. rewrite source_cols. reflexivity. }
  rewrite Hread. cbn [bind].
  destruct (source_bit ms b i j) eqn:Hv.
  - set (N := n_cols_ (base mt)) in *.
    assert (Hk : 0 <= (i + sr) * n_cols_ (base mt') + (j + sc) < size (base mt)).
    { rewrite Hbase. fold N. unfold size. fold N. nia. }
    assert (Hp : ((i + sr) * n_cols_ (base mt') + (j + sc)) / PackSize
                 < Z.of_nat (length (data_ mt'))).
    { rewrite Hlen.
      assert (((i + sr) * n_cols_ (base mt') + (j + sc)) / PackSize
              <= size (base mt) / PackSize)
        by (apply Z.div_le_mono; [reflexivity | lia]).
      lia. }
    destruct (set_bit_bits mt' (i + sr) (j + sc) (proj1 Hk) Hp)
      as (mt'' & Hset & Hbase' & Hlen' & Hbits').
    exists (<[target := mt'']> st'). split.
    + cbn [xpr_set]. unfold deref. rewrite Htgt. cbn [bind].
      unfold set, in_bounds. rewrite Hbase. fold N.
      rewrite (proj2 (Z.ltb_lt (i + sr) _)), (proj2 (Z.ltb_lt (j + sc) N)) by lia.
      cbn [bind fdapde_assert andb]. rewrite Hset. reflexivity.
    + split.
      * etransitivity; [apply list_lookup_insert_ne; exact distinct | exact Hsrc].
      * exists mt''. split.
        -- apply list_lookup_insert_eq. apply (lookup_lt_Some _ _ _ Htgt).
        -- split; [congruence |]. split; [congruence |].
           intros k Hk0. rewrite (Hbits' k Hk0), (Hbits k Hk0), Hbase. fold N.
           rewrite assigned_before_next_cell by lia.
           rewrite Hv, andb_true_r, orb_assoc. reflexivity.
  - exists st'. split; [reflexivity |].
    split; [exact Hsrc |]. exists mt'. repeat split; try assumption.
    intros k Hk0. rewrite (Hbits k Hk0).
    rewrite assigned_before_next_cell by lia.
    rewrite Hv, andb_false_r, orb_false_r. reflexivity.
Qed.

(** Assigning a stored matrix to a block over another stored matrix leaves
    in each cell of the block the disjunction of what it held and of the
    cell of the source. *)
Theorem block_assign_is_a_union :
  Rows b = Dynamic ->
  exists st',
    block_assign st (XBlock b (XMatrix target) sr sc) (XMatrix source) = Ok st' /\
    st' !! source = Some ms /\
    forall i j, 0 <= i < n_rows_ b -> 0 <= j < n_cols_ b ->
      exists before rhs,
        xpr_call st (XBlock b (XMatrix target) sr sc) i j = Ok before /\
        BinaryMatrix_call ms i j = Ok rhs /\
        xpr_call st' (XBlock b (XMatrix target) sr sc) i j = Ok (before || rhs).
Proof.
  intros Hdyn.
  destruct (well_formed_facts mt target_wf) as (HR & HN & Hsz & Hnb & Hl & _).
  set (N := n_cols_ (base mt)) in *.
  assert (Hloops : exists st',
    for_loop (Z.to_nat (n_rows_ b)) 0
      (fun i st1 =>
         for_range (n_cols_ b)
           (fun j st2 =>
              let* v := BinMtxBase_call st2 (XMatrix source) i j in
              if v then xpr_set st2 (XBlock b (XMatrix target) sr sc) i j else Ok st2) st1)
      st = Ok st' /\
    assigned_upto target source mt ms b sr sc (0 + Z.of_nat (Z.to_nat (n_rows_ b))) 0 st').
  { apply (for_loop_invariant
             (fun i st1 => assigned_upto target source mt ms b sr sc i 0 st1)).
    - split; [exact source_stored |]. exists mt. repeat split; try assumption.
      intros k Hk. rewrite assigned_before_start, orb_false_r. reflexivity.
    - intros i st1 Hi Hinv.
      assert (Hinner : exists st2,
        for_loop (Z.to_nat (n_cols_ b)) 0
          (fun j st2 =>
             let* v := BinMtxBase_call st2 (XMatrix source) i j in
             if v then xpr_set st2 (XBlock b (XMatrix target) sr sc) i j else Ok st2) st1
        = Ok st2 /\
        assigned_upto target source mt ms b sr sc i (0 + Z.of_nat (Z.to_nat (n_cols_ b))) st2).
      { apply (for_loop_invariant
                 (fun j st2 => assigned_upto target source mt ms b sr sc i j st2));
          [exact Hinv |].
        intros j st2 Hj Hinv2. apply block_assign_cell; [lia | lia | exact Hinv2]. }
      destruct Hinner as (st2 & Hrun & (Hsrc & mt' & Htgt & Hbase & Hlen & Hbits)).
      exists st2. split; [exact Hrun |].
      split; [exact Hsrc |]. exists mt'. repeat split; try assumption.
      intros k Hk. rewrite (Hbits k Hk). f_equal.
      replace (0 + Z.of_nat (Z.to_nat (n_cols_ b))) with (n_cols_ b) by lia.
      apply assigned_before_next_row. }
  destruct Hloops as (st' & Hrun & (Hsrc & mt' & Htgt & Hbase & Hlen & Hbits)).
  exists st'. split; [| split; [exact Hsrc |]].
  - unfold block_assign. rewrite (matrix_base st source ms source_stored). cbn [bind].
    rewrite Hdyn. cbn [Z.eqb orb fdapde_static_assert bind].
    unfold rows, cols. rewrite source_rows, source_cols, !Z.eqb_refl.
    cbn [andb fdapde_assert bind]. exact Hrun.
  - intros i j Hi Hj.
    assert (Hk : 0 <= (i + sr) * N + (j + sc) < size (base mt)) by (unfold size; fold N; nia).
    assert (Hp : ((i + sr) * N + (j + sc)) / PackSize < Z.of_nat (length (data_ mt))).
    { assert (((i + sr) * N + (j + sc)) / PackSize <= size (base mt) / PackSize)
        by (apply Z.div_le_mono; [reflexivity | lia]).
      lia. }
    exists (bit_of (data_ mt) ((i + sr) * N + (j + sc))), (source_bit ms b i j).
    assert (Hin : in_bounds b i j = true).
    { unfold in_bounds. rewrite (proj2 (Z.ltb_lt i _)), (proj2 (Z.ltb_lt j _)) by lia.
      reflexivity. }
    split; [| split].
    + cbn [xpr_call]. rewrite Hin. cbn [fdapde_assert bind].
      unfold deref. rewrite target_stored. cbn [bind].
      apply BinaryMatrix_call_bit; fold N; lia.
    + destruct (cell_is_bit ms i j source_wf ltac:(lia) ltac:(lia)) as [-> _].
      unfold source_bit. rewrite source_cols. reflexivity.
    + cbn [xpr_call]. rewrite Hin. cbn [fdapde_assert bind].
      unfold deref. rewrite Htgt. cbn [bind].
      rewrite BinaryMatrix_call_bit; rewrite ?Hbase, ?Hlen; fold N; [| lia | lia].
      rewrite (Hbits _ (proj1 Hk)). do 2 f_equal.
      unfold assigned_before. fold N.
      destruct (row_major_index N (i + sr) (j + sc) ltac:(lia)) as [-> ->].
      replace (i + sr - sr) with i by lia. replace (j + sc - sc) with j by lia.
      rewrite (proj2 (Z.leb_le 0 i)), (proj2 (Z.leb_le 0 j)) by lia.
      rewrite (proj2 (Z.ltb_lt j (n_cols_ b))) by lia.
      rewrite (proj2 (Z.ltb_lt i (0 + Z.of_nat (Z.to_nat (n_rows_ b))))) by lia.
      reflexivity.
Qed.

End BlockAssignment.

(** ** Comparison *)

Lemma comparison_loops (read1 read2 : Z -> outcome Z) (f1 f2 : Z -> Z) :
  forall (fuel : nat) (i : Z) (r : bool),
    (forall k, i <= k < i + Z.of_nat fuel -> read1 k = Ok (f1 k) /\ read2 k = Ok (f2 k)) ->
    exists b,
      eq_loop read1 read2 fuel i r = Ok b /\
      neq_loop read1 read2 fuel i (negb r) = Ok (negb b) /\
      (b = true <-> r = true /\ forall k, i <= k < i + Z.of_nat fuel -> f1 k = f2 k).
Proof.
  induction fuel as [| fuel IH]; intros i r Hreads.
  - exists r. repeat split; try tauto. intros; lia.
  - simpl. destruct r; simpl.
    + destruct (Hreads i ltac:(lia)) as [-> ->]. simpl.
      destruct (IH (i + 1) (f1 i =? f2 i)) as (b & He & Hn & Hb).
      { intros k Hk. apply Hreads. lia. }
      exists b. split; [exact He |]. split; [exact Hn |].
      rewrite Hb. split.
      * intros [Hi Hrest]. split; [reflexivity |]. intros k Hk.
        destruct (Z.eq_dec k i) as [-> | Hne]; [apply Z.eqb_eq, Hi | apply Hrest; lia].
      * intros [_ Hall]. split; [apply Z.eqb_eq, Hall; lia |].
        intros k Hk. apply Hall. lia.
    + exists false. repeat split; try discriminate. tauto.
Qed.

Section Comparison.

Variables (st : store) (e1 e2 : Xpr) (b1 b2 : BinMtxBase).
Variables (f1 f2 : Z -> Z) (n : Z).

Hypothesis base1 : xpr_base st e1 = Ok b1.
Hypothesis base2 : xpr_base st e2 = Ok b2.
Hypothesis shapes_compile : comparable b1 b2 = true.
Hypothesis same_rows : rows b1 = rows b2.
Hypothesis same_cols : cols b1 = cols b2.
Hypothesis last_index : bitpacks b1 - 1 = n.
Hypothesis last_index_nonneg : 0 <= n.
Hypothesis full_reads :
  forall k, 0 <= k < n ->
            xpr_bitpack st e1 k = Ok (f1 k) /\ xpr_bitpack st e2 k = Ok (f2 k).

(** The two comparison operators on expressions whose bitpacks can be read:
    the full bitpacks are compared as they are, the last one under the mask
    of its [v] valid bits. *)
Lemma comparison_masked (v : Z) :
  size b1 - PackSize * n = v -> 0 < v <= PackSize ->
  xpr_bitpack st e1 n = Ok (f1 n) -> xpr_bitpack st e2 n = Ok (f2 n) ->
  exists b,
    operator_eq st e1 e2 = Ok b /\
    operator_neq st e1 e2 = Ok (negb b) /\
    (b = true <->
     (forall k, 0 <= k < n -> f1 k = f2 k) /\
     Z.land (Z.ones v) (f1 n) = Z.land (Z.ones v) (f2 n)).
Proof.
  intros Hv Hvr Hlast1 Hlast2.
  destruct (comparison_loops (xpr_bitpack st e1) (xpr_bitpack st e2) f1 f2
              (Z.to_nat n) 0 true) as (bl & Heq & Hneq & Hbl).
  { intros k Hk. apply full_reads. lia. }
  exists (bl && (Z.land (Z.ones v) (f1 n) =? Z.land (Z.ones v) (f2 n))).
  split; [| split].
  - unfold operator_eq. rewrite base1, base2. simpl. rewrite shapes_compile. simpl.
    rewrite same_rows, same_cols, !Z.eqb_refl. simpl.
    rewrite last_index, Heq. simpl. rewrite Hv, (mask_of_valid_bits v Hvr). simpl.
    rewrite Hlast1, Hlast2. reflexivity.
  - unfold operator_neq. rewrite base1, base2. simpl. rewrite shapes_compile. simpl.
    rewrite same_rows, same_cols, !Z.eqb_refl. simpl.
    rewrite last_index. change false with (negb true). rewrite Hneq. simpl.
    rewrite Hv, (mask_of_valid_bits v Hvr). simpl.
    rewrite Hlast1, Hlast2. simpl. rewrite negb_andb. reflexivity.
  - rewrite andb_true_iff, Hbl, Z.eqb_eq. split.
    + intros [[_ Hw] Hm]. split; [| exact Hm]. intros k Hk. apply Hw. lia.
    + intros [Hw Hm]. split; [| exact Hm]. split; [reflexivity |].
      intros k Hk. apply Hw. lia.
Qed.

(** When the last bitpack has no valid bit the mask is a shift by the word
    width. *)
Lemma comparison_at_word_boundary :
  size b1 - PackSize * n = 0 ->
  operator_eq st e1 e2 = Undefined /\ operator_neq st e1 e2 = Undefined.
Proof.
  intros Hv.
  destruct (comparison_loops (xpr_bitpack st e1) (xpr_bitpack st e2) f1 f2
              (Z.to_nat n) 0 true) as (bl & Heq & Hneq & _).
  { intros k Hk. apply full_reads. lia. }
  split.
  - unfold operator_eq. rewrite base1, base2. simpl. rewrite shapes_compile. simpl.
    rewrite same_rows, same_cols, !Z.eqb_refl. simpl.
    rewrite last_index, Heq. simpl. rewrite Hv. reflexivity.
  - unfold operator_neq. rewrite base1, base2. simpl. rewrite shapes_compile. simpl.
    rewrite same_rows, same_cols, !Z.eqb_refl. simpl.
    rewrite last_index. change false with (negb true). rewrite Hneq. simpl.
    rewrite Hv. reflexivity.
Qed.

End Comparison.

(** The coefficients of two well-formed matrices of equal dimensions agree
    if and only if their full words are equal and their last words agree on
    the valid bits. *)
Lemma cells_agree_iff_words_agree (m1 m2 : BinaryMatrix) :
  well_formed m1 = true -> well_formed m2 = true ->
  n_rows_ (base m1) = n_rows_ (base m2) -> n_cols_ (base m1) = n_cols_ (base m2) ->
  size (base m1) mod PackSize <> 0 ->
  (forall i j, 0 <= i < n_rows_ (base m1) -> 0 <= j < n_cols_ (base m1) ->
               BinaryMatrix_call m1 i j = BinaryMatrix_call m2 i j) <->
  (forall k, 0 <= k < size (base m1) / PackSize ->
             word_at (data_ m1) k = word_at (data_ m2) k) /\
  Z.land (Z.ones (size (base m1) mod PackSize))
    (word_at (data_ m1) (size (base m1) / PackSize)) =
  Z.land (Z.ones (size (base m1) mod PackSize))
    (word_at (data_ m2) (size (base m1) / PackSize)).
Proof.
  intros Hwf1 Hwf2 Hr Hc Hmod.
  destruct (well_formed_facts m1 Hwf1) as (Hr1 & Hc1 & Hsz1 & Hnb1 & Hl1 & _).
  destruct (well_formed_facts m2 Hwf2) as (_ & _ & _ & Hnb2 & Hl2 & _).
  assert (Hsize : size (base m2) = size (base m1)) by (unfold size; congruence).
  rewrite Hsize in Hnb2.
  assert (Hszdef : size (base m1) = n_rows_ (base m1) * n_cols_ (base m1)) by reflexivity.
  remember (size (base m1)) as sz eqn:Esz.
  remember (n_cols_ (base m1)) as C eqn:EC.
  remember (sz / PackSize) as n eqn:En.
  remember (sz mod PackSize) as v eqn:Ev.
  pose proof (Z.div_mod sz PackSize ltac:(discriminate)) as Hdm. rewrite <- En, <- Ev in Hdm.
  pose proof (Z.mod_pos_bound sz PackSize ltac:(reflexivity)) as Hv. rewrite <- Ev in Hv.
  assert (Hn : 0 <= n) by (rewrite En; apply Z.div_pos; [lia | reflexivity]).
  assert (HC : 0 < C).
  { destruct (Z.eq_dec C 0) as [H0 | H0]; [| lia].
    exfalso. apply Hmod. rewrite Ev, Hszdef, H0, Z.mul_0_r. reflexivity. }
  assert (Hcell : forall i j, 0 <= i < n_rows_ (base m1) -> 0 <= j < C ->
    BinaryMatrix_call m1 i j = Ok (bit_of (data_ m1) (i * C + j)) /\
    BinaryMatrix_call m2 i j = Ok (bit_of (data_ m2) (i * C + j)) /\
    0 <= i * C + j < sz).
  { intros i j Hi Hj.
    assert (Hk : 0 <= i * C + j < sz) by nia.
    assert (Hp : (i * C + j) / PackSize <= n)
      by (rewrite En; apply Z.div_le_mono; [reflexivity | lia]).
    split; [| split; [| exact Hk]].
    - rewrite EC. apply BinaryMatrix_call_bit; rewrite <- EC; lia.
    - rewrite Hc. apply BinaryMatrix_call_bit; rewrite <- Hc; lia. }
  rewrite masked_equal_iff by lia. split.
  - intros Hcells.
    assert (Hbit : forall k, 0 <= k < sz -> bit_of (data_ m1) k = bit_of (data_ m2) k).
    { intros k Hk.
      pose proof (Z.div_mod k C ltac:(lia)) as Hdk.
      pose proof (Z.mod_pos_bound k C HC) as Hmk.
      assert (Hi : 0 <= k / C < n_rows_ (base m1)).
      { split; [apply Z.div_pos; lia |].
        apply Z.div_lt_upper_bound; [exact HC |]. lia. }
      destruct (Hcell (k / C) (k mod C) Hi Hmk) as (H1 & H2 & _).
      specialize (Hcells (k / C) (k mod C) Hi Hmk). rewrite H1, H2 in Hcells.
      replace (k / C * C + k mod C) with k in Hcells by lia.
      injection Hcells as Hcells. exact Hcells. }
    split.
    + intros p Hp.
      apply word_equal_iff; [apply word_at_range, Hwf1 | apply word_at_range, Hwf2 |].
      intros t Ht.
      specialize (Hbit (PackSize * p + t) ltac:(unfold PackSize in *; lia)).
      rewrite !bit_of_word in Hbit.
      replace ((PackSize * p + t) / PackSize) with p in Hbit
        by (apply Z.div_unique with (r := t); lia).
      replace ((PackSize * p + t) mod PackSize) with t in Hbit
        by (apply Z.mod_unique with (q := p); lia).
      exact Hbit.
    + intros t Ht.
      specialize (Hbit (PackSize * n + t) ltac:(unfold PackSize in *; lia)).
      rewrite !bit_of_word in Hbit.
      replace ((PackSize * n + t) / PackSize) with n in Hbit
        by (apply Z.div_unique with (r := t); unfold PackSize in *; lia).
      replace ((PackSize * n + t) mod PackSize) with t in Hbit
        by (apply Z.mod_unique with (q := n); unfold PackSize in *; lia).
      exact Hbit.
  - intros [Hwords Hbits] i j Hi Hj.
    destruct (Hcell i j Hi Hj) as (-> & -> & Hk). f_equal.
    rewrite !bit_of_word.
    assert (Hp : 0 <= (i * C + j) / PackSize <= n).
    { split; [apply Z.div_pos; [lia | reflexivity] |].
      rewrite En. apply Z.div_le_mono; [reflexivity | lia]. }
    pose proof (Z.div_mod (i * C + j) PackSize ltac:(discriminate)) as Hdk.
    pose proof (Z.mod_pos_bound (i * C + j) PackSize ltac:(reflexivity)) as Hmk.
    destruct (Z.eq_dec ((i * C + j) / PackSize) n) as [Hlastp | Hfull].
    + rewrite Hlastp. apply Hbits. rewrite Hlastp in Hdk. lia.
    + rewrite (Hwords ((i * C + j) / PackSize)) by lia. reflexivity.
Qed.

(** Away from the word boundary [==] decides whether two stored matrices of
    equal dimensions agree on every coefficient, and [!=] is its negation. *)
Theorem operator_eq_decides_equality :
  forall (st : store) (r1 r2 : nat) (m1 m2 : BinaryMatrix),
    st !! r1 = Some m1 -> st !! r2 = Some m2 ->
    well_formed m1 = true -> well_formed m2 = true ->
    comparable (base m1) (base m2) = true ->
    n_rows_ (base m1) = n_rows_ (base m2) -> n_cols_ (base m1) = n_cols_ (base m2) ->
    size (base m1) mod PackSize <> 0 ->
    exists b,
      operator_eq st (XMatrix r1) (XMatrix r2) = Ok b /\
      operator_neq st (XMatrix r1) (XMatrix r2) = Ok (negb b) /\
      (b = true <->
       forall i j, 0 <= i < n_rows_ (base m1) -> 0 <= j < n_cols_ (base m1) ->
                   BinaryMatrix_call m1 i j = BinaryMatrix_call m2 i j).
Proof.
  intros st r1 r2 m1 m2 Hs1 Hs2 Hwf1 Hwf2 Hcmp Hr Hc Hmod.
  destruct (well_formed_facts m1 Hwf1) as (Hr1 & Hc1 & Hsz1 & Hnb1 & Hl1 & _).
  destruct (well_formed_facts m2 Hwf2) as (_ & _ & _ & Hnb2 & Hl2 & _).
  assert (Hsize : size (base m2) = size (base m1)) by (unfold size; congruence).
  rewrite Hsize in Hnb2.
  pose proof (Z.div_mod (size (base m1)) PackSize ltac:(discriminate)) as Hdm.
  pose proof (Z.mod_pos_bound (size (base m1)) PackSize ltac:(reflexivity)) as Hv.
  assert (Hn : 0 <= size (base m1) / PackSize) by (apply Z.div_pos; [lia | reflexivity]).
  destruct (comparison_masked st (XMatrix r1) (XMatrix r2) (base m1) (base m2)
              (word_at (data_ m1)) (word_at (data_ m2)) (size (base m1) / PackSize)
              (matrix_base st r1 m1 Hs1) (matrix_base st r2 m2 Hs2) Hcmp Hr Hc
              ltac:(unfold bitpacks; lia) Hn
              ltac:(intros k Hk; split; apply matrix_bitpack_word; try assumption; lia)
              (size (base m1) mod PackSize)
              ltac:(lia) ltac:(unfold PackSize in *; lia)
              ltac:(apply matrix_bitpack_word; try assumption; lia)
              ltac:(apply matrix_bitpack_word; try assumption; lia))
    as (b & Heq & Hneq & Hb).
  exists b. split; [exact Heq |]. split; [exact Hneq |].
  rewrite Hb. symmetry. apply cells_agree_iff_words_agree; assumption.
Qed.

(** At the word boundary the mask of both operators is a shift by the word
    width, whatever the matrices hold. *)
Theorem operator_eq_undefined_at_word_boundary :
  forall (st : store) (r1 r2 : nat) (m1 m2 : BinaryMatrix),
    st !! r1 = Some m1 -> st !! r2 = Some m2 ->
    well_formed m1 = true -> well_formed m2 = true ->
    comparable (base m1) (base m2) = true ->
    n_rows_ (base m1) = n_rows_ (base m2) -> n_cols_ (base m1) = n_cols_ (base m2) ->
    size (base m1) mod PackSize = 0 ->
    operator_eq st (XMatrix r1) (XMatrix r2) = Undefined /\
    operator_neq st (XMatrix r1) (XMatrix r2) = Undefined.
Proof.
  intros st r1 r2 m1 m2 Hs1 Hs2 Hwf1 Hwf2 Hcmp Hr Hc Hmod.
  destruct (well_formed_facts m1 Hwf1) as (Hr1 & Hc1 & Hsz1 & Hnb1 & Hl1 & _).
  destruct (well_formed_facts m2 Hwf2) as (_ & _ & _ & Hnb2 & Hl2 & _).
  assert (Hsize : size (base m2) = size (base m1)) by (unfold size; congruence).
  rewrite Hsize in Hnb2.
  pose proof (Z.div_mod (size (base m1)) PackSize ltac:(discriminate)) as Hdm.
  assert (Hn : 0 <= size (base m1) / PackSize) by (apply Z.div_pos; [lia | reflexivity]).
  apply (comparison_at_word_boundary st (XMatrix r1) (XMatrix r2) (base m1) (base m2)
           (word_at (data_ m1)) (word_at (data_ m2)) (size (base m1) / PackSize)
           (matrix_base st r1 m1 Hs1) (matrix_base st r2 m2 Hs2) Hcmp Hr Hc
           ltac:(unfold bitpacks; lia) Hn
           ltac:(intros k Hk; split; apply matrix_bitpack_word; try assumption; lia)).
  lia.
Qed.

(** C5 (the code at two inputs).
    - When the size is a multiple of the word width the mask of the last
      bitpack is [~0 >> PackSize], a shift by the full width, which is
      undefined: so it is for [Ones(8, 8)] against the 8 x 8 matrix filled by
      [set()], two matrices with all 64 coefficients true.
    - The static assertion of [==] asks [Rows == Cols] of both operands when
      all four extents are static: two [BinaryMatrix<5, 3>] are rejected. *)
Theorem C5_equality_fails_on_word_multiples :
  (exists a b,
      Ones Dynamic Dynamic 8 8 = Ok a /\
      (let* z := BinaryMatrix_sized Dynamic Dynamic 8 8 in set_all z) = Ok b /\
      (forall i j, 0 <= i < 8 -> 0 <= j < 8 ->
         BinaryMatrix_call a i j = Ok true /\ BinaryMatrix_call b i j = Ok true) /\
      operator_eq [a; b] (XMatrix 0) (XMatrix 1) = Undefined /\
      operator_neq [a; b] (XMatrix 0) (XMatrix 1) = Undefined) /\
  (exists a,
      BinaryMatrix_static 5 3 = Ok a /\
      operator_eq [a; a] (XMatrix 0) (XMatrix 1) = Rejected /\
      operator_neq [a; a] (XMatrix 0) (XMatrix 1) = Rejected).
Proof.
  split.
  - do 2 eexists. split; [by_evaluation |].
    split; [by_evaluation |]. split.
    + intros i j Hi Hj.
      split; apply is_ok_true_spec.
      * apply (forall_below2 8 8 (fun i j => is_ok_true (BinaryMatrix_call _ i j)));
          [by_evaluation | exact Hi | exact Hj].
      * apply (forall_below2 8 8 (fun i j => is_ok_true (BinaryMatrix_call _ i j)));
          [by_evaluation | exact Hi | exact Hj].
    + split; by_evaluation.
  - eexists. split; [reflexivity |]. split; by_evaluation.
Qed.

(** ** An identity of the bitwise operators *)

Lemma eq_loop_equal_reads (read1 read2 : Z -> outcome Z) :
  forall (fuel : nat) (i : Z),
    (forall k, i <= k < i + Z.of_nat fuel ->
               exists w, read1 k = Ok w /\ read2 k = Ok w) ->
    eq_loop read1 read2 fuel i true = Ok true.
Proof.
  induction fuel as [| fuel IH]; intros i Hreads; [reflexivity |].
  simpl. destruct (Hreads i ltac:(lia)) as (w & -> & ->). simpl.
  rewrite Z.eqb_refl. apply IH. intros k Hk. apply Hreads. lia.
Qed.

(** Two expressions whose bitpacks coincide compare equal, as long as the
    size is not a multiple of the word width. *)
Lemma operator_eq_equal_bitpacks (st : store) (e1 e2 : Xpr) (b1 b2 : BinMtxBase) :
  xpr_base st e1 = Ok b1 -> xpr_base st e2 = Ok b2 ->
  comparable b1 b2 = true ->
  rows b1 = rows b2 -> cols b1 = cols b2 ->
  0 <= size b1 ->
  bitpacks b1 = 1 + size b1 / PackSize ->
  size b1 mod PackSize <> 0 ->
  (forall k, 0 <= k < bitpacks b1 ->
             exists w, xpr_bitpack st e1 k = Ok w /\ xpr_bitpack st e2 k = Ok w) ->
  operator_eq st e1 e2 = Ok true.
Proof.
  intros H1 H2 Hcmp Hr Hc Hsz Hnb Hmod Hpacks.
  unfold operator_eq. rewrite H1, H2. simpl. rewrite Hcmp. simpl.
  rewrite Hr, Hc, !Z.eqb_refl. simpl.
  assert (Hq : 0 <= size b1 / PackSize) by (apply Z.div_pos; [exact Hsz | reflexivity]).
  rewrite eq_loop_equal_reads by (intros k Hk; apply Hpacks; lia). simpl.
  pose proof (Z.div_mod (size b1) PackSize ltac:(discriminate)) as Hdm.
  pose proof (Z.mod_pos_bound (size b1) PackSize ltac:(reflexivity)) as Hbound.
  assert (Hshift : 0 <= PackSize - (size b1 - PackSize * (bitpacks b1 - 1)) < PackSize).
  { rewrite Hnb. unfold PackSize in *. lia. }
  unfold shr.
  rewrite (proj2 (Z.leb_le _ _) (proj1 Hshift)), (proj2 (Z.ltb_lt _ _) (proj2 Hshift)).
  simpl. destruct (Hpacks (bitpacks b1 - 1) ltac:(lia)) as (w & -> & ->). simpl.
  rewrite Z.eqb_refl. reflexivity.
Qed.

Lemma lor_lxor_land (a b : Z) : Z.lor (Z.lxor a b) (Z.land a b) = Z.lor a b.
Proof.
  apply Z.bits_inj'. intros n _.
  rewrite !Z.lor_spec, Z.lxor_spec, Z.land_spec.
  destruct (Z.testbit a n), (Z.testbit b n); reflexivity.
Qed.

(** * Further properties of binary_matrix.h *)

(** ** Words that stay words *)

Lemma word_of_high_bits (x : Z) :
  0 <= x -> (forall t, PackSize <= t -> Z.testbit x t = false) -> 0 <= x < 2 ^ PackSize.
Proof.
  intros Hx Hhigh.
  assert (Hmod : x = x mod 2 ^ PackSize).
  { apply Z.bits_inj'. intros n Hn. destruct (Z.ltb_spec n PackSize) as [Hlt | Hge].
    - rewrite Z.mod_pow2_bits_low by lia. reflexivity.
    - rewrite Z.mod_pow2_bits_high by (unfold PackSize in *; lia). apply Hhigh. exact Hge. }
  rewrite Hmod. apply Z.mod_pos_bound. reflexivity.
Qed.

Lemma high_bits_of_word (w t : Z) :
  0 <= w < 2 ^ PackSize -> PackSize <= t -> Z.testbit w t = false.
Proof.
  intros Hw Ht. destruct (Z.eq_dec w 0) as [-> | Hnz]; [apply Z.bits_0 |].
  apply Z.bits_above_log2; [lia |].
  assert (Z.log2 w < PackSize) by (apply Z.log2_lt_pow2; lia). lia.
Qed.

Lemma bit_not_bits (p t : Z) :
  0 <= t < PackSize -> Z.testbit (bit_not p) t = negb (Z.testbit p t).
Proof.
  intros Ht. unfold bit_not, wrap.
  rewrite Z.mod_pow2_bits_low by lia. apply Z.lnot_spec. lia.
Qed.

Lemma bit_not_is_word (p : Z) : 0 <= bit_not p < 2 ^ PackSize.
Proof. unfold bit_not, wrap. apply Z.mod_pos_bound. reflexivity. Qed.

Lemma lor_pow2_is_word (w s : Z) :
  0 <= w < 2 ^ PackSize -> 0 <= s < PackSize -> is_word (Z.lor w (2 ^ s)) = true.
Proof.
  intros Hw Hs.
  assert (Hp : 0 <= 2 ^ s) by (apply Z.pow_nonneg; lia).
  assert (H : 0 <= Z.lor w (2 ^ s) < 2 ^ PackSize).
  { apply word_of_high_bits; [apply Z.lor_nonneg; lia |].
    intros t Ht. rewrite Z.lor_spec, (high_bits_of_word w t Hw Ht).
    rewrite Z.pow2_bits_eqb by lia. apply Z.eqb_neq. lia. }
  unfold is_word. apply andb_true_intro. split; [apply Z.leb_le | apply Z.ltb_lt]; lia.
Qed.

Lemma land_is_word (w x : Z) : 0 <= w < 2 ^ PackSize -> is_word (Z.land w x) = true.
Proof.
  intros Hw.
  assert (H : 0 <= Z.land w x < 2 ^ PackSize).
  { apply word_of_high_bits; [apply Z.land_nonneg; left; lia |].
    intros t Ht. rewrite Z.land_spec, (high_bits_of_word w t Hw Ht). reflexivity. }
  unfold is_word. apply andb_true_intro. split; [apply Z.leb_le | apply Z.ltb_lt]; lia.
Qed.

Lemma forallb_insert {A : Type} (f : A -> bool) (l : list A) (n : nat) (x : A) :
  forallb f l = true -> f x = true -> forallb f (<[n := x]> l) = true.
Proof.
  revert n. induction l as [| a l IH]; intros n Hl Hx; [exact Hl |].
  simpl in Hl. apply andb_prop in Hl as [Ha Hl].
  destruct n as [| n]; simpl.
  - rewrite Hx. exact Hl.
  - rewrite Ha. apply IH; assumption.
Qed.

Lemma well_formed_with_data (m : BinaryMatrix) (p : nat) (w : Z) :
  well_formed m = true -> is_word w = true ->
  well_formed (with_data m (<[p := w]> (data_ m))) = true.
Proof.
  unfold well_formed. simpl. intros Hwf Hw.
  apply andb_prop in Hwf as [Hrest Hwords].
  rewrite length_insert, Hrest. simpl. apply forallb_insert; assumption.
Qed.

Lemma well_formed_of_facts (m : BinaryMatrix) :
  0 <= n_rows_ (base m) -> 0 <= n_cols_ (base m) ->
  size (base m) <= INT_MAX ->
  n_bitpacks_ (base m) = 1 + size (base m) / PackSize ->
  Z.of_nat (length (data_ m)) = n_bitpacks_ (base m) ->
  forallb is_word (data_ m) = true ->
  well_formed m = true.
Proof.
  intros Hr Hc Hsz Hnb Hl Hw. unfold well_formed.
  rewrite (proj2 (Z.leb_le _ _) Hr), (proj2 (Z.leb_le _ _) Hc), (proj2 (Z.leb_le _ _) Hsz).
  rewrite (proj2 (Z.eqb_eq _ _) Hnb), (proj2 (Z.eqb_eq _ _) Hl), Hw. reflexivity.
Qed.

Lemma forallb_replicate {A : Type} (f : A -> bool) (n : nat) (x : A) :
  f x = true -> forallb f (replicate n x) = true.
Proof. intros Hx. induction n as [| n IH]; simpl; [reflexivity |]. rewrite Hx. exact IH. Qed.

(** ** Writing one cell *)

(** The read-modify-write that [set] and [clear] share: inside the storage
    it replaces the word of the cell by [op] of that word and of the mask of
    the cell. *)
Lemma write_cell (m : BinaryMatrix) (i j : Z) (op : Z -> Z -> Z) :
  0 <= i * n_cols_ (base m) + j ->
  (i * n_cols_ (base m) + j) / PackSize < Z.of_nat (length (data_ m)) ->
  (let* w := data_at (data_ m) (pack_of m i j) in
   let* s := shl 1 (Z.rem (i * n_cols_ (base m) + j) PackSize) in
   let* d := data_write (data_ m) (pack_of m i j) (op w s) in
   Ok (with_data m d)) =
  Ok (with_data m
        (<[Z.to_nat ((i * n_cols_ (base m) + j) / PackSize) :=
             op (word_at (data_ m) ((i * n_cols_ (base m) + j) / PackSize))
                (2 ^ ((i * n_cols_ (base m) + j) mod PackSize))]> (data_ m))).
Proof.
  intros Hk Hp. unfold pack_of.
  set (k := i * n_cols_ (base m) + j) in *.
  rewrite (quot_PackSize k Hk), (rem_PackSize k Hk).
  assert (Hdiv : 0 <= k / PackSize) by (apply Z.div_pos; [exact Hk | reflexivity]).
  rewrite data_at_word by lia. cbn [bind].
  rewrite shl_one by (apply Z.mod_pos_bound; reflexivity). cbn [bind].
  unfold data_write.
  rewrite (proj2 (Z.ltb_ge (k / PackSize) 0) Hdiv), (proj2 (Z.ltb_lt _ _) Hp).
  reflexivity.
Qed.

Lemma bit_of_insert (d : list Z) (p : Z) (w : Z) (k : Z) :
  0 <= p < Z.of_nat (length d) -> 0 <= k ->
  bit_of (<[Z.to_nat p := w]> d) k =
  if k / PackSize =? p then Z.testbit w (k mod PackSize) else bit_of d k.
Proof.
  intros Hp Hk. unfold bit_of, word_at.
  assert (Hdiv : 0 <= k / PackSize) by (apply Z.div_pos; [exact Hk | reflexivity]).
  destruct (Z.eqb_spec (k / PackSize) p) as [-> | Hne].
  - rewrite list_lookup_insert_eq by lia. reflexivity.
  - rewrite list_lookup_insert_ne by lia. reflexivity.
Qed.

(** A cell inside a well-formed matrix: its index and its word are inside
    the storage. *)
Lemma cell_in_storage (m : BinaryMatrix) (i j : Z) :
  well_formed m = true ->
  0 <= i < n_rows_ (base m) -> 0 <= j < n_cols_ (base m) ->
  0 <= i * n_cols_ (base m) + j < size (base m) /\
  0 <= (i * n_cols_ (base m) + j) / PackSize < Z.of_nat (length (data_ m)).
Proof.
  intros Hwf Hi Hj.
  destruct (well_formed_facts m Hwf) as (Hr & Hc & Hsz & Hnb & Hl & _).
  assert (Hk : 0 <= i * n_cols_ (base m) + j < size (base m)) by (unfold size; nia).
  split; [exact Hk |]. split; [apply Z.div_pos; [lia | reflexivity] |].
  assert ((i * n_cols_ (base m) + j) / PackSize <= size (base m) / PackSize)
    by (apply Z.div_le_mono; [reflexivity | lia]).
  lia.
Qed.

Lemma distinct_cells_distinct_indices (C i j i' j' : Z) :
  0 <= j < C -> 0 <= j' < C -> (i', j') <> (i, j) -> i' * C + j' <> i * C + j.
Proof.
  intros Hj Hj' Hne Heq. apply Hne.
  assert (i' = i) by nia. subst i'. f_equal. lia.
Qed.

(** [set_bit] and [clear_bit] on a cell of a well-formed matrix. *)
Lemma set_bit_cell (m : BinaryMatrix) (i j : Z) :
  well_formed m = true ->
  0 <= i < n_rows_ (base m) -> 0 <= j < n_cols_ (base m) ->
  exists m', set_bit m i j = Ok m' /\
    well_formed m' = true /\ base m' = base m /\
    forall k, 0 <= k ->
      bit_of (data_ m') k = bit_of (data_ m) k || (k =? i * n_cols_ (base m) + j).
Proof.
  intros Hwf Hi Hj.
  destruct (cell_in_storage m i j Hwf Hi Hj) as [Hk Hp].
  eexists. split; [apply (write_cell m i j Z.lor); lia |].
  split; [| split; [reflexivity |]].
  - apply well_formed_with_data; [exact Hwf |].
    apply lor_pow2_is_word; [apply word_at_range, Hwf | apply Z.mod_pos_bound; reflexivity].
  - intros k Hk0. cbn [data_ with_data]. rewrite bit_of_insert by lia.
    destruct (Z.eqb_spec (k / PackSize) ((i * n_cols_ (base m) + j) / PackSize)) as [Heq | Hne].
    + rewrite Z.lor_spec, Z.pow2_bits_eqb by (apply Z.mod_pos_bound; reflexivity).
      rewrite (same_pack_same_index _ k Heq), bit_of_word, Heq. reflexivity.
    + destruct (Z.eqb_spec k (i * n_cols_ (base m) + j)) as [-> | _]; [contradiction Hne; reflexivity |].
      rewrite orb_false_r. reflexivity.
Qed.

Lemma clear_bit_cell (m : BinaryMatrix) (i j : Z) :
  well_formed m = true ->
  0 <= i < n_rows_ (base m) -> 0 <= j < n_cols_ (base m) ->
  exists m', clear_bit m i j = Ok m' /\
    well_formed m' = true /\ base m' = base m /\
    forall k, 0 <= k ->
      bit_of (data_ m') k = bit_of (data_ m) k && negb (k =? i * n_cols_ (base m) + j).
Proof.
  intros Hwf Hi Hj.
  destruct (cell_in_storage m i j Hwf Hi Hj) as [Hk Hp].
  eexists. split; [apply (write_cell m i j (fun w s => Z.land w (bit_not s))); lia |].
  split; [| split; [reflexivity |]].
  - apply well_formed_with_data; [exact Hwf |].
    apply land_is_word. apply word_at_range, Hwf.
  - intros k Hk0. cbn [data_ with_data]. rewrite bit_of_insert by lia.
    pose proof (Z.mod_pos_bound k PackSize ltac:(reflexivity)) as Hm.
    destruct (Z.eqb_spec (k / PackSize) ((i * n_cols_ (base m) + j) / PackSize)) as [Heq | Hne].
    + rewrite Z.land_spec, bit_not_bits by exact Hm.
      rewrite Z.pow2_bits_eqb by (apply Z.mod_pos_bound; reflexivity).
      rewrite (same_pack_same_index _ k Heq), bit_of_word, Heq. reflexivity.
    + destruct (Z.eqb_spec k (i * n_cols_ (base m) + j)) as [-> | _]; [contradiction Hne; reflexivity |].
      rewrite andb_true_r. reflexivity.
Qed.

Lemma in_bounds_true (b : BinMtxBase) (i j : Z) :
  i < n_rows_ b -> j < n_cols_ b -> in_bounds b i j = true.
Proof.
  intros Hi Hj. unfold in_bounds.
  rewrite (proj2 (Z.ltb_lt _ _) Hi), (proj2 (Z.ltb_lt _ _) Hj). reflexivity.
Qed.

(** ** [set(i, j)] and [clear(i, j)] *)

(** After [set(i, j)] inside the bounds the cell is true and every other
    cell is what it was; the dimensions and the well-formedness are kept. *)
Theorem set_sets_one_cell :
  forall (m : BinaryMatrix) (i j : Z),
    well_formed m = true ->
    0 <= i < n_rows_ (base m) -> 0 <= j < n_cols_ (base m) ->
    exists m', set m i j = Ok m' /\
      well_formed m' = true /\ base m' = base m /\
      BinaryMatrix_call m' i j = Ok true /\
      forall i' j', 0 <= i' < n_rows_ (base m) -> 0 <= j' < n_cols_ (base m) ->
        (i', j') <> (i, j) ->
        BinaryMatrix_call m' i' j' = BinaryMatrix_call m i' j'.
Proof.
  intros m i j Hwf Hi Hj.
  destruct (set_bit_cell m i j Hwf Hi Hj) as (m' & Hset & Hwf' & Hbase & Hbits).
  exists m'. split.
  - unfold set. rewrite in_bounds_true by lia. exact Hset.
  - split; [exact Hwf' |]. split; [exact Hbase |]. split.
    + destruct (cell_is_bit m' i j Hwf') as [-> Hk]; rewrite ?Hbase; try assumption.
      rewrite Hbits by (rewrite Hbase in Hk; lia).
      rewrite Z.eqb_refl, orb_true_r. reflexivity.
    + intros i' j' Hi' Hj' Hne.
      destruct (cell_is_bit m' i' j' Hwf') as [-> Hk]; rewrite ?Hbase; try assumption.
      destruct (cell_is_bit m i' j' Hwf Hi' Hj') as [-> _].
      rewrite Hbits by (rewrite Hbase in Hk; lia).
      rewrite (proj2 (Z.eqb_neq _ _)), orb_false_r; [reflexivity |].
      apply distinct_cells_distinct_indices; assumption.
Qed.

Lemma set_sets_one_cell_witness :
  exists m', set (mkMatrix (BinMtxBase_init Dynamic Dynamic 5 100) (replicate 8 0)) 3 47 = Ok m' /\
             BinaryMatrix_call m' 3 47 = Ok true /\
             BinaryMatrix_call m' 3 46 = Ok false.
Proof.
  destruct (set_sets_one_cell
              (mkMatrix (BinMtxBase_init Dynamic Dynamic 5 100) (replicate 8 0)) 3 47
              eq_refl ltac:(simpl; lia) ltac:(simpl; lia))
    as (m' & Hset & _ & _ & Hcell & Hothers).
  exists m'. split; [exact Hset |]. split; [exact Hcell |].
  rewrite (Hothers 3 46 ltac:(simpl; lia) ltac:(simpl; lia) ltac:(congruence)).
  reflexivity.
Defined.

(** After [clear(i, j)] inside the bounds the cell is false and every other
    cell is what it was. *)
Theorem clear_clears_one_cell :
  forall (m : BinaryMatrix) (i j : Z),
    well_formed m = true ->
    0 <= i < n_rows_ (base m) -> 0 <= j < n_cols_ (base m) ->
    exists m', clear m i j = Ok m' /\
      well_formed m' = true /\ base m' = base m /\
      BinaryMatrix_call m' i j = Ok false /\
      forall i' j', 0 <= i' < n_rows_ (base m) -> 0 <= j' < n_cols_ (base m) ->
        (i', j') <> (i, j) ->
        BinaryMatrix_call m' i' j' = BinaryMatrix_call m i' j'.
Proof.
  intros m i j Hwf Hi Hj.
  destruct (clear_bit_cell m i j Hwf Hi Hj) as (m' & Hclear & Hwf' & Hbase & Hbits).
  exists m'. split.
  - unfold clear. rewrite in_bounds_true by lia. exact Hclear.
  - split; [exact Hwf' |]. split; [exact Hbase |]. split.
    + destruct (cell_is_bit m' i j Hwf') as [-> Hk]; rewrite ?Hbase; try assumption.
      rewrite Hbits by (rewrite Hbase in Hk; lia).
      rewrite Z.eqb_refl, andb_false_r. reflexivity.
    + intros i' j' Hi' Hj' Hne.
      destruct (cell_is_bit m' i' j' Hwf') as [-> Hk]; rewrite ?Hbase; try assumption.
      destruct (cell_is_bit m i' j' Hwf Hi' Hj') as [-> _].
      rewrite Hbits by (rewrite Hbase in Hk; lia).
      rewrite (proj2 (Z.eqb_neq _ _)), andb_true_r; [reflexivity |].
      apply distinct_cells_distinct_indices; assumption.
Qed.

Lemma clear_clears_one_cell_witness :
  exists m', clear (mkMatrix (BinMtxBase_init Dynamic Dynamic 2 2) [15]) 1 0 = Ok m' /\
             BinaryMatrix_call m' 1 0 = Ok false /\
             BinaryMatrix_call m' 1 1 = Ok true.
Proof.
  destruct (clear_clears_one_cell (mkMatrix (BinMtxBase_init Dynamic Dynamic 2 2) [15]) 1 0
              eq_refl ltac:(simpl; lia) ltac:(simpl; lia))
    as (m' & Hclear & _ & _ & Hcell & Hothers).
  exists m'. split; [exact Hclear |]. split; [exact Hcell |].
  rewrite (Hothers 1 1 ltac:(simpl; lia) ltac:(simpl; lia) ltac:(congruence)).
  reflexivity.
Defined.

(** ** [set] and [clear] undo each other *)

Lemma clear_set_word (w s : Z) :
  0 <= w < 2 ^ PackSize -> 0 <= s < PackSize -> Z.testbit w s = false ->
  Z.land (Z.lor w (2 ^ s)) (bit_not (2 ^ s)) = w.
Proof.
  intros Hw Hs Hbit. apply Z.bits_inj'. intros t Ht.
  rewrite Z.land_spec, Z.lor_spec.
  destruct (Z.ltb_spec t PackSize) as [Hlt | Hge].
  - rewrite bit_not_bits, Z.pow2_bits_eqb by lia.
    destruct (Z.eqb_spec s t) as [<- | _]; [rewrite Hbit; reflexivity |].
    rewrite orb_false_r, andb_true_r. reflexivity.
  - rewrite (high_bits_of_word (bit_not (2 ^ s)) t (bit_not_is_word _) Hge).
    rewrite (high_bits_of_word w t Hw Hge). apply andb_false_r.
Qed.

Lemma set_clear_word (w s : Z) :
  0 <= w < 2 ^ PackSize -> 0 <= s < PackSize -> Z.testbit w s = true ->
  Z.lor (Z.land w (bit_not (2 ^ s))) (2 ^ s) = w.
Proof.
  intros Hw Hs Hbit. apply Z.bits_inj'. intros t Ht.
  rewrite Z.lor_spec, Z.land_spec, Z.pow2_bits_eqb by lia.
  destruct (Z.eqb_spec s t) as [<- | Hne]; [rewrite Hbit; apply orb_true_r |].
  rewrite orb_false_r.
  destruct (Z.ltb_spec t PackSize) as [Hlt | Hge].
  - rewrite bit_not_bits, Z.pow2_bits_eqb by lia.
    rewrite (proj2 (Z.eqb_neq s t) Hne). apply andb_true_r.
  - rewrite (high_bits_of_word w t Hw Hge). reflexivity.
Qed.

Lemma with_data_same (m : BinaryMatrix) (d : list Z) :
  with_data (with_data m d) (data_ m) = m.
Proof. destruct m as [b d0]. reflexivity. Qed.

(** The two writes of a cell one after the other, the second with the word
    that the first one left. *)
Lemma write_cell_twice (m : BinaryMatrix) (i j : Z) (op1 op2 : Z -> Z -> Z) :
  well_formed m = true ->
  0 <= i < n_rows_ (base m) -> 0 <= j < n_cols_ (base m) ->
  op2 (op1 (word_at (data_ m) ((i * n_cols_ (base m) + j) / PackSize))
         (2 ^ ((i * n_cols_ (base m) + j) mod PackSize)))
      (2 ^ ((i * n_cols_ (base m) + j) mod PackSize))
  = word_at (data_ m) ((i * n_cols_ (base m) + j) / PackSize) ->
  (let* m1 :=
     (let* w := data_at (data_ m) (pack_of m i j) in
      let* s := shl 1 (Z.rem (i * n_cols_ (base m) + j) PackSize) in
      let* d := data_write (data_ m) (pack_of m i j) (op1 w s) in
      Ok (with_data m d)) in
   let* w := data_at (data_ m1) (pack_of m1 i j) in
   let* s := shl 1 (Z.rem (i * n_cols_ (base m1) + j) PackSize) in
   let* d := data_write (data_ m1) (pack_of m1 i j) (op2 w s) in
   Ok (with_data m1 d)) = Ok m.
Proof.
  intros Hwf Hi Hj Hword.
  destruct (cell_in_storage m i j Hwf Hi Hj) as [Hk Hp].
  rewrite (write_cell m i j op1) by lia. cbn [bind].
  set (k := i * n_cols_ (base m) + j) in *.
  set (m1 := with_data m _).
  assert (Hlen : length (data_ m1) = length (data_ m)) by (apply length_insert).
  rewrite (write_cell m1 i j op2); cbn [base m1 with_data]; fold k; rewrite ?Hlen; try lia.
  f_equal. cbn [data_ m1 with_data].
  assert (Hlook : data_ m !! Z.to_nat (k / PackSize)
                  = Some (word_at (data_ m) (k / PackSize))).
  { unfold word_at. destruct (data_ m !! Z.to_nat (k / PackSize)) eqn:Hl; [reflexivity |].
    apply lookup_ge_None in Hl. lia. }
  assert (Hw1 : word_at (<[Z.to_nat (k / PackSize) :=
                             op1 (word_at (data_ m) (k / PackSize)) (2 ^ (k mod PackSize))]>
                           (data_ m)) (k / PackSize)
                = op1 (word_at (data_ m) (k / PackSize)) (2 ^ (k mod PackSize))).
  { unfold word_at at 1. rewrite list_lookup_insert_eq by lia. reflexivity. }
  rewrite Hw1, Hword, list_insert_insert_eq, (list_insert_id _ _ _ Hlook).
  destruct m as [b d]. reflexivity.
Qed.

(** Setting a cell that was false and clearing it again gives back the very
    same matrix, words included; so does clearing a cell that was true and
    setting it again. *)
Theorem set_and_clear_are_inverse :
  forall (m : BinaryMatrix) (i j : Z),
    well_formed m = true ->
    0 <= i < n_rows_ (base m) -> 0 <= j < n_cols_ (base m) ->
    (BinaryMatrix_call m i j = Ok false ->
     (let* m1 := set m i j in clear m1 i j) = Ok m) /\
    (BinaryMatrix_call m i j = Ok true ->
     (let* m1 := clear m i j in set m1 i j) = Ok m).
Proof.
  intros m i j Hwf Hi Hj.
  destruct (cell_in_storage m i j Hwf Hi Hj) as [Hk Hp].
  destruct (cell_is_bit m i j Hwf Hi Hj) as [Hcall _].
  pose proof (word_at_range m ((i * n_cols_ (base m) + j) / PackSize) Hwf) as Hw.
  pose proof (Z.mod_pos_bound (i * n_cols_ (base m) + j) PackSize ltac:(reflexivity)) as Hs.
  assert (Hin : in_bounds (base m) i j = true) by (apply in_bounds_true; lia).
  split; intros Hcell; rewrite Hcall in Hcell; injection Hcell as Hcell;
    rewrite bit_of_word in Hcell.
  - destruct (set_bit_cell m i j Hwf Hi Hj) as (m1 & Hset & _ & Hbase & _).
    unfold set, clear. rewrite Hin. cbn [fdapde_assert bind]. rewrite Hset. cbn [bind].
    rewrite Hbase, Hin. cbn [fdapde_assert bind].
    change (clear_bit m1 i j) with (bind (Ok m1) (fun m1 => clear_bit m1 i j)).
    rewrite <- Hset. unfold set_bit, clear_bit.
    apply (write_cell_twice m i j Z.lor (fun w s => Z.land w (bit_not s)) Hwf Hi Hj).
    apply clear_set_word; assumption.
  - destruct (clear_bit_cell m i j Hwf Hi Hj) as (m1 & Hclear & _ & Hbase & _).
    unfold set, clear. rewrite Hin. cbn [fdapde_assert bind]. rewrite Hclear. cbn [bind].
    rewrite Hbase, Hin. cbn [fdapde_assert bind].
    change (set_bit m1 i j) with (bind (Ok m1) (fun m1 => set_bit m1 i j)).
    rewrite <- Hclear. unfold set_bit, clear_bit.
    apply (write_cell_twice m i j (fun w s => Z.land w (bit_not s)) Z.lor Hwf Hi Hj).
    apply set_clear_word; assumption.
Qed.

Lemma set_and_clear_are_inverse_witness :
  (let* m1 := set (mkMatrix (BinMtxBase_init Dynamic Dynamic 5 100) (replicate 8 0)) 3 47 in
   clear m1 3 47)
  = Ok (mkMatrix (BinMtxBase_init Dynamic Dynamic 5 100) (replicate 8 0)).
Proof.
  destruct (set_and_clear_are_inverse
              (mkMatrix (BinMtxBase_init Dynamic Dynamic 5 100) (replicate 8 0)) 3 47
              eq_refl ltac:(simpl; lia) ltac:(simpl; lia)) as [Hsc _].
  apply Hsc. reflexivity.
Defined.

(** ** Fresh and resized matrices *)

(** The matrix of [r] rows and [c] columns with every word zero. *)
Lemma zero_matrix (R C r c : Z) (m : BinaryMatrix) :
  0 <= r -> 0 <= c -> r * c <= INT_MAX ->
  m = mkMatrix (mkBase R C r c (1 + (r * c) / PackSize))
        (replicate (Z.to_nat (1 + (r * c) / PackSize)) 0) ->
  well_formed m = true /\
  forall k, bit_of (data_ m) k = false.
Proof.
  intros Hr Hc Hsz ->.
  assert (Hq : 0 <= (r * c) / PackSize) by (apply Z.div_pos; [nia | reflexivity]).
  split.
  - apply well_formed_of_facts; simpl; unfold size; simpl; try lia.
    + rewrite length_replicate. lia.
    + apply forallb_replicate. reflexivity.
  - intros k. apply bit_of_zeros.
Qed.

Lemma sized_with_shape (r c : Z) (m' : BinaryMatrix) :
  0 <= r -> 0 <= c ->
  sized_with r c m' ->
  exists R C, m' = mkMatrix (mkBase R C r c (1 + (r * c) / PackSize))
                     (replicate (Z.to_nat (1 + (r * c) / PackSize)) 0).
Proof.
  intros Hr Hc Hbuilt.
  assert (Hn : 0 <= r * c) by lia.
  destruct Hbuilt as [Hs | [(R & C & Hs) | [(m & Hs) | (m & -> & Hs)]]].
  - unfold BinaryMatrix_static in Hs.
    destruct (is_dynamic_sized r c); [discriminate |].
    injection Hs as <-. exists r, c. unfold BinMtxBase_init.
    rewrite std_ceil_quot, quot_PackSize by exact Hn. reflexivity.
  - unfold BinaryMatrix_sized in Hs.
    destruct (is_dynamic_sized R C); [| discriminate].
    destruct (int_result (r * c)); cbn [bind] in Hs; try discriminate.
    cbn [BinMtxBase_init n_rows_ n_cols_] in Hs.
    destruct (_ <? 0); [discriminate |].
    injection Hs as <-. exists R, C. unfold BinMtxBase_init.
    rewrite !std_ceil_quot by exact Hn. reflexivity.
  - unfold resize in Hs.
    destruct (is_dynamic_sized _ _); [| discriminate].
    destruct (fdapde_assert _); cbn [bind] in Hs; try discriminate.
    destruct (int_result (r * c)); cbn [bind] in Hs; try discriminate.
    destruct (_ <? 0); [discriminate |].
    injection Hs as <-. exists (Rows (base m)), (Cols (base m)).
    rewrite !std_ceil_quot by exact Hn. reflexivity.
  - unfold resize_vector in Hs.
    destruct (_ && _); [| discriminate].
    destruct (_ <? 0); [discriminate |].
    injection Hs as <-. exists (Rows (base m)), (Cols (base m)).
    rewrite Z.mul_1_r in *. rewrite !std_ceil_quot by exact Hn. reflexivity.
Qed.

(** A matrix that has just been constructed with its dimensions, or resized,
    is well formed and has every cell false, whatever it held before. *)
Theorem fresh_matrix_is_zero :
  forall (r c : Z) (m' : BinaryMatrix),
    0 <= r -> 0 <= c -> r * c <= INT_MAX ->
    sized_with r c m' ->
    well_formed m' = true /\
    forall i j, 0 <= i < r -> 0 <= j < c -> BinaryMatrix_call m' i j = Ok false.
Proof.
  intros r c m' Hr Hc Hsz Hbuilt.
  destruct (sized_with_shape r c m' Hr Hc Hbuilt) as (R & C & Hm).
  destruct (zero_matrix R C r c m' Hr Hc Hsz Hm) as [Hwf Hbits].
  split; [exact Hwf |]. intros i j Hi Hj.
  assert (Hrows : n_rows_ (base m') = r) by (rewrite Hm; reflexivity).
  assert (Hcols : n_cols_ (base m') = c) by (rewrite Hm; reflexivity).
  destruct (cell_is_bit m' i j Hwf ltac:(lia) ltac:(lia)) as [-> _].
  rewrite Hbits. reflexivity.
Qed.

Lemma fresh_matrix_is_zero_witness :
  BinaryMatrix_call (mkMatrix (BinMtxBase_init Dynamic Dynamic 5 100) (replicate 8 (wrap (-1)))) 2 3
  = Ok true /\
  exists m',
    resize (mkMatrix (BinMtxBase_init Dynamic Dynamic 5 100) (replicate 8 (wrap (-1)))) 20 20
    = Ok m' /\
    BinaryMatrix_call m' 2 3 = Ok false.
Proof.
  split; [by_evaluation |].
  eexists. split; [by_evaluation |].
  refine (proj2 (fresh_matrix_is_zero 20 20 _ ltac:(lia) ltac:(lia) ltac:(unfold INT_MAX; lia)
                   (or_intror (or_intror (or_introl
                      (ex_intro _ (mkMatrix (BinMtxBase_init Dynamic Dynamic 5 100)
                                     (replicate 8 (wrap (-1)))) eq_refl))))) 2 3 _ _); lia.
Defined.

(** ** Filling a matrix: [set()], [clear()], [Ones] and [Identity] *)

Lemma for_range_invariant {S : Type} (P : Z -> S -> Prop) (body : Z -> S -> outcome S)
      (n : Z) (s : S) :
  0 <= n ->
  P 0 s ->
  (forall i s', 0 <= i < n -> P i s' -> exists s'', body i s' = Ok s'' /\ P (i + 1) s'') ->
  exists s', for_range n body s = Ok s' /\ P n s'.
Proof.
  intros Hn HP Hstep. unfold for_range.
  destruct (for_loop_invariant P body (Z.to_nat n) 0 s HP) as (s' & Hrun & HP').
  - intros i s' Hi. apply Hstep. lia.
  - exists s'. split; [exact Hrun |].
    replace (0 + Z.of_nat (Z.to_nat n)) with n in HP' by lia. exact HP'.
Qed.

(** The two nested loops of [set()] and [clear()], for any write of one cell
    that leaves the value [v] there. *)
Lemma fill_loops (write : BinaryMatrix -> Z -> Z -> outcome BinaryMatrix) (v : bool)
      (m : BinaryMatrix) :
  (forall m1 i j,
      well_formed m1 = true ->
      0 <= i < n_rows_ (base m1) -> 0 <= j < n_cols_ (base m1) ->
      exists m', write m1 i j = Ok m' /\ well_formed m' = true /\ base m' = base m1 /\
        forall k, 0 <= k ->
          bit_of (data_ m') k
          = if k =? i * n_cols_ (base m1) + j then v else bit_of (data_ m1) k) ->
  well_formed m = true ->
  exists m',
    for_range (n_rows_ (base m))
      (fun i m1 => for_range (n_cols_ (base m1)) (fun j m2 => write m2 i j) m1) m = Ok m' /\
    well_formed m' = true /\ base m' = base m /\
    forall k, 0 <= k ->
      bit_of (data_ m') k = if k <? size (base m) then v else bit_of (data_ m) k.
Proof.
  intros Hwrite Hwf.
  destruct (well_formed_facts m Hwf) as (Hr & Hc & _).
  set (C := n_cols_ (base m)) in *.
  pose (P := fun (n : Z) (s : BinaryMatrix) =>
               well_formed s = true /\ base s = base m /\
               forall k, 0 <= k ->
                 bit_of (data_ s) k = if k <? n then v else bit_of (data_ m) k).
  assert (Hrows : exists m',
             for_range (n_rows_ (base m))
               (fun i m1 => for_range (n_cols_ (base m1)) (fun j m2 => write m2 i j) m1) m
             = Ok m' /\ P (n_rows_ (base m) * C) m').
  { apply (for_range_invariant (fun i s => P (i * C) s)); [exact Hr | |].
    - split; [exact Hwf |]. split; [reflexivity |]. intros k Hk.
      destruct (Z.ltb_spec k (0 * C)); [lia | reflexivity].
    - intros i s Hi (Hwfs & Hbs & Hbits). rewrite Hbs. fold C.
      destruct (for_range_invariant (fun j s' => P (i * C + j) s')
                  (fun j m2 => write m2 i j) C s Hc) as (s' & Hrun & HP).
      + replace (i * C + 0) with (i * C) by lia. split; [exact Hwfs |]. split; assumption.
      + intros j s' Hj (Hwfs' & Hbs' & Hbits').
        destruct (Hwrite s' i j Hwfs') as (s'' & Hw & Hwf'' & Hb'' & Hbits'');
          rewrite ?Hbs'; fold C; try lia.
        exists s''. split; [exact Hw |]. split; [exact Hwf'' |].
        split; [congruence |]. intros k Hk.
        rewrite Hbits'' by exact Hk. rewrite Hbs'. fold C. rewrite Hbits' by exact Hk.
        destruct (Z.eqb_spec k (i * C + j)), (Z.ltb_spec k (i * C + j)),
          (Z.ltb_spec k (i * C + (j + 1))); try lia; reflexivity.
      + exists s'. split; [exact Hrun |].
        replace ((i + 1) * C) with (i * C + C) by lia. exact HP. }
  destruct Hrows as (m' & Hrun & Hwf' & Hb' & Hbits').
  exists m'. repeat split; assumption.
Qed.

Lemma set_bit_writes (m1 : BinaryMatrix) (i j : Z) :
  well_formed m1 = true ->
  0 <= i < n_rows_ (base m1) -> 0 <= j < n_cols_ (base m1) ->
  exists m', set_bit m1 i j = Ok m' /\ well_formed m' = true /\ base m' = base m1 /\
    forall k, 0 <= k ->
      bit_of (data_ m') k = if k =? i * n_cols_ (base m1) + j then true else bit_of (data_ m1) k.
Proof.
  intros Hwf Hi Hj.
  destruct (set_bit_cell m1 i j Hwf Hi Hj) as (m' & Hs & Hwf' & Hb & Hbits).
  exists m'. repeat split; try assumption. intros k Hk. rewrite Hbits by exact Hk.
  destruct (k =? _); [apply orb_true_r | apply orb_false_r].
Qed.

Lemma clear_bit_writes (m1 : BinaryMatrix) (i j : Z) :
  well_formed m1 = true ->
  0 <= i < n_rows_ (base m1) -> 0 <= j < n_cols_ (base m1) ->
  exists m', clear_bit m1 i j = Ok m' /\ well_formed m' = true /\ base m' = base m1 /\
    forall k, 0 <= k ->
      bit_of (data_ m') k = if k =? i * n_cols_ (base m1) + j then false else bit_of (data_ m1) k.
Proof.
  intros Hwf Hi Hj.
  destruct (clear_bit_cell m1 i j Hwf Hi Hj) as (m' & Hs & Hwf' & Hb & Hbits).
  exists m'. repeat split; try assumption. intros k Hk. rewrite Hbits by exact Hk.
  destruct (k =? _); [apply andb_false_r | apply andb_true_r].
Qed.

(** What a filled matrix looks like from outside: every cell holds [v], the
    bits of the last word behind the last cell are the ones of before. *)
Lemma filled_cells (m m' : BinaryMatrix) (v : bool) :
  well_formed m' = true -> base m' = base m ->
  (forall k, 0 <= k ->
     bit_of (data_ m') k = if k <? size (base m) then v else bit_of (data_ m) k) ->
  (forall i j, 0 <= i < n_rows_ (base m) -> 0 <= j < n_cols_ (base m) ->
     BinaryMatrix_call m' i j = Ok v) /\
  (forall k, size (base m) <= k -> bit_of (data_ m') k = bit_of (data_ m) k).
Proof.
  intros Hwf Hb Hbits. split.
  - intros i j Hi Hj. rewrite <- Hb in Hi, Hj.
    destruct (cell_is_bit m' i j Hwf Hi Hj) as [-> Hk].
    rewrite Hbits by lia. rewrite Hb in *.
    destruct (Z.ltb_spec (i * n_cols_ (base m) + j) (size (base m))); [reflexivity | lia].
  - intros k Hk.
    assert (0 <= size (base m)).
    { rewrite <- Hb. destruct (well_formed_facts m' Hwf) as (_ & _ & ? & _). lia. }
    rewrite Hbits by lia.
    destruct (Z.ltb_spec k (size (base m))); [lia | reflexivity].
Qed.

(** [set()] succeeds on every well-formed matrix, makes every cell true and
    leaves the bits of the last word that lie behind the last cell as they
    were. *)
Theorem set_all_sets_every_cell :
  forall m : BinaryMatrix,
    well_formed m = true ->
    exists m', set_all m = Ok m' /\
      well_formed m' = true /\ base m' = base m /\
      (forall i j, 0 <= i < n_rows_ (base m) -> 0 <= j < n_cols_ (base m) ->
         BinaryMatrix_call m' i j = Ok true) /\
      (forall k, size (base m) <= k -> bit_of (data_ m') k = bit_of (data_ m) k).
Proof.
  intros m Hwf.
  destruct (fill_loops (fun m2 i j => set_bit m2 i j) true m set_bit_writes Hwf)
    as (m' & Hrun & Hwf' & Hb & Hbits).
  exists m'. split; [exact Hrun |]. split; [exact Hwf' |]. split; [exact Hb |].
  apply filled_cells; assumption.
Qed.

Lemma set_all_sets_every_cell_witness :
  exists m', set_all (mkMatrix (BinMtxBase_init Dynamic Dynamic 5 100) (replicate 8 0)) = Ok m' /\
    BinaryMatrix_call m' 4 99 = Ok true /\
    bit_of (data_ m') 500 = false.
Proof.
  destruct (set_all_sets_every_cell
              (mkMatrix (BinMtxBase_init Dynamic Dynamic 5 100) (replicate 8 0)) eq_refl)
    as (m' & Hrun & _ & _ & Hcells & Hpad).
  exists m'. split; [exact Hrun |]. split.
  - apply Hcells; simpl; lia.
  - rewrite Hpad by (vm_compute; discriminate). reflexivity.
Defined.

(** [clear()] succeeds on every well-formed matrix, makes every cell false
    and leaves the bits of the last word that lie behind the last cell as
    they were. *)
Theorem clear_all_clears_every_cell :
  forall m : BinaryMatrix,
    well_formed m = true ->
    exists m', clear_all m = Ok m' /\
      well_formed m' = true /\ base m' = base m /\
      (forall i j, 0 <= i < n_rows_ (base m) -> 0 <= j < n_cols_ (base m) ->
         BinaryMatrix_call m' i j = Ok false) /\
      (forall k, size (base m) <= k -> bit_of (data_ m') k = bit_of (data_ m) k).
Proof.
  intros m Hwf.
  destruct (fill_loops (fun m2 i j => clear_bit m2 i j) false m clear_bit_writes Hwf)
    as (m' & Hrun & Hwf' & Hb & Hbits).
  exists m'. split; [exact Hrun |]. split; [exact Hwf' |]. split; [exact Hb |].
  apply filled_cells; assumption.
Qed.

Lemma clear_all_clears_every_cell_witness :
  exists m',
    clear_all (mkMatrix (BinMtxBase_init Dynamic Dynamic 5 100) (replicate 8 (wrap (-1))))
    = Ok m' /\
    BinaryMatrix_call m' 4 99 = Ok false /\
    bit_of (data_ m') 500 = true.
Proof.
  destruct (clear_all_clears_every_cell
              (mkMatrix (BinMtxBase_init Dynamic Dynamic 5 100) (replicate 8 (wrap (-1))))
              eq_refl)
    as (m' & Hrun & _ & _ & Hcells & Hpad).
  exists m'. split; [exact Hrun |]. split.
  - apply Hcells; simpl; lia.
  - rewrite Hpad by (vm_compute; discriminate). reflexivity.
Defined.

(** The loop of the [Ones] factories: every word of the storage becomes
    [BitPackType(-1)]. *)
Lemma ones_loop (m : BinaryMatrix) :
  Z.of_nat (length (data_ m)) = n_bitpacks_ (base m) ->
  forallb is_word (data_ m) = true ->
  exists m',
    for_range (bitpacks (base m))
      (fun k r => let* d := data_write (data_ r) k (wrap (-1)) in Ok (with_data r d)) m
    = Ok m' /\
    base m' = base m /\ length (data_ m') = length (data_ m) /\
    forallb is_word (data_ m') = true /\
    forall p, 0 <= p < n_bitpacks_ (base m) -> word_at (data_ m') p = 2 ^ PackSize - 1.
Proof.
  intros Hlen Hwords. unfold bitpacks.
  destruct (for_range_invariant
              (fun n s => base s = base m /\ length (data_ s) = length (data_ m) /\
                          forallb is_word (data_ s) = true /\
                          forall p, 0 <= p < n -> word_at (data_ s) p = 2 ^ PackSize - 1)
              (fun k r => let* d := data_write (data_ r) k (wrap (-1)) in Ok (with_data r d))
              (n_bitpacks_ (base m)) m) as (m' & Hrun & Hb & Hl & Hw & Hall).
  - lia.
  - repeat split; try assumption. intros p Hp. lia.
  - intros k s Hk (Hb & Hl & Hw & Hall).
    unfold data_write.
    destruct (Z.ltb_spec k 0); [lia |].
    destruct (Z.ltb_spec k (Z.of_nat (length (data_ s)))); [| lia].
    cbn [bind]. eexists. split; [reflexivity |]. cbn [base data_ with_data].
    split; [exact Hb |]. split; [rewrite length_insert; exact Hl |].
    split; [apply forallb_insert; [exact Hw | reflexivity] |].
    intros p Hp. unfold word_at.
    destruct (Z.eq_dec p k) as [-> | Hne].
    + rewrite list_lookup_insert_eq by lia. reflexivity.
    + rewrite list_lookup_insert_ne by lia. apply Hall. lia.
  - exists m'. repeat split; assumption.
Qed.

(** A matrix whose words are all [2^64 - 1] has every cell true. *)
Lemma all_ones_cells (m : BinaryMatrix) :
  well_formed m = true ->
  (forall p, 0 <= p < n_bitpacks_ (base m) -> word_at (data_ m) p = 2 ^ PackSize - 1) ->
  forall i j, 0 <= i < n_rows_ (base m) -> 0 <= j < n_cols_ (base m) ->
    BinaryMatrix_call m i j = Ok true.
Proof.
  intros Hwf Hall i j Hi Hj.
  destruct (cell_is_bit m i j Hwf Hi Hj) as [-> Hk].
  destruct (cell_in_storage m i j Hwf Hi Hj) as [_ Hp].
  destruct (well_formed_facts m Hwf) as (_ & _ & _ & _ & Hl & _).
  rewrite bit_of_word, Hall by lia.
  change (2 ^ PackSize - 1) with (Z.ones PackSize).
  pose proof (Z.mod_pos_bound (i * n_cols_ (base m) + j) PackSize ltac:(reflexivity)) as Hs.
  rewrite Z.ones_spec_low by exact Hs. reflexivity.
Qed.

(** [Ones(i, j)] builds a well-formed matrix whose words are all
    [2^64 - 1], the bits behind the last cell included, so that every cell
    is true.  A statically sized matrix ignores [i] and [j]; a dynamic one
    must pass the assertion of [resize]. *)
Theorem Ones_has_every_bit_set :
  forall (R C i j r c : Z),
    (r, c) = (if is_dynamic_sized R C then (i, j) else (R, C)) ->
    (is_dynamic_sized R C = true ->
     (R = Dynamic \/ (R = 1 /\ i = 1)) /\ (C = Dynamic \/ (C = 1 /\ j = 1))) ->
    0 <= r -> 0 <= c -> r * c <= INT_MAX ->
    exists m, Ones R C i j = Ok m /\
      well_formed m = true /\
      n_rows_ (base m) = r /\ n_cols_ (base m) = c /\
      (forall p, 0 <= p < n_bitpacks_ (base m) -> word_at (data_ m) p = 2 ^ PackSize - 1) /\
      (forall a b, 0 <= a < r -> 0 <= b < c -> BinaryMatrix_call m a b = Ok true).
Proof.
  intros R C i j r c Hext Hres Hr Hc Hsz.
  assert (Hn : 0 <= r * c) by lia.
  assert (Hq : 0 <= (r * c) / PackSize) by (apply Z.div_pos; [lia | reflexivity]).
  assert (Hzero : exists z,
             (let* result := BinaryMatrix_declare R C in
              if is_dynamic_sized R C then resize result i j else Ok result) = Ok z /\
             z = mkMatrix (mkBase R C r c (1 + (r * c) / PackSize))
                   (replicate (Z.to_nat (1 + (r * c) / PackSize)) 0)).
  { unfold BinaryMatrix_declare, BinaryMatrix_empty, BinaryMatrix_static, resize.
    destruct (is_dynamic_sized R C) eqn:Hdyn; cbn [bind base Rows Cols BinMtxBase_default];
      injection Hext as -> ->.
    - rewrite Hdyn. destruct (Hres eq_refl) as [HR HC].
      assert (Hassert : ((R =? Dynamic) || (R =? 1) && (i =? 1)) &&
                        ((C =? Dynamic) || (C =? 1) && (j =? 1)) = true).
      { apply andb_true_intro. split; apply orb_true_iff.
        - destruct HR as [-> | [-> ->]]; [left | right]; reflexivity.
        - destruct HC as [-> | [-> ->]]; [left | right]; reflexivity. }
      rewrite Hassert. cbn [fdapde_assert bind].
      rewrite int_result_in_range by (unfold INT_MIN; lia). cbn [bind].
      rewrite storage_count_nonneg by exact Hn.
      rewrite std_ceil_quot by exact Hn. eexists. split; reflexivity.
    - unfold BinMtxBase_init. rewrite std_ceil_quot, quot_PackSize by exact Hn.
      eexists. split; reflexivity. }
  destruct Hzero as (z & Hz & Hzdef).
  destruct (zero_matrix R C r c z Hr Hc Hsz Hzdef) as [Hwfz _].
  destruct (well_formed_facts z Hwfz) as (_ & _ & Hszz & Hnbz & Hlz & _).
  assert (Hwordsz : forallb is_word (data_ z) = true).
  { rewrite Hzdef. apply forallb_replicate. reflexivity. }
  destruct (ones_loop z Hlz Hwordsz) as (m & Hrun & Hb & Hl & Hw & Hall).
  rewrite <- Hb in Hall.
  assert (Hwf : well_formed m = true).
  { apply well_formed_of_facts; rewrite ?Hb, ?Hl; try assumption; try lia;
      rewrite Hzdef; simpl; assumption. }
  exists m. split.
  - unfold Ones.
    destruct (BinaryMatrix_declare R C) as [z0 | | |]; cbn [bind] in Hz |- *;
      try discriminate.
    rewrite Hz. cbn [bind]. exact Hrun.
  - split; [exact Hwf |].
    split; [rewrite Hb, Hzdef; reflexivity |]. split; [rewrite Hb, Hzdef; reflexivity |].
    split; [exact Hall |].
    intros a b Ha Hb'.
    apply (all_ones_cells m Hwf Hall); rewrite Hb, Hzdef; assumption.
Qed.

Lemma Ones_has_every_bit_set_witness :
  exists m, Ones Dynamic Dynamic 5 100 = Ok m /\
    BinaryMatrix_call m 4 99 = Ok true /\
    word_at (data_ m) 7 = 2 ^ PackSize - 1.
Proof.
  destruct (Ones_has_every_bit_set Dynamic Dynamic 5 100 5 100 eq_refl
              (fun _ => conj (or_introl eq_refl) (or_introl eq_refl))
              ltac:(lia) ltac:(lia) ltac:(unfold INT_MAX; lia))
    as (m & Hrun & Hwf & Hrows & Hcols & Hall & Hcells).
  exists m. split; [exact Hrun |]. split; [apply Hcells; lia |].
  apply Hall. destruct (well_formed_facts m Hwf) as (_ & _ & _ & Hnb & _).
  rewrite Hnb. unfold size. rewrite Hrows, Hcols.
  change (1 + 5 * 100 / PackSize) with 8. lia.
Defined.

(** The vector factory [Ones(i)] builds exactly what [Ones(i, 1)] builds
    for a column vector, whatever [i] is. *)
Theorem Ones_vector_is_Ones_of_one_column :
  forall n : Z, Ones_vector Dynamic 1 n = Ones Dynamic 1 n 1.
Proof.
  intros n. unfold Ones_vector, Ones, BinaryMatrix_vector, BinaryMatrix_sized,
    BinaryMatrix_declare, BinaryMatrix_empty, resize, BinMtxBase_init.
  cbn. rewrite Z.mul_1_r. reflexivity.
Qed.

(** Two cells of a row-major layout with the same index are the same cell. *)
Lemma row_major_injective (c a b t u : Z) :
  0 <= b < c -> 0 <= u < c -> a * c + b = t * c + u -> a = t /\ b = u.
Proof.
  intros Hb Hu Heq.
  assert (a = t) by nia. subst. lia.
Qed.

(** [Identity(i, j)] of a fully dynamic matrix: a well-formed matrix of [i]
    rows and [j] columns whose cell [(a, b)] is true exactly when
    [a = b]. *)
Theorem Identity_is_the_diagonal :
  forall i j : Z,
    0 <= i -> 0 <= j -> i * j <= INT_MAX ->
    exists m, Identity Dynamic Dynamic i j = Ok m /\
      well_formed m = true /\
      n_rows_ (base m) = i /\ n_cols_ (base m) = j /\
      forall a b, 0 <= a < i -> 0 <= b < j -> BinaryMatrix_call m a b = Ok (a =? b).
Proof.
  intros i j Hi Hj Hsz.
  set (z := mkMatrix (mkBase Dynamic Dynamic i j (1 + (i * j) / PackSize))
              (replicate (Z.to_nat (1 + (i * j) / PackSize)) 0)).
  destruct (zero_matrix Dynamic Dynamic i j z Hi Hj Hsz eq_refl) as [Hwfz Hzero].
  assert (Hstart : Identity Dynamic Dynamic i j
                   = for_range (Z.min j i) (fun k r => set r k k) z).
  { unfold Identity, BinaryMatrix_declare, BinaryMatrix_empty, resize. cbn.
    rewrite std_ceil_quot by lia.
    rewrite int_result_in_range by (unfold INT_MIN; nia). cbn [bind].
    rewrite (proj2 (Z.ltb_ge _ _)); [reflexivity |].
    pose proof (Z.div_pos (i * j) PackSize ltac:(nia) ltac:(reflexivity)). lia. }
  destruct (for_range_invariant
              (fun n s => well_formed s = true /\ base s = base z /\
                          forall k, 0 <= k ->
                            bit_of (data_ s) k = true <-> exists t, 0 <= t < n /\ k = t * j + t)
              (fun k r => set r k k) (Z.min j i) z) as (m & Hrun & Hwf & Hb & Hbits).
  - lia.
  - split; [exact Hwfz |]. split; [reflexivity |]. intros k Hk. rewrite Hzero. split.
    + discriminate.
    + intros (t & Ht & _). lia.
  - intros k s Hk (Hwfs & Hbs & Hbits).
    assert (Hrow : 0 <= k < n_rows_ (base s)) by (rewrite Hbs; simpl; lia).
    assert (Hcol : 0 <= k < n_cols_ (base s)) by (rewrite Hbs; simpl; lia).
    destruct (set_bit_cell s k k Hwfs Hrow Hcol) as (s' & Hset & Hwf' & Hb' & Hbits').
    exists s'. split.
    + unfold set. rewrite in_bounds_true by lia. exact Hset.
    + split; [exact Hwf' |]. split; [congruence |]. intros idx Hidx.
      rewrite Hbits' by exact Hidx. rewrite Hbs. cbn [base z n_cols_].
      rewrite orb_true_iff, Hbits by exact Hidx. split.
      * intros [(t & Ht & ->) | Heq].
        -- exists t. split; [lia | reflexivity].
        -- apply Z.eqb_eq in Heq. exists k. split; [lia | exact Heq].
      * intros (t & Ht & ->).
        destruct (Z.eq_dec t k) as [-> | Hne].
        -- right. apply Z.eqb_refl.
        -- left. exists t. split; [lia | reflexivity].
  - exists m. split; [rewrite Hstart; exact Hrun |]. split; [exact Hwf |].
    split; [rewrite Hb; reflexivity |]. split; [rewrite Hb; reflexivity |].
    intros a b Ha Hb'.
    assert (Hrow : 0 <= a < n_rows_ (base m)) by (rewrite Hb; simpl; lia).
    assert (Hcol : 0 <= b < n_cols_ (base m)) by (rewrite Hb; simpl; lia).
    destruct (cell_is_bit m a b Hwf Hrow Hcol) as [-> Hk]. f_equal.
    rewrite Hb. cbn [base z n_cols_].
    apply eq_true_iff_eq. rewrite Hbits, Z.eqb_eq by (rewrite Hb in Hk; simpl in Hk; lia).
    split.
    + intros (t & Ht & Heq).
      destruct (row_major_injective j a b t t ltac:(lia) ltac:(lia) Heq). lia.
    + intros ->. exists b. split; [lia | reflexivity].
Qed.

Lemma Identity_is_the_diagonal_witness :
  exists m, Identity Dynamic Dynamic 70 90 = Ok m /\
    BinaryMatrix_call m 69 69 = Ok true /\ BinaryMatrix_call m 69 70 = Ok false.
Proof.
  destruct (Identity_is_the_diagonal 70 90 ltac:(lia) ltac:(lia) ltac:(unfold INT_MAX; lia))
    as (m & Hrun & _ & _ & _ & Hcells).
  exists m. split; [exact Hrun |].
  split; [apply (Hcells 69 69) | apply (Hcells 69 70)]; lia.
Defined.

(** [Identity] gives a result only for the fully dynamic matrix type: a
    type with a static extent has no [resize] to call or fails its
    assertion, and vectors are refused by the static assertion. *)
Theorem Identity_needs_both_extents_dynamic :
  forall (R C i j : Z) (m : BinaryMatrix),
    Identity R C i j = Ok m -> R = Dynamic /\ C = Dynamic.
Proof.
  intros R C i j m. unfold Identity, BinaryMatrix_declare, BinaryMatrix_empty,
    BinaryMatrix_static, resize, fdapde_static_assert, is_dynamic_sized.
  destruct (R =? Dynamic) eqn:HR, (C =? Dynamic) eqn:HC, (R =? 1) eqn:HR1, (C =? 1) eqn:HC1;
    cbn [bind base Rows Cols BinMtxBase_default BinMtxBase_init fdapde_assert negb andb orb];
    rewrite ?HR, ?HC, ?HR1, ?HC1;
    cbn [bind base Rows Cols BinMtxBase_default BinMtxBase_init fdapde_assert negb andb orb];
    try discriminate.
  intros _. split; apply Z.eqb_eq; assumption.
Qed.

Lemma Identity_needs_both_extents_dynamic_witness :
  Identity Dynamic Dynamic 2 3
  = Ok (mkMatrix (mkBase Dynamic Dynamic 2 3 1) [17]) /\
  Dynamic = Dynamic /\ Dynamic = Dynamic.
Proof.
  split; [reflexivity |].
  apply (Identity_needs_both_extents_dynamic Dynamic Dynamic 2 3
           (mkMatrix (mkBase Dynamic Dynamic 2 3 1) [17])).
  reflexivity.
Defined.

(** ** The vector-like accessors *)

(** For a column vector, [v[i]] is bit [i] of the storage; [set(i)] turns
    it on and [clear(i)] turns it off, and neither touches another
    element. *)
Theorem vector_accessors_address_bit_i :
  forall (m : BinaryMatrix) (i : Z),
    well_formed m = true ->
    Cols (base m) = 1 -> n_cols_ (base m) = 1 ->
    0 <= i < n_rows_ (base m) ->
    BinaryMatrix_subscript m i = Ok (bit_of (data_ m) i) /\
    (exists m', set_vector m i = Ok m' /\ base m' = base m /\
       forall k, 0 <= k < n_rows_ (base m) ->
         BinaryMatrix_subscript m' k = Ok (bit_of (data_ m) k || (k =? i))) /\
    (exists m', clear_vector m i = Ok m' /\ base m' = base m /\
       forall k, 0 <= k < n_rows_ (base m) ->
         BinaryMatrix_subscript m' k = Ok (bit_of (data_ m) k && negb (k =? i))).
Proof.
  intros m i Hwf HC Hc Hi.
  assert (Hj : 0 <= 0 < n_cols_ (base m)) by lia.
  assert (Hsub : forall m1 k, well_formed m1 = true -> base m1 = base m ->
                   0 <= k < n_rows_ (base m) ->
                   BinaryMatrix_subscript m1 k = Ok (bit_of (data_ m1) k)).
  { intros m1 k Hwf1 Hb1 Hk. unfold BinaryMatrix_subscript. rewrite Hb1, HC. cbn.
    destruct (cell_is_bit m1 k 0 Hwf1) as [-> _]; rewrite ?Hb1; try lia.
    rewrite Hc. f_equal. f_equal. lia. }
  assert (Hin : in_bounds (base m) i 0 = true) by (apply in_bounds_true; lia).
  split; [apply Hsub; [exact Hwf | reflexivity | exact Hi] |]. split.
  - destruct (set_bit_cell m i 0 Hwf Hi Hj) as (m' & Hset & Hwf' & Hb & Hbits).
    exists m'. split; [| split; [exact Hb |]].
    + unfold set_vector, set. rewrite HC, Hin. exact Hset.
    + intros k Hk. rewrite (Hsub m' k Hwf' Hb Hk), Hbits by lia.
      rewrite Hc. do 3 f_equal. lia.
  - destruct (clear_bit_cell m i 0 Hwf Hi Hj) as (m' & Hclear & Hwf' & Hb & Hbits).
    exists m'. split; [| split; [exact Hb |]].
    + unfold clear_vector, clear. rewrite HC, Hin. exact Hclear.
    + intros k Hk. rewrite (Hsub m' k Hwf' Hb Hk), Hbits by lia.
      rewrite Hc. do 4 f_equal. lia.
Qed.

Lemma vector_accessors_address_bit_i_witness :
  BinaryMatrix_subscript (mkMatrix (BinMtxBase_init Dynamic 1 100 1) [5; 1]) 64
  = Ok (bit_of [5; 1] 64).
Proof.
  apply (vector_accessors_address_bit_i (mkMatrix (BinMtxBase_init Dynamic 1 100 1) [5; 1]) 64
           eq_refl eq_refl eq_refl).
  simpl. lia.
Defined.

(** ** The general results at concrete matrices *)

Lemma all_decides_below_word_width_witness :
  exists b,
    all [mkMatrix (BinMtxBase_init Dynamic Dynamic 3 3) [511]] (XMatrix 0) = Ok b /\
    (b = true <->
     forall i j, 0 <= i < 3 -> 0 <= j < 3 ->
       BinaryMatrix_call (mkMatrix (BinMtxBase_init Dynamic Dynamic 3 3) [511]) i j = Ok true).
Proof.
  apply (all_decides_below_word_width
           [mkMatrix (BinMtxBase_init Dynamic Dynamic 3 3) [511]] 0
           (mkMatrix (BinMtxBase_init Dynamic Dynamic 3 3) [511]) eq_refl eq_refl).
  unfold size, PackSize. simpl. lia.
Defined.

Lemma any_decides_from_word_width_witness :
  exists b,
    any [mkMatrix (BinMtxBase_init Dynamic Dynamic 5 100) [0; 0; 0; 0; 0; 0; 0; 2 ^ 51]]
        (XMatrix 0) = Ok b /\
    (b = true <->
     exists i j, 0 <= i < 5 /\ 0 <= j < 100 /\
       BinaryMatrix_call
         (mkMatrix (BinMtxBase_init Dynamic Dynamic 5 100) [0; 0; 0; 0; 0; 0; 0; 2 ^ 51])
         i j = Ok true).
Proof.
  apply (any_decides_from_word_width
           [mkMatrix (BinMtxBase_init Dynamic Dynamic 5 100) [0; 0; 0; 0; 0; 0; 0; 2 ^ 51]] 0
           (mkMatrix (BinMtxBase_init Dynamic Dynamic 5 100) [0; 0; 0; 0; 0; 0; 0; 2 ^ 51])
           eq_refl eq_refl).
  - unfold size, PackSize. simpl. lia.
  - unfold size, PackSize, INT_MAX. simpl. lia.
Defined.

Lemma block_assign_is_a_union_witness :
  exists st',
    block_assign
      [mkMatrix (BinMtxBase_init Dynamic Dynamic 5 100) [0; 2 ^ 63; 0; 0; 2 ^ 40; 0; 0; 0];
       mkMatrix (BinMtxBase_init Dynamic Dynamic 3 30) [2 ^ 31 + 1; 0]]
      (XBlock (BinMtxBase_init Dynamic Dynamic 3 30) (XMatrix 0) 2 40) (XMatrix 1) = Ok st' /\
    st' !! 1%nat = Some (mkMatrix (BinMtxBase_init Dynamic Dynamic 3 30) [2 ^ 31 + 1; 0]) /\
    forall i j, 0 <= i < 3 -> 0 <= j < 30 ->
      exists before rhs,
        xpr_call
          [mkMatrix (BinMtxBase_init Dynamic Dynamic 5 100) [0; 2 ^ 63; 0; 0; 2 ^ 40; 0; 0; 0];
           mkMatrix (BinMtxBase_init Dynamic Dynamic 3 30) [2 ^ 31 + 1; 0]]
          (XBlock (BinMtxBase_init Dynamic Dynamic 3 30) (XMatrix 0) 2 40) i j = Ok before /\
        BinaryMatrix_call (mkMatrix (BinMtxBase_init Dynamic Dynamic 3 30) [2 ^ 31 + 1; 0]) i j
        = Ok rhs /\
        xpr_call st' (XBlock (BinMtxBase_init Dynamic Dynamic 3 30) (XMatrix 0) 2 40) i j
        = Ok (before || rhs).
Proof.
  apply (block_assign_is_a_union
           [mkMatrix (BinMtxBase_init Dynamic Dynamic 5 100) [0; 2 ^ 63; 0; 0; 2 ^ 40; 0; 0; 0];
            mkMatrix (BinMtxBase_init Dynamic Dynamic 3 30) [2 ^ 31 + 1; 0]]
           0%nat 1%nat
           (mkMatrix (BinMtxBase_init Dynamic Dynamic 5 100) [0; 2 ^ 63; 0; 0; 2 ^ 40; 0; 0; 0])
           (mkMatrix (BinMtxBase_init Dynamic Dynamic 3 30) [2 ^ 31 + 1; 0])
           (BinMtxBase_init Dynamic Dynamic 3 30) 2 40);
    try reflexivity; try (simpl; lia).
Defined.

Lemma operator_eq_decides_equality_witness :
  exists b,
    operator_eq
      [mkMatrix (BinMtxBase_init Dynamic Dynamic 5 100) [0; 2 ^ 63; 0; 0; 2 ^ 40; 0; 0; 0];
       mkMatrix (BinMtxBase_init Dynamic Dynamic 5 100) [0; 2 ^ 63; 0; 0; 2 ^ 40; 0; 0; 2 ^ 60]]
      (XMatrix 0) (XMatrix 1) = Ok b /\
    operator_neq
      [mkMatrix (BinMtxBase_init Dynamic Dynamic 5 100) [0; 2 ^ 63; 0; 0; 2 ^ 40; 0; 0; 0];
       mkMatrix (BinMtxBase_init Dynamic Dynamic 5 100) [0; 2 ^ 63; 0; 0; 2 ^ 40; 0; 0; 2 ^ 60]]
      (XMatrix 0) (XMatrix 1) = Ok (negb b).
Proof.
  destruct (operator_eq_decides_equality
              [mkMatrix (BinMtxBase_init Dynamic Dynamic 5 100)
                 [0; 2 ^ 63; 0; 0; 2 ^ 40; 0; 0; 0];
               mkMatrix (BinMtxBase_init Dynamic Dynamic 5 100)
                 [0; 2 ^ 63; 0; 0; 2 ^ 40; 0; 0; 2 ^ 60]]
              0%nat 1%nat _ _ eq_refl eq_refl eq_refl eq_refl eq_refl eq_refl eq_refl
              ltac:(vm_compute; discriminate)) as (b & Heq & Hneq & _).
  exists b. split; assumption.
Defined.

Lemma operator_eq_undefined_at_word_boundary_witness :
  operator_eq
    [mkMatrix (BinMtxBase_init Dynamic Dynamic 8 8) [5; 0];
     mkMatrix (BinMtxBase_init Dynamic Dynamic 8 8) [5; 0]]
    (XMatrix 0) (XMatrix 1) = Undefined /\
  operator_neq
    [mkMatrix (BinMtxBase_init Dynamic Dynamic 8 8) [5; 0];
     mkMatrix (BinMtxBase_init Dynamic Dynamic 8 8) [5; 0]]
    (XMatrix 0) (XMatrix 1) = Undefined.
Proof.
  apply (operator_eq_undefined_at_word_boundary
           [mkMatrix (BinMtxBase_init Dynamic Dynamic 8 8) [5; 0];
            mkMatrix (BinMtxBase_init Dynamic Dynamic 8 8) [5; 0]]
           0%nat 1%nat _ _ eq_refl eq_refl eq_refl eq_refl eq_refl eq_refl eq_refl eq_refl).
Defined.

(** ** The repository's tests of counting, repetition and reshaping *)

Lemma test_count_pass : test_count = Ok true.
Proof. by_evaluation. Qed.

Lemma test_block_repeat_pass : test_block_repeat = Ok true.
Proof. by_evaluation. Qed.

Lemma test_reshaped_pass : test_reshaped = Ok true.
Proof. by_evaluation. Qed.

Lemma test_vector_repeat_pass : test_vector_repeat = Ok true.
Proof. by_evaluation. Qed.

(** ** Operator nodes: cells and words agree *)

Lemma expression_of_inv (st : store) (e : Xpr) (x : Expression) :
  expression_of st e = Ok x ->
  xpr_base st e = Ok (expr_base x) /\
  expr_call x = xpr_call st e /\ expr_bitpack x = xpr_bitpack st e.
Proof.
  unfold expression_of. destruct (xpr_base st e) as [b | | |]; cbn [bind]; try discriminate.
  intros H. injection H as <-. repeat split.
Qed.

Lemma expression_of_base (st : store) (e : Xpr) (b : BinMtxBase) :
  xpr_base st e = Ok b ->
  expression_of st e = Ok (mkExpression b (xpr_call st e) (xpr_bitpack st e)).
Proof. intros H. unfold expression_of. rewrite H. reflexivity. Qed.

Lemma apply_word_bits (f : BinaryOperation) (a b t : Z) :
  Z.testbit (apply_word f a b) t = apply_bool f (Z.testbit a t) (Z.testbit b t).
Proof.
  destruct f; cbn [apply_word apply_bool];
    [apply Z.land_spec | apply Z.lor_spec | apply Z.lxor_spec].
Qed.

Lemma apply_word_is_word (f : BinaryOperation) (a b : Z) :
  0 <= a < 2 ^ PackSize -> 0 <= b < 2 ^ PackSize -> 0 <= apply_word f a b < 2 ^ PackSize.
Proof.
  intros Ha Hb. apply word_of_high_bits.
  - destruct f; cbn [apply_word];
      [apply Z.land_nonneg; lia | apply Z.lor_nonneg; lia | apply Z.lxor_nonneg; lia].
  - intros t Ht. rewrite apply_word_bits.
    rewrite (high_bits_of_word a t Ha Ht), (high_bits_of_word b t Hb Ht).
    destruct f; reflexivity.
Qed.

Lemma BinMtxBase_init_bitpacks (R C r c : Z) :
  0 <= r * c ->
  n_bitpacks_ (BinMtxBase_init R C r c) = 1 + size (BinMtxBase_init R C r c) / PackSize.
Proof.
  intros Hn. unfold BinMtxBase_init, size. cbn [n_bitpacks_ n_rows_ n_cols_].
  rewrite std_ceil_quot by exact Hn. reflexivity.
Qed.

Lemma BinMtxBase_init_size (R C : Z) (b : BinMtxBase) :
  size (BinMtxBase_init R C (rows b) (cols b)) = size b.
Proof. reflexivity. Qed.

(** A stored, well-formed matrix denotes the bits of its words. *)
Lemma matrix_represents (st : store) (r : nat) (m : BinaryMatrix) (x : Expression) :
  st !! r = Some m -> well_formed m = true ->
  expression_of st (XMatrix r) = Ok x ->
  expr_base x = base m /\ represents x (bit_of (data_ m)).
Proof.
  intros Hs Hwf Hx.
  destruct (expression_of_inv _ _ _ Hx) as (Hb & Hcall & Hpack).
  rewrite (matrix_base st r m Hs) in Hb. injection Hb as Hb.
  destruct (well_formed_facts m Hwf) as (Hr & Hc & Hsz & Hnb & Hl & Hw).
  split; [symmetry; exact Hb |].
  unfold represents. rewrite <- Hb, Hcall, Hpack.
  repeat split; try assumption; try lia.
  - intros i j Hi Hj. cbn [xpr_call]. unfold deref. rewrite Hs. cbn [bind].
    apply cell_is_bit; assumption.
  - intros k Hk. exists (word_at (data_ m) k).
    split; [apply matrix_bitpack_word; [exact Hs | lia] |].
    split; [apply word_at_range; exact Hwf |].
    intros t Ht _. rewrite bit_of_word.
    replace ((k * PackSize + t) / PackSize) with k
      by (apply (Z.div_unique _ _ k t); unfold PackSize in *; lia).
    replace ((k * PackSize + t) mod PackSize) with t
      by (apply (Z.mod_unique _ _ k t); unfold PackSize in *; lia).
    reflexivity.
Qed.

(** [~e] denotes the negated cells of [e]. *)
Lemma not_represents (st : store) (e : Xpr) (x : Expression) (cell : Z -> bool) :
  expression_of st e = Ok x -> represents x cell ->
  exists e' x',
    operator_not st e = Ok e' /\ expression_of st e' = Ok x' /\
    Rows (expr_base x') = Rows (expr_base x) /\ Cols (expr_base x') = Cols (expr_base x) /\
    n_rows_ (expr_base x') = n_rows_ (expr_base x) /\
    n_cols_ (expr_base x') = n_cols_ (expr_base x) /\
    represents x' (fun k => negb (cell k)).
Proof.
  intros Hx (Hr & Hc & Hsz & Hnb & Hcells & Hwords).
  destruct (expression_of_inv _ _ _ Hx) as (Hb & Hcall & Hpack).
  set (b := expr_base x) in *.
  assert (Hn : 0 <= rows b * cols b) by (unfold rows, cols; nia).
  exists (XUnaryOp (BinMtxBase_init (Rows b) (Cols b) (rows b) (cols b)) e).
  eexists. split; [unfold operator_not; rewrite Hb; reflexivity |].
  split; [reflexivity |]. unfold represents.
  cbn [expr_base expr_call expr_bitpack].
  rewrite (BinMtxBase_init_bitpacks _ _ _ _ Hn), BinMtxBase_init_size, <- Hnb.
  cbn [BinMtxBase_init Rows Cols n_rows_ n_cols_].
  repeat split; try assumption.
  - intros i j Hi Hj. cbn [xpr_call]. rewrite <- Hcall.
    rewrite (Hcells i j Hi Hj). reflexivity.
  - intros k Hk.
    destruct (Hwords k Hk) as (w & Hw & Hrange & Hbits).
    exists (bit_not w). cbn [xpr_bitpack]. rewrite <- Hpack, Hw.
    split; [reflexivity |]. split; [apply bit_not_is_word |].
    intros t Ht Hlt. rewrite bit_not_bits by exact Ht. f_equal. apply Hbits; assumption.
Qed.

(** [e1 & e2], [e1 | e2] and [e1 ^ e2] denote the cells of the operands
    combined by the same functor. *)
Lemma binary_represents (f : BinaryOperation) (st : store) (e1 e2 : Xpr)
      (x1 x2 : Expression) (c1 c2 : Z -> bool) :
  expression_of st e1 = Ok x1 -> expression_of st e2 = Ok x2 ->
  represents x1 c1 -> represents x2 c2 ->
  Rows (expr_base x1) = Rows (expr_base x2) -> Cols (expr_base x1) = Cols (expr_base x2) ->
  n_rows_ (expr_base x1) = n_rows_ (expr_base x2) ->
  n_cols_ (expr_base x1) = n_cols_ (expr_base x2) ->
  exists e' x',
    binary_operator f st e1 e2 = Ok e' /\ expression_of st e' = Ok x' /\
    e' = XBinaryOp (expr_base x') e1 e2 f /\
    Rows (expr_base x') = Rows (expr_base x1) /\ Cols (expr_base x') = Cols (expr_base x1) /\
    n_rows_ (expr_base x') = n_rows_ (expr_base x1) /\
    n_cols_ (expr_base x') = n_cols_ (expr_base x1) /\
    represents x' (fun k => apply_bool f (c1 k) (c2 k)).
Proof.
  intros Hx1 Hx2 (Hr & Hc & Hsz & Hnb & Hcells1 & Hwords1)
    (_ & _ & _ & Hnb2 & Hcells2 & Hwords2) HR HC Hrows Hcols.
  destruct (expression_of_inv _ _ _ Hx1) as (Hb1 & Hcall1 & Hpack1).
  destruct (expression_of_inv _ _ _ Hx2) as (Hb2 & Hcall2 & Hpack2).
  set (b1 := expr_base x1) in *. set (b2 := expr_base x2) in *.
  assert (Hsize : size b2 = size b1) by (unfold size; congruence).
  assert (Hn : 0 <= rows b1 * cols b1) by (unfold rows, cols; nia).
  exists (XBinaryOp (BinMtxBase_init (Rows b1) (Cols b1) (rows b1) (cols b1)) e1 e2 f).
  eexists. split.
  { unfold binary_operator. rewrite Hb1, Hb2. cbn [bind]. unfold rows, cols.
    rewrite HR, HC, Hrows, Hcols, !Z.eqb_refl. reflexivity. }
  split; [reflexivity |]. split; [reflexivity |]. unfold represents.
  cbn [expr_base expr_call expr_bitpack].
  rewrite (BinMtxBase_init_bitpacks _ _ _ _ Hn), BinMtxBase_init_size, <- Hnb.
  cbn [BinMtxBase_init Rows Cols n_rows_ n_cols_].
  repeat split; try assumption.
  - intros i j Hi Hj. cbn [xpr_call]. rewrite <- Hcall1, <- Hcall2.
    rewrite (Hcells1 i j Hi Hj).
    rewrite (Hcells2 i j) by (rewrite <- ?Hrows, <- ?Hcols; assumption).
    rewrite <- Hcols. reflexivity.
  - intros k Hk.
    destruct (Hwords1 k Hk) as (w1 & Hw1 & Hrange1 & Hbits1).
    destruct (Hwords2 k) as (w2 & Hw2 & Hrange2 & Hbits2); [rewrite Hnb2, Hsize, <- Hnb; exact Hk |].
    exists (apply_word f w1 w2). cbn [xpr_bitpack]. rewrite <- Hpack1, <- Hpack2, Hw1, Hw2.
    split; [reflexivity |]. split; [apply apply_word_is_word; assumption |].
    intros t Ht Hlt. rewrite apply_word_bits.
    rewrite Hbits1, Hbits2 by (rewrite ?Hsize; assumption). reflexivity.
Qed.

(** The nodes built by [operator~], [operator&], [operator|] and
    [operator^] over stored matrices compute, cell by cell through
    [operator()] and word by word through [bitpack], the same
    coefficients: a stored well-formed matrix denotes its bits, [~e] the
    negation of what [e] denotes, and a binary node the combination of what
    its operands denote. *)
Theorem operator_nodes_agree_on_cells_and_words :
  (forall (st : store) (r : nat) (m : BinaryMatrix) (x : Expression),
      st !! r = Some m -> well_formed m = true ->
      expression_of st (XMatrix r) = Ok x ->
      represents x (bit_of (data_ m))) /\
  (forall (st : store) (e : Xpr) (x : Expression) (cell : Z -> bool),
      expression_of st e = Ok x -> represents x cell ->
      exists e' x',
        operator_not st e = Ok e' /\ expression_of st e' = Ok x' /\
        represents x' (fun k => negb (cell k))) /\
  (forall (f : BinaryOperation) (st : store) (e1 e2 : Xpr) (x1 x2 : Expression)
          (c1 c2 : Z -> bool),
      expression_of st e1 = Ok x1 -> expression_of st e2 = Ok x2 ->
      represents x1 c1 -> represents x2 c2 ->
      Rows (expr_base x1) = Rows (expr_base x2) ->
      Cols (expr_base x1) = Cols (expr_base x2) ->
      n_rows_ (expr_base x1) = n_rows_ (expr_base x2) ->
      n_cols_ (expr_base x1) = n_cols_ (expr_base x2) ->
      exists e' x',
        binary_operator f st e1 e2 = Ok e' /\ expression_of st e' = Ok x' /\
        represents x' (fun k => apply_bool f (c1 k) (c2 k))).
Proof.
  split; [| split].
  - intros st r m x Hs Hwf Hx. apply (matrix_represents st r m x Hs Hwf Hx).
  - intros st e x cell Hx Hrep.
    destruct (not_represents st e x cell Hx Hrep) as (e' & x' & Hnot & Hx' & _ & _ & _ & _ & H).
    exists e', x'. split; [exact Hnot | split; [exact Hx' | exact H]].
  - intros f st e1 e2 x1 x2 c1 c2 Hx1 Hx2 H1 H2 HR HC Hrows Hcols.
    destruct (binary_represents f st e1 e2 x1 x2 c1 c2 Hx1 Hx2 H1 H2 HR HC Hrows Hcols)
      as (e' & x' & Hop & Hx' & _ & _ & _ & _ & _ & H).
    exists e', x'. split; [exact Hop | split; [exact Hx' | exact H]].
Qed.

(** ** [which] and [count] *)

Lemma cells_below_next (cell : Z -> bool) (n : Z) :
  0 <= n ->
  cells_below cell (n + 1) = cells_below cell n ++ (if cell n then [n] else []).
Proof.
  intros Hn. unfold cells_below.
  replace (Z.to_nat (n + 1)) with (Datatypes.S (Z.to_nat n)) by lia.
  rewrite List.seq_S, List.map_app, List.filter_app. f_equal.
  cbn [List.map List.filter]. rewrite Nat.add_0_l, Z2Nat.id by exact Hn.
  reflexivity.
Qed.

Lemma cells_below_In (cell : Z -> bool) (n k : Z) :
  In k (cells_below cell n) <-> 0 <= k < n /\ cell k = true.
Proof.
  unfold cells_below. rewrite List.filter_In, List.in_map_iff. split.
  - intros [(t & <- & Ht) Hc]. apply List.in_seq in Ht. split; [lia | exact Hc].
  - intros [Hk Hc]. split; [| exact Hc]. exists (Z.to_nat k).
    split; [lia |]. apply List.in_seq. lia.
Qed.

Lemma cells_below_sorted (cell : Z -> bool) (n : Z) :
  forall l1 a b l2, cells_below cell n = l1 ++ a :: b :: l2 -> a < b.
Proof.
  destruct (Z.le_gt_cases 0 n) as [Hn | Hn].
  - revert n Hn.
    apply (natlike_ind (fun n => forall l1 a b l2,
                          cells_below cell n = l1 ++ a :: b :: l2 -> a < b)).
    + intros l1 a b l2 H. destruct l1; discriminate H.
    + intros n Hn IH l1 a b l2. change (Z.succ n) with (n + 1).
      rewrite cells_below_next by exact Hn.
      destruct (cell n); [| rewrite List.app_nil_r; apply IH].
      intros H.
      destruct (list_eq_nil_dec l2) as [-> | Hne].
      * change (l1 ++ [a; b]) with (l1 ++ [a] ++ [b]) in H.
        rewrite List.app_assoc in H.
        apply List.app_inj_tail in H as [Hl <-].
        assert (Hin : In a (cells_below cell n)).
        { rewrite Hl. apply List.in_or_app. right. left. reflexivity. }
        apply cells_below_In in Hin. lia.
      * destruct (List.exists_last Hne) as (l2' & z & ->).
        change (l1 ++ a :: b :: l2' ++ [z]) with (l1 ++ (a :: b :: l2') ++ [z]) in H.
        rewrite List.app_assoc in H.
        apply List.app_inj_tail in H as [Hl _].
        apply (IH l1 a b l2' Hl).
  - intros l1 a b l2 H. unfold cells_below in H.
    replace (Z.to_nat n) with 0%nat in H by lia. destruct l1; discriminate H.
Qed.

(** The two loops of [which] on an expression that denotes [cell]. *)
Lemma represents_reads (x : Expression) (cell : Z -> bool) :
  represents x cell -> reads x cell.
Proof.
  intros (Hr & Hc & Hsz & _ & Hcells & _). repeat split; assumption.
Qed.

(** A block of a stored matrix, inside the matrix: [operator()] of the
    view reads the cells of the matrix behind the corner of the block. *)
Lemma block_reads (st : store) (ref : nat) (m : BinaryMatrix) (sr sc br bc : Z) :
  st !! ref = Some m -> well_formed m = true ->
  0 <= sr -> 0 <= sc -> 0 <= br -> 0 <= bc ->
  sr + br <= n_rows_ (base m) -> sc + bc <= n_cols_ (base m) ->
  reads (mkExpression (BinMtxBase_init Dynamic Dynamic br bc)
           (xpr_call st (XBlock (BinMtxBase_init Dynamic Dynamic br bc) (XMatrix ref) sr sc))
           (xpr_bitpack st (XBlock (BinMtxBase_init Dynamic Dynamic br bc) (XMatrix ref) sr sc)))
        (fun k => bit_of (data_ m) ((sr + k / bc) * n_cols_ (base m) + (sc + k mod bc))).
Proof.
  intros Hs Hwf Hsr Hsc Hbr Hbc Hrows Hcols.
  destruct (well_formed_facts m Hwf) as (Hr & Hc & Hsz & _).
  unfold reads. cbn [expr_base expr_call BinMtxBase_init n_rows_ n_cols_].
  split; [exact Hbr |]. split; [exact Hbc |]. split.
  - change (br * bc <= INT_MAX). unfold size in Hsz.
    assert (br * bc <= n_rows_ (base m) * n_cols_ (base m))
      by (apply Z.mul_le_mono_nonneg; lia).
    lia.
  - intros i j Hi Hj. cbn [xpr_call].
    rewrite in_bounds_true by (cbn [BinMtxBase_init n_rows_ n_cols_]; lia).
    cbn [fdapde_assert bind].
    unfold deref. rewrite Hs. cbn [bind].
    destruct (cell_is_bit m (i + sr) (j + sc) Hwf ltac:(lia) ltac:(lia)) as [-> _].
    replace ((i * bc + j) / bc) with i by (apply (Z.div_unique _ _ i j); lia).
    replace ((i * bc + j) mod bc) with j by (apply (Z.mod_unique _ _ i j); lia).
    do 2 f_equal. lia.
Qed.

Lemma which_loops (x : Expression) (cell : Z -> bool) (b : bool) :
  reads x cell ->
  which x b = Ok (cells_below (fun k => Bool.eqb (cell k) b) (size (expr_base x))).
Proof.
  intros (Hr & Hc & _ & Hcells). unfold which.
  set (C := n_cols_ (expr_base x)) in *.
  set (g := fun k => Bool.eqb (cell k) b).
  destruct (for_range_invariant
              (fun i res => res = cells_below g (i * C))
              (fun i result =>
                 for_range C
                   (fun j result =>
                      let* v := expr_call x i j in
                      Ok (if Bool.eqb v b then result ++ [i * C + j] else result)) result)
              (n_rows_ (expr_base x)) [] Hr) as (l & Hrun & Hl).
  - reflexivity.
  - intros i res Hi ->.
    destruct (for_range_invariant
                (fun j res => res = cells_below g (i * C + j))
                (fun j result =>
                   let* v := expr_call x i j in
                   Ok (if Bool.eqb v b then result ++ [i * C + j] else result))
                C (cells_below g (i * C)) Hc) as (l & Hrun & Hl).
    + f_equal. lia.
    + intros j res Hj ->. rewrite (Hcells i j Hi Hj). cbn [bind]. eexists.
      split; [reflexivity |].
      replace (i * C + (j + 1)) with (i * C + j + 1) by lia.
      rewrite cells_below_next by nia.
      change (g (i * C + j)) with (Bool.eqb (cell (i * C + j)) b).
      destruct (Bool.eqb (cell (i * C + j)) b); [reflexivity | symmetry; apply List.app_nil_r].
    + exists l. split; [exact Hrun |]. rewrite Hl. f_equal. lia.
  - rewrite Hrun, Hl. reflexivity.
Qed.

(** [which(b)] goes through [operator()] alone.  For every expression
    whose [operator()] yields its coefficients -- a block view included,
    whatever its bitpacks hold -- it returns, in increasing order and
    without repetition, exactly the row-major indices whose coefficient
    equals [b]. *)
Theorem which_lists_the_matching_cells :
  forall (x : Expression) (cell : Z -> bool) (b : bool),
    reads x cell ->
    exists l, which x b = Ok l /\
      (forall k, In k l <-> 0 <= k < size (expr_base x) /\ cell k = b) /\
      (forall l1 k1 k2 l2, l = l1 ++ k1 :: k2 :: l2 -> k1 < k2).
Proof.
  intros x cell b Hrd. eexists. split; [apply (which_loops x cell b Hrd) |]. split.
  - intros k. rewrite cells_below_In, Bool.eqb_true_iff. reflexivity.
  - apply cells_below_sorted.
Qed.

Lemma which_lists_the_matching_cells_witness :
  exists l,
    (let* v := view_of_three_columns [view_source_two] in
     let* x := expression_of [view_source_two] v in
     which_of x) = Ok l /\
    In 7 l /\ ~ In 65 l.
Proof.
  destruct (which_lists_the_matching_cells
              (mkExpression (BinMtxBase_init Dynamic Dynamic 30 3)
                 (xpr_call [view_source_two]
                    (XBlock (BinMtxBase_init Dynamic Dynamic 30 3) (XMatrix 0) 0 0))
                 (xpr_bitpack [view_source_two]
                    (XBlock (BinMtxBase_init Dynamic Dynamic 30 3) (XMatrix 0) 0 0)))
              (fun k => bit_of (data_ view_source_two)
                          ((0 + k / 3) * n_cols_ (base view_source_two) + (0 + k mod 3)))
              true
              (block_reads [view_source_two] 0 view_source_two 0 0 30 3
                 eq_refl eq_refl ltac:(lia) ltac:(lia) ltac:(lia) ltac:(lia)
                 ltac:(unfold view_source_two; cbn; lia)
                 ltac:(unfold view_source_two; cbn; lia)))
    as (l & Hrun & Hin & _).
  exists l. split; [exact Hrun |]. split.
  - apply Hin. split; [change (0 <= 7 < 30 * 3); lia | reflexivity].
  - intros H65. apply Hin in H65 as [_ H65]. discriminate H65.
Defined.

Lemma count_from_app (cell : Z -> bool) (n m : nat) :
  forall a, count_from cell a (n + m) = count_from cell a n + count_from cell (a + Z.of_nat n) m.
Proof.
  induction n as [| n IH]; intros a.
  - cbn [Nat.add count_from]. replace (a + Z.of_nat 0) with a by lia. lia.
  - cbn [Nat.add count_from]. rewrite IH.
    replace (a + 1 + Z.of_nat n) with (a + Z.of_nat (Datatypes.S n)) by lia. lia.
Qed.

Lemma count_from_cells_below (cell : Z -> bool) (n : nat) :
  count_from cell 0 n = Z.of_nat (length (cells_below cell (Z.of_nat n))).
Proof.
  induction n as [| n IH].
  - reflexivity.
  - replace (Datatypes.S n) with (n + 1)%nat by lia.
    rewrite count_from_app, IH. replace (Z.of_nat (n + 1)) with (Z.of_nat n + 1) by lia.
    rewrite cells_below_next by lia. rewrite List.length_app. cbn [count_from].
    replace (0 + Z.of_nat n) with (Z.of_nat n) by lia.
    destruct (cell (Z.of_nat n)); cbn [length]; lia.
Qed.

Lemma lowest_bit (w : Z) : (Z.land w 1 =? 1) = Z.testbit w 0.
Proof.
  change 1 with (Z.ones 1) at 1. rewrite Z.land_ones by lia.
  change (2 ^ 1) with 2. rewrite <- Z.bit0_mod.
  destruct (Z.testbit w 0); reflexivity.
Qed.

(** The inner loops of [linear_bit_visit] with the counting visitor: [n]
    bits of the word are counted, from the lowest one. *)
Lemma bit_loop_counts (cell : Z -> bool) (n : nat) :
  forall (w a res : Z),
    (forall t, 0 <= t < Z.of_nat n -> Z.testbit w t = cell (a + t)) ->
    bit_loop count_visitor n w res = Ok (res + count_from cell a n).
Proof.
  induction n as [| n IH]; intros w a res Hbits.
  - cbn [bit_loop count_from]. f_equal. lia.
  - cbn [bit_loop count_from]. unfold shr. cbn [bind].
    change ((0 <=? 1) && (1 <? PackSize)) with true. cbn [bind].
    rewrite (IH (Z.shiftr w 1) (a + 1)).
    + f_equal. cbn [bit_apply count_visitor]. rewrite lowest_bit.
      rewrite (Hbits 0) by lia. replace (a + 0) with a by lia.
      destruct (cell a); lia.
    + intros t Ht. rewrite Z.shiftr_spec by lia. rewrite (Hbits (t + 1)) by lia.
      f_equal. lia.
Qed.

Lemma count_loops (x : Expression) (cell : Z -> bool) :
  represents x cell ->
  size (expr_base x) <= INT_MAX - PackSize ->
  count x = Ok (count_from cell 0 (Z.to_nat (size (expr_base x)))).
Proof.
  intros (Hr & Hc & Hsz & Hnb & _ & Hwords) Hint. unfold count, linear_bit_visit.
  set (sz := size (expr_base x)) in *.
  assert (Hsz0 : 0 <= sz) by (unfold sz, size; nia).
  destruct (Z.eqb_spec sz 0) as [-> | Hne]; [reflexivity |].
  assert (Hq : 0 <= sz / PackSize) by (apply Z.div_pos; [lia | reflexivity]).
  pose proof (Z.div_mod sz PackSize ltac:(discriminate)) as Hdm.
  pose proof (Z.mod_pos_bound sz PackSize ltac:(reflexivity)) as Hmod.
  destruct (for_range_invariant
              (fun k (s : Z * Z) =>
                 fst s = Z.min (k * PackSize) sz /\
                 snd s = count_from cell 0 (Z.to_nat (fst s)))
              (fun k (s : Z * Z) =>
                 let* bitpack := expr_bitpack x k in
                 let* next := int_result (fst s + PackSize) in
                 if next <? sz then
                   let* res := bit_loop count_visitor (Z.to_nat PackSize) bitpack (snd s) in
                   Ok (next, res)
                 else
                   let* res := bit_loop count_visitor (Z.to_nat (sz - fst s)) bitpack (snd s) in
                   Ok (Z.max (fst s) sz, res))
              (bitpacks (expr_base x)) (0, bit_res_init count_visitor))
    as (s & Hrun & Hi & Hres).
  - unfold bitpacks. lia.
  - cbn [fst snd]. split; [lia | reflexivity].
  - intros k [i res] Hk [Hi Hres]. cbn [fst snd] in *. unfold bitpacks in Hk.
    destruct (Hwords k Hk) as (w & -> & _ & Hbits). cbn [bind].
    rewrite int_result_in_range by (unfold INT_MIN, INT_MAX, PackSize in *; lia).
    cbn [bind].
    destruct (Z.ltb_spec (i + PackSize) sz) as [Hfull | Hlast].
    + assert (Hik : i = k * PackSize) by (unfold PackSize in *; lia).
      rewrite (bit_loop_counts cell (Z.to_nat PackSize) w i).
      * cbn [bind]. eexists. split; [reflexivity |]. cbn [fst snd].
        split; [unfold PackSize in *; lia |].
        rewrite Hres. replace (Z.to_nat (i + PackSize)) with (Z.to_nat i + Z.to_nat PackSize)%nat
          by (unfold PackSize in *; lia).
        rewrite count_from_app. f_equal. f_equal. unfold PackSize in *. lia.
      * intros t Ht. rewrite Hik. apply Hbits; unfold PackSize in *; lia.
    + rewrite (bit_loop_counts cell (Z.to_nat (sz - i)) w i).
      * cbn [bind]. eexists. split; [reflexivity |]. cbn [fst snd].
        split; [unfold PackSize in *; lia |].
        rewrite Hres. replace (Z.to_nat (Z.max i sz)) with (Z.to_nat i + Z.to_nat (sz - i))%nat
          by (unfold PackSize in *; lia).
        rewrite count_from_app. f_equal. f_equal. unfold PackSize in *. lia.
      * intros t Ht.
        assert (Hik : i = k * PackSize) by (unfold PackSize in *; lia).
        rewrite Hik. apply Hbits; unfold PackSize in *; lia.
  - rewrite Hrun. cbn [bind]. rewrite Hres, Hi. do 3 f_equal.
    unfold bitpacks. rewrite Hnb. unfold PackSize in *. lia.
Qed.

(** [count()] goes through the bitpacks, [which] through [operator()].
    For an expression whose bitpacks hold its coefficients, of at most
    [INT_MAX - PackSize] of them, [count()] is the number of true
    coefficients, the length of [which(true)].  On a block view the two
    part: the view of three columns of [view_source] has no true
    coefficient, and [count()] is 1, from the cell (21, 3) that the
    bitpacks of the view read outside it. *)
Theorem count_is_the_number_of_true_cells :
  (forall (x : Expression) (cell : Z -> bool),
     represents x cell ->
     size (expr_base x) <= INT_MAX - PackSize ->
     exists l, which x true = Ok l /\ count x = Ok (Z.of_nat (length l)) /\
       length l = length (cells_below cell (size (expr_base x)))) /\
  (let* v := view_of_three_columns [view_source] in
   let* x := expression_of [view_source] v in
   let* n := count x in
   let* l := which x true in
   Ok (n, l)) = Ok (1, []).
Proof.
  split; [| by_evaluation].
  intros x cell Hrep Hint. eexists.
  split; [apply (which_loops x cell true (represents_reads x cell Hrep)) |].
  assert (Hsame : cells_below (fun k => Bool.eqb (cell k) true) (size (expr_base x))
                  = cells_below cell (size (expr_base x))).
  { unfold cells_below. apply List.filter_ext. intros k. destruct (cell k); reflexivity. }
  rewrite Hsame. split; [| reflexivity].
  rewrite (count_loops x cell Hrep Hint), count_from_cells_below.
  destruct Hrep as (Hr & Hc & _). rewrite Z2Nat.id by (unfold size; nia). reflexivity.
Qed.

Lemma count_is_the_number_of_true_cells_witness :
  exists l,
    which (mkExpression (BinMtxBase_init Dynamic Dynamic 5 100)
             (xpr_call [mkMatrix (BinMtxBase_init Dynamic Dynamic 5 100)
                          [0; 2 ^ 63; 0; 0; 2 ^ 40; 0; 0; 0]] (XMatrix 0))
             (xpr_bitpack [mkMatrix (BinMtxBase_init Dynamic Dynamic 5 100)
                             [0; 2 ^ 63; 0; 0; 2 ^ 40; 0; 0; 0]] (XMatrix 0))) true = Ok l /\
    count (mkExpression (BinMtxBase_init Dynamic Dynamic 5 100)
             (xpr_call [mkMatrix (BinMtxBase_init Dynamic Dynamic 5 100)
                          [0; 2 ^ 63; 0; 0; 2 ^ 40; 0; 0; 0]] (XMatrix 0))
             (xpr_bitpack [mkMatrix (BinMtxBase_init Dynamic Dynamic 5 100)
                             [0; 2 ^ 63; 0; 0; 2 ^ 40; 0; 0; 0]] (XMatrix 0)))
    = Ok (Z.of_nat (length l)).
Proof.
  destruct (proj1 count_is_the_number_of_true_cells
              (mkExpression (BinMtxBase_init Dynamic Dynamic 5 100)
                 (xpr_call [mkMatrix (BinMtxBase_init Dynamic Dynamic 5 100)
                              [0; 2 ^ 63; 0; 0; 2 ^ 40; 0; 0; 0]] (XMatrix 0))
                 (xpr_bitpack [mkMatrix (BinMtxBase_init Dynamic Dynamic 5 100)
                                 [0; 2 ^ 63; 0; 0; 2 ^ 40; 0; 0; 0]] (XMatrix 0)))
              (bit_of [0; 2 ^ 63; 0; 0; 2 ^ 40; 0; 0; 0])
              (proj2 (matrix_represents
                        [mkMatrix (BinMtxBase_init Dynamic Dynamic 5 100)
                           [0; 2 ^ 63; 0; 0; 2 ^ 40; 0; 0; 0]] 0
                        (mkMatrix (BinMtxBase_init Dynamic Dynamic 5 100)
                           [0; 2 ^ 63; 0; 0; 2 ^ 40; 0; 0; 0]) _
                        eq_refl eq_refl eq_refl))
              ltac:(change (5 * 100 <= INT_MAX - PackSize); unfold INT_MAX, PackSize; lia))
    as (l & Hw & Hc & _).
  exists l. split; assumption.
Defined.

(** ** Block repetition *)

Lemma int_div_nonneg (a b : Z) : 0 <= a -> 0 < b -> int_div a b = Ok (a / b).
Proof.
  intros Ha Hb. unfold int_div. destruct (Z.eqb_spec b 0); [lia |].
  rewrite Z.quot_div_nonneg by lia. reflexivity.
Qed.

Lemma int_rem_nonneg (a b : Z) : 0 <= a -> 0 < b -> int_rem a b = Ok (a mod b).
Proof.
  intros Ha Hb. unfold int_rem. destruct (Z.eqb_spec b 0); [lia |].
  rewrite Z.rem_mod_nonneg by lia. reflexivity.
Qed.

Lemma shl_bit (v : bool) (j : Z) :
  0 <= j < PackSize -> shl (Z.land 1 (Z.b2z v)) j = Ok (Z.b2z v * 2 ^ j).
Proof.
  intros Hj. unfold shl.
  rewrite (proj2 (Z.leb_le 0 j)), (proj2 (Z.ltb_lt j PackSize)) by lia. cbn [andb].
  f_equal. replace (Z.land 1 (Z.b2z v)) with (Z.b2z v) by (destruct v; reflexivity).
  rewrite Z.shiftl_mul_pow2 by lia. unfold wrap. apply Z.mod_small.
  assert (2 ^ j < 2 ^ PackSize) by (apply Z.pow_lt_mono_r; lia).
  destruct v; cbn [Z.b2z]; lia.
Qed.

Lemma gathered_bit (out : Z) (v : bool) (j t : Z) :
  0 <= j -> 0 <= out < 2 ^ j -> 0 <= t ->
  Z.testbit (Z.lor out (Z.b2z v * 2 ^ j)) t =
  if t <? j then Z.testbit out t else (t =? j) && v.
Proof.
  intros Hj Hout Ht. rewrite Z.lor_spec.
  assert (Hv : Z.testbit (Z.b2z v * 2 ^ j) t = (t =? j) && v).
  { destruct v; cbn [Z.b2z].
    - rewrite Z.mul_1_l, Z.pow2_bits_eqb by exact Hj.
      rewrite Z.eqb_sym, andb_true_r. reflexivity.
    - rewrite Z.mul_0_l, Z.bits_0, andb_false_r. reflexivity. }
  rewrite Hv. destruct (Z.ltb_spec t j) as [Hlt | Hge].
  - destruct (Z.eqb_spec t j); [lia |]. apply orb_false_r.
  - replace (Z.testbit out t) with false; [reflexivity |].
    symmetry. destruct (Z.eq_dec out 0) as [-> | Hne]; [apply Z.bits_0 |].
    apply Z.bits_above_log2; [lia |].
    apply Z.lt_le_trans with j; [| exact Hge]. apply Z.log2_lt_pow2; lia.
Qed.

Lemma gathered_range (out : Z) (v : bool) (j : Z) :
  0 <= j -> 0 <= out < 2 ^ j -> 0 <= Z.lor out (Z.b2z v * 2 ^ j) < 2 ^ (j + 1).
Proof.
  intros Hj Hout.
  assert (Hpos : 0 <= Z.b2z v * 2 ^ j) by (destruct v; cbn [Z.b2z]; lia).
  split; [apply Z.lor_nonneg; lia |].
  destruct (Z.eq_dec (Z.lor out (Z.b2z v * 2 ^ j)) 0) as [-> | Hne];
    [apply Z.pow_pos_nonneg; lia |].
  apply Z.log2_lt_pow2; [pose proof (proj2 (Z.lor_nonneg out (Z.b2z v * 2 ^ j))); lia |].
  rewrite Z.log2_lor by lia.
  apply Z.max_lub_lt.
  - destruct (Z.eq_dec out 0) as [-> | Hne']; [cbn; lia |].
    assert (Z.log2 out < j) by (apply Z.log2_lt_pow2; lia). lia.
  - destruct v; cbn [Z.b2z].
    + rewrite Z.mul_1_l, Z.log2_pow2 by lia. lia.
    + rewrite Z.mul_0_l. cbn. lia.
Qed.

(** The loop of [BinMtxRepeatOp::bitpack] over an expression whose
    [operator()] is sound: bit [t] of the result is the repeated cell of
    index [i * PackSize + t] as far as there are cells, and zero behind. *)
Lemma repeat_gather_bits (x : Expression) (cell : Z -> bool) (b : BinMtxBase) (i : Z) :
  0 < n_rows_ (expr_base x) -> 0 < n_cols_ (expr_base x) ->
  (forall r c, 0 <= r < n_rows_ (expr_base x) -> 0 <= c < n_cols_ (expr_base x) ->
     expr_call x r c = Ok (cell (r * n_cols_ (expr_base x) + c))) ->
  0 <= n_rows_ b -> 0 <= n_cols_ b -> 0 <= i ->
  forall (fuel : nat) (j out : Z),
    0 <= j -> j + Z.of_nat fuel = PackSize -> 0 <= out < 2 ^ j ->
    exists w, repeat_gather x b i fuel j out = Ok w /\ 0 <= w < 2 ^ PackSize /\
      forall t, 0 <= t < PackSize ->
        Z.testbit w t =
        if t <? j then Z.testbit out t
        else (i * PackSize + t <? size b) &&
             cell ((((i * PackSize + t) / n_cols_ b) mod n_rows_ (expr_base x))
                     * n_cols_ (expr_base x)
                   + (i * PackSize + t) mod n_cols_ (expr_base x)).
Proof.
  intros HR HC Hcells Hbr Hbc Hi.
  induction fuel as [| fuel IH]; intros j out Hj Hfuel Hout.
  - exists out. split; [reflexivity |]. replace j with PackSize in * by lia.
    split; [exact Hout |]. intros t Ht.
    destruct (Z.ltb_spec t PackSize); [reflexivity | lia].
  - cbn [repeat_gather].
    destruct (Z.ltb_spec j PackSize) as [Hjlt | Hjge]; [| lia]. cbn [andb].
    destruct (Z.ltb_spec (i * PackSize + j) (size b)) as [Hin | Hout'].
    + assert (Hbc' : 0 < n_cols_ b) by (unfold size in Hin; unfold PackSize in *; nia).
      assert (Hidx : 0 <= i * PackSize + j) by (unfold PackSize in *; lia).
      rewrite (int_div_nonneg _ _ Hidx Hbc'). cbn [bind]. unfold rows, cols.
      rewrite int_rem_nonneg by (try apply Z.div_pos; lia). cbn [bind].
      rewrite (int_rem_nonneg _ _ Hidx HC). cbn [bind].
      rewrite Hcells by (apply Z.mod_pos_bound; lia). cbn [bind].
      rewrite shl_bit by lia. cbn [bind].
      destruct (IH (j + 1) (Z.lor out
                              (Z.b2z (cell (((i * PackSize + j) / n_cols_ b)
                                              mod n_rows_ (expr_base x) * n_cols_ (expr_base x)
                                            + (i * PackSize + j) mod n_cols_ (expr_base x)))
                               * 2 ^ j))) as (w & Hrun & Hrange & Hbits).
      * lia.
      * lia.
      * apply gathered_range; assumption.
      * exists w. split; [exact Hrun |]. split; [exact Hrange |].
        intros t Ht. rewrite (Hbits t Ht).
        destruct (Z.ltb_spec t (j + 1)) as [Hlt | Hge].
        -- rewrite gathered_bit by lia.
           destruct (Z.ltb_spec t j) as [Hlt' | Hge']; [reflexivity |].
           assert (t = j) by lia. subst t. rewrite Z.eqb_refl.
           destruct (Z.ltb_spec (i * PackSize + j) (size b)); [reflexivity | lia].
        -- destruct (Z.ltb_spec t j); [lia | reflexivity].
    + exists out. split; [reflexivity |].
      split.
      { split; [lia |]. apply Z.lt_le_trans with (2 ^ j); [lia |].
        apply Z.pow_le_mono_r; lia. }
      intros t Ht. destruct (Z.ltb_spec t j) as [Hlt | Hge]; [reflexivity |].
      destruct (Z.ltb_spec (i * PackSize + t) (size b)) as [Hin | _];
        [unfold PackSize in *; lia |].
      cbn [andb]. destruct (Z.eq_dec out 0) as [-> | Hne]; [apply Z.bits_0 |].
      apply Z.bits_above_log2; [lia |].
      apply Z.lt_le_trans with j; [| exact Hge]. apply Z.log2_lt_pow2; lia.
Qed.

(** [repeat(rep_row, rep_col)] of an expression with at least one row and
    one column, whose [operator()] yields its coefficients -- a block view
    included: the node denotes the tiling.  Its cell [(i, j)] is the cell
    [(i mod rows, j mod cols)] of the repeated expression, through
    [operator()] and through [bitpack] alike, and its bitpacks hold zero
    bits behind the last cell.  The extents of the tiling and their
    product are to fit an int. *)
Theorem repeat_tiles_the_expression :
  forall (x : Expression) (cell : Z -> bool) (rep_row rep_col : Z),
    reads x cell ->
    0 < n_rows_ (expr_base x) -> 0 < n_cols_ (expr_base x) ->
    0 <= rep_row -> 0 <= rep_col ->
    n_rows_ (expr_base x) * rep_row <= INT_MAX ->
    n_cols_ (expr_base x) * rep_col <= INT_MAX ->
    (n_rows_ (expr_base x) * rep_row) * (n_cols_ (expr_base x) * rep_col) <= INT_MAX ->
    n_rows_ (expr_base (repeat x rep_row rep_col)) = n_rows_ (expr_base x) * rep_row /\
    n_cols_ (expr_base (repeat x rep_row rep_col)) = n_cols_ (expr_base x) * rep_col /\
    (forall i j, 0 <= i < n_rows_ (expr_base x) * rep_row ->
                 0 <= j < n_cols_ (expr_base x) * rep_col ->
       expr_call (repeat x rep_row rep_col) i j
       = expr_call x (i mod n_rows_ (expr_base x)) (j mod n_cols_ (expr_base x))) /\
    represents (repeat x rep_row rep_col)
      (fun k => cell (((k / (n_cols_ (expr_base x) * rep_col)) mod n_rows_ (expr_base x))
                        * n_cols_ (expr_base x)
                      + k mod n_cols_ (expr_base x))) /\
    (forall k, 0 <= k < n_bitpacks_ (expr_base (repeat x rep_row rep_col)) ->
       exists w, expr_bitpack (repeat x rep_row rep_col) k = Ok w /\
         forall t, 0 <= t < PackSize ->
           size (expr_base (repeat x rep_row rep_col)) <= k * PackSize + t ->
           Z.testbit w t = false).
Proof.
  intros x cell rr rc (_ & _ & _ & Hcells) HR HC Hrr Hrc _ _ Hsz.
  set (R := n_rows_ (expr_base x)) in *. set (C := n_cols_ (expr_base x)) in *.
  assert (Hcall : forall i j, 0 <= i < R * rr -> 0 <= j < C * rc ->
            expr_call (repeat x rr rc) i j = expr_call x (i mod R) (j mod C)).
  { intros i j Hi Hj. unfold repeat, BinMtxRepeatOp. cbn [expr_call].
    rewrite in_bounds_true by (cbn; unfold rows, cols; fold R C; lia).
    cbn [fdapde_assert bind]. unfold rows, cols. fold R C.
    rewrite !int_rem_nonneg by lia. reflexivity. }
  split; [reflexivity |]. split; [reflexivity |]. split; [exact Hcall |].
  assert (Hn : 0 <= (R * rr) * (C * rc)) by nia.
  assert (Hgather : forall k, 0 <= k ->
            exists w, expr_bitpack (repeat x rr rc) k = Ok w /\ 0 <= w < 2 ^ PackSize /\
              forall t, 0 <= t < PackSize ->
                Z.testbit w t =
                (k * PackSize + t <? (R * rr) * (C * rc)) &&
                cell ((((k * PackSize + t) / (C * rc)) mod R) * C + (k * PackSize + t) mod C)).
  { intros k Hk.
    destruct (repeat_gather_bits x cell (BinMtxBase_init Dynamic Dynamic (R * rr) (C * rc)) k
                HR HC Hcells ltac:(cbn; lia) ltac:(cbn; lia) Hk
                (Z.to_nat PackSize) 0 0 ltac:(lia) ltac:(reflexivity) ltac:(cbn; lia))
      as (w & Hrun & Hrange & Hbits).
    exists w. split; [exact Hrun |]. split; [exact Hrange |].
    intros t Ht. rewrite (Hbits t Ht).
    destruct (Z.ltb_spec t 0); [lia |]. reflexivity. }
  split.
  - unfold represents.
    change (expr_base (repeat x rr rc))
      with (BinMtxBase_init Dynamic Dynamic (R * rr) (C * rc)).
    rewrite (BinMtxBase_init_bitpacks _ _ _ _ Hn).
    change (size (BinMtxBase_init Dynamic Dynamic (R * rr) (C * rc)))
      with ((R * rr) * (C * rc)).
    cbn [BinMtxBase_init n_rows_ n_cols_].
    split; [lia |]. split; [lia |]. split; [exact Hsz |]. split; [reflexivity |]. split.
    + intros i j Hi Hj. rewrite (Hcall i j Hi Hj).
      rewrite Hcells by (apply Z.mod_pos_bound; lia).
      assert (Hq : (i * (C * rc) + j) / (C * rc) = i)
        by (symmetry; apply (Z.div_unique _ _ i j); lia).
      assert (Hm : (i * (C * rc) + j) mod C = j mod C).
      { replace (i * (C * rc) + j) with (j + (i * rc) * C) by lia. apply Z_mod_plus_full. }
      rewrite Hq, Hm. reflexivity.
    + intros k Hk. destruct (Hgather k ltac:(lia)) as (w & Hrun & Hrange & Hbits).
      exists w. split; [exact Hrun |]. split; [exact Hrange |].
      intros t Ht Hlt. rewrite (Hbits t Ht).
      destruct (Z.ltb_spec (k * PackSize + t) (R * rr * (C * rc))); [| lia].
      reflexivity.
  - intros k Hk. destruct (Hgather k ltac:(lia)) as (w & Hrun & _ & Hbits).
    exists w. split; [exact Hrun |].
    intros t Ht Hge. rewrite (Hbits t Ht).
    change (size (expr_base (repeat x rr rc))) with ((R * rr) * (C * rc)) in Hge.
    destruct (Z.ltb_spec (k * PackSize + t) (R * rr * (C * rc))); [lia |].
    reflexivity.
Qed.

Lemma repeat_tiles_the_expression_witness :
  expr_call
    (repeat (mkExpression (BinMtxBase_init Dynamic Dynamic 30 3)
               (xpr_call [view_source_two]
                  (XBlock (BinMtxBase_init Dynamic Dynamic 30 3) (XMatrix 0) 0 0))
               (xpr_bitpack [view_source_two]
                  (XBlock (BinMtxBase_init Dynamic Dynamic 30 3) (XMatrix 0) 0 0)))
       2 4) 32 10
  = expr_call
      (mkExpression (BinMtxBase_init Dynamic Dynamic 30 3)
         (xpr_call [view_source_two]
            (XBlock (BinMtxBase_init Dynamic Dynamic 30 3) (XMatrix 0) 0 0))
         (xpr_bitpack [view_source_two]
            (XBlock (BinMtxBase_init Dynamic Dynamic 30 3) (XMatrix 0) 0 0)))
      (32 mod 30) (10 mod 3).
Proof.
  apply (repeat_tiles_the_expression
           (mkExpression (BinMtxBase_init Dynamic Dynamic 30 3)
              (xpr_call [view_source_two]
                 (XBlock (BinMtxBase_init Dynamic Dynamic 30 3) (XMatrix 0) 0 0))
              (xpr_bitpack [view_source_two]
                 (XBlock (BinMtxBase_init Dynamic Dynamic 30 3) (XMatrix 0) 0 0)))
           (fun k => bit_of (data_ view_source_two)
                       ((0 + k / 3) * n_cols_ (base view_source_two) + (0 + k mod 3)))
           2 4
           (block_reads [view_source_two] 0 view_source_two 0 0 30 3
              eq_refl eq_refl ltac:(lia) ltac:(lia) ltac:(lia) ltac:(lia)
              ltac:(unfold view_source_two; cbn; lia)
              ltac:(unfold view_source_two; cbn; lia))
           ltac:(cbn; lia) ltac:(cbn; lia) ltac:(lia) ltac:(lia)
           ltac:(cbn; unfold INT_MAX; lia) ltac:(cbn; unfold INT_MAX; lia)
           ltac:(cbn; unfold INT_MAX; lia)); cbn; lia.
Defined.

(** ** Reshaping *)

Lemma reshaped_reads (x : Expression) (cell : Z -> bool) (r c : Z) :
  reads x cell ->
  0 <= r -> 0 <= c -> r * c = size (expr_base x) ->
  exists x', reshaped x r c = Ok x' /\
    expr_base x' = BinMtxBase_init Dynamic Dynamic r c /\
    expr_bitpack x' = expr_bitpack x /\
    reads x' cell.
Proof.
  intros (HR & HC & Hsz & Hcells) Hr Hc Hsize.
  set (R := n_rows_ (expr_base x)) in *. set (C := n_cols_ (expr_base x)) in *.
  unfold reshaped, BinMtxReshapedOp. unfold rows, cols. fold R C.
  replace (r * c =? R * C) with true by (symmetry; apply Z.eqb_eq; exact Hsize).
  cbn [fdapde_assert bind]. eexists. split; [reflexivity |].
  cbn [expr_base expr_bitpack].
  split; [reflexivity |]. split; [reflexivity |].
  unfold reads. cbn [expr_base expr_call].
  change (size (BinMtxBase_init Dynamic Dynamic r c)) with (r * c).
  cbn [BinMtxBase_init n_rows_ n_cols_]. rewrite Hsize.
  split; [exact Hr |]. split; [exact Hc |]. split; [exact Hsz |].
  intros i j Hi Hj.
  rewrite (proj2 (Z.ltb_lt i r)), (proj2 (Z.ltb_lt j c)) by lia.
  cbn [andb fdapde_assert bind].
  assert (Hidx : 0 <= i * c + j < R * C) by (unfold size in Hsize; fold R C in Hsize; nia).
  assert (HCpos : 0 < C) by nia.
  rewrite int_div_nonneg, int_rem_nonneg by lia. cbn [bind].
  rewrite Hcells.
  - do 2 f_equal. pose proof (Z.div_mod (i * c + j) C ltac:(lia)). lia.
  - split; [apply Z.div_pos; lia |]. apply Z.div_lt_upper_bound; lia.
  - apply Z.mod_pos_bound. exact HCpos.
Qed.

Lemma reshaped_represents (x x' : Expression) (cell : Z -> bool) (r c : Z) :
  represents x cell ->
  0 <= r -> 0 <= c -> r * c = size (expr_base x) ->
  expr_base x' = BinMtxBase_init Dynamic Dynamic r c ->
  expr_bitpack x' = expr_bitpack x ->
  reads x' cell ->
  represents x' cell.
Proof.
  intros (HR & HC & Hsz & Hnb & _ & Hwords) Hr Hc Hsize Hb Hpack (_ & _ & _ & Hcells').
  assert (Hn : 0 <= r * c) by nia.
  unfold represents. rewrite Hpack.
  assert (Hsize' : size (expr_base x') = size (expr_base x)).
  { rewrite Hb. exact Hsize. }
  assert (Hnb' : n_bitpacks_ (expr_base x') = 1 + size (expr_base x) / PackSize).
  { rewrite Hb, (BinMtxBase_init_bitpacks _ _ _ _ Hn).
    change (size (BinMtxBase_init Dynamic Dynamic r c)) with (r * c).
    rewrite Hsize. reflexivity. }
  rewrite Hsize', Hnb'.
  split; [rewrite Hb; exact Hr |]. split; [rewrite Hb; exact Hc |].
  split; [exact Hsz |]. split; [reflexivity |]. split; [exact Hcells' |].
  intros k Hk. rewrite <- Hnb in Hk. apply (Hwords k Hk).
Qed.

(** [reshaped(n_row, n_col)] keeps the row-major sequence of
    coefficients.  For an expression whose [operator()] yields its
    coefficients -- a block view included -- the reshaped expression has
    the new extents, yields the same sequence through [operator()], and
    hands out the very bitpacks of the original; so it denotes the
    sequence through its bitpacks exactly when the original does.
    [vector_view()] is the case of a single column. *)
Theorem reshaped_keeps_the_sequence :
  forall (x : Expression) (cell : Z -> bool),
    reads x cell ->
    (forall r c, 0 <= r -> 0 <= c -> r * c = size (expr_base x) ->
       exists x', reshaped x r c = Ok x' /\
         n_rows_ (expr_base x') = r /\ n_cols_ (expr_base x') = c /\
         expr_bitpack x' = expr_bitpack x /\
         (forall i j, 0 <= i < r -> 0 <= j < c -> expr_call x' i j = Ok (cell (i * c + j))) /\
         (represents x cell -> represents x' cell)) /\
    (exists v, vector_view x = Ok v /\
       n_rows_ (expr_base v) = size (expr_base x) /\ n_cols_ (expr_base v) = 1 /\
       expr_bitpack v = expr_bitpack x /\
       (forall i, 0 <= i < size (expr_base x) -> expr_call v i 0 = Ok (cell i)) /\
       (represents x cell -> represents v cell)).
Proof.
  intros x cell Hrd. split.
  - intros r c Hr Hc Hsize.
    destruct (reshaped_reads x cell r c Hrd Hr Hc Hsize) as (x' & Hrun & Hb & Hpack & Hrd').
    exists x'. split; [exact Hrun |].
    split; [rewrite Hb; reflexivity |]. split; [rewrite Hb; reflexivity |].
    split; [exact Hpack |]. split.
    + intros i j Hi Hj. pose proof Hrd' as (_ & _ & _ & Hcells).
      rewrite Hcells by (rewrite Hb; assumption). rewrite Hb. reflexivity.
    + intros Hrep. apply (reshaped_represents x x' cell r c); assumption.
  - assert (Hsz0 : 0 <= size (expr_base x)).
    { destruct Hrd as (HR & HC & _). unfold size. nia. }
    destruct (reshaped_reads x cell (size (expr_base x)) 1 Hrd Hsz0 ltac:(lia) ltac:(lia))
      as (v & Hrun & Hb & Hpack & Hrd').
    exists v. split; [exact Hrun |].
    split; [rewrite Hb; reflexivity |]. split; [rewrite Hb; reflexivity |].
    split; [exact Hpack |]. split.
    + intros i Hi. pose proof Hrd' as (_ & _ & _ & Hcells).
      rewrite Hcells by (rewrite Hb; cbn [BinMtxBase_init n_rows_ n_cols_]; lia).
      rewrite Hb. cbn [BinMtxBase_init n_cols_]. do 2 f_equal. lia.
    + intros Hrep.
      apply (reshaped_represents x v cell (size (expr_base x)) 1); try assumption; lia.
Qed.

Lemma reshaped_keeps_the_sequence_witness :
  exists x',
    reshaped (mkExpression (BinMtxBase_init Dynamic Dynamic 30 3)
                (xpr_call [view_source_two]
                   (XBlock (BinMtxBase_init Dynamic Dynamic 30 3) (XMatrix 0) 0 0))
                (xpr_bitpack [view_source_two]
                   (XBlock (BinMtxBase_init Dynamic Dynamic 30 3) (XMatrix 0) 0 0)))
      9 10 = Ok x' /\
    expr_call x' 0 7 = Ok true /\
    expr_bitpack x' 1 = xpr_bitpack [view_source_two]
                          (XBlock (BinMtxBase_init Dynamic Dynamic 30 3) (XMatrix 0) 0 0) 1.
Proof.
  destruct (proj1 (reshaped_keeps_the_sequence
              (mkExpression (BinMtxBase_init Dynamic Dynamic 30 3)
                 (xpr_call [view_source_two]
                    (XBlock (BinMtxBase_init Dynamic Dynamic 30 3) (XMatrix 0) 0 0))
                 (xpr_bitpack [view_source_two]
                    (XBlock (BinMtxBase_init Dynamic Dynamic 30 3) (XMatrix 0) 0 0)))
              (fun k => bit_of (data_ view_source_two)
                          ((0 + k / 3) * n_cols_ (base view_source_two) + (0 + k mod 3)))
              (block_reads [view_source_two] 0 view_source_two 0 0 30 3
                 eq_refl eq_refl ltac:(lia) ltac:(lia) ltac:(lia) ltac:(lia)
                 ltac:(unfold view_source_two; cbn; lia)
                 ltac:(unfold view_source_two; cbn; lia)))
              9 10 ltac:(lia) ltac:(lia) eq_refl)
    as (x' & Hrun & _ & _ & Hpack & Hcells & _).
  exists x'. split; [exact Hrun |]. split.
  - rewrite (Hcells 0 7) by lia. reflexivity.
  - rewrite Hpack. reflexivity.
Defined.

(** ** Assignment of an expression to a matrix *)

Lemma block_gather_ext (read1 read2 : Z -> Z -> outcome bool) (b : BinMtxBase)
      (i row_offset col_offset : Z) :
  (forall r c, read1 r c = read2 r c) ->
  forall (fuel : nat) (j out : Z),
    block_gather read1 b i row_offset col_offset fuel j out
    = block_gather read2 b i row_offset col_offset fuel j out.
Proof.
  intros Hread. induction fuel as [| fuel IH]; intros j out; [reflexivity |].
  cbn [block_gather]. destruct ((j <? PackSize) && (i * PackSize + j <? size b)); [| reflexivity].
  destruct (int_div j (n_cols_ b)) as [q | | |]; cbn [bind]; try reflexivity.
  destruct (int_rem j (n_cols_ b)) as [r | | |]; cbn [bind]; try reflexivity.
  rewrite Hread. destruct (read2 (row_offset + q) (col_offset + r)) as [v | | |];
    cbn [bind]; try reflexivity.
  destruct (shl (Z.land 1 (Z.b2z v)) j) as [sh | | |]; cbn [bind]; try reflexivity.
  apply IH.
Qed.

Lemma bind_ext {A B : Type} (c : outcome A) (k1 k2 : A -> outcome B) :
  (forall a, k1 a = k2 a) -> bind c k1 = bind c k2.
Proof. intros H. destruct c; cbn [bind]; [apply H | reflexivity ..]. Qed.

Lemma deref_other (st : store) (target ref : nat) (m' : BinaryMatrix) :
  ref <> target -> deref (<[target := m']> st) ref = deref st ref.
Proof.
  intros Hne. unfold deref.
  replace ((<[target := m']> st) !! ref) with (st !! ref); [reflexivity |].
  symmetry. apply list_lookup_insert_ne. congruence.
Qed.

Lemma deref_target (st : store) (target : nat) (m' : BinaryMatrix) :
  (target < length st)%nat -> deref (<[target := m']> st) target = Ok m'.
Proof.
  intros Hlt. unfold deref.
  replace ((<[target := m']> st) !! target) with (Some m'); [reflexivity |].
  symmetry. apply list_lookup_insert_eq. exact Hlt.
Qed.

(** An expression that does not read the matrix [target] evaluates the same
    whatever that matrix holds. *)
Lemma xpr_independent (st : store) (target : nat) (m' : BinaryMatrix) (e : Xpr) :
  mentions target e = false ->
  xpr_base (<[target := m']> st) e = xpr_base st e /\
  (forall i j, xpr_call (<[target := m']> st) e i j = xpr_call st e i j) /\
  (forall k, xpr_bitpack (<[target := m']> st) e k = xpr_bitpack st e k).
Proof.
  induction e as [ref | b op IH | b op1 IH1 op2 IH2 f | b xpr IH sr sc];
    cbn [mentions]; intros Hm.
  - apply Nat.eqb_neq in Hm.
    cbn [xpr_base xpr_call xpr_bitpack]. rewrite (deref_other st target ref m' Hm).
    repeat split.
  - destruct (IH Hm) as (_ & Hcall & Hpack). split; [reflexivity |]. split.
    + intros i j. cbn [xpr_call]. rewrite Hcall. reflexivity.
    + intros k. cbn [xpr_bitpack]. rewrite Hpack. reflexivity.
  - apply orb_false_elim in Hm as [Hm1 Hm2].
    destruct (IH1 Hm1) as (_ & Hcall1 & Hpack1). destruct (IH2 Hm2) as (_ & Hcall2 & Hpack2).
    split; [reflexivity |]. split.
    + intros i j. cbn [xpr_call]. rewrite Hcall1, Hcall2. reflexivity.
    + intros k. cbn [xpr_bitpack]. rewrite Hpack1, Hpack2. reflexivity.
  - destruct (IH Hm) as (_ & Hcall & _). split; [reflexivity |]. split.
    + intros i j. cbn [xpr_call]. rewrite Hcall. reflexivity.
    + intros k. cbn [xpr_bitpack].
      apply bind_ext. intros co. apply bind_ext. intros ro.
      apply block_gather_ext. exact Hcall.
Qed.

Lemma words_are_words (d : list Z) :
  (forall p, 0 <= p < Z.of_nat (length d) -> 0 <= word_at d p < 2 ^ PackSize) ->
  forallb is_word d = true.
Proof.
  intros Hall. apply forallb_forall. intros w Hin.
  apply list_elem_of_In in Hin. apply list_elem_of_lookup_1 in Hin as (n & Hn).
  pose proof (lookup_lt_Some _ _ _ Hn) as Hlt.
  specialize (Hall (Z.of_nat n) ltac:(lia)). unfold word_at in Hall.
  rewrite Nat2Z.id, Hn in Hall. cbn in Hall.
  unfold is_word. apply andb_true_intro. split; [apply Z.leb_le | apply Z.ltb_lt]; lia.
Qed.

Lemma vector_resize_length (d : list Z) (n : Z) :
  0 <= n -> exists d', vector_resize d n = Ok d' /\ Z.of_nat (length d') = n.
Proof.
  intros Hn. unfold vector_resize. destruct (Z.ltb_spec n 0); [lia |].
  eexists. split; [reflexivity |].
  rewrite length_app, length_take, length_replicate. lia.
Qed.

Section Assignment.

Variables (st : store) (target : nat) (mt : BinaryMatrix).
Variables (e : Xpr) (x : Expression).

Hypothesis target_stored : st !! target = Some mt.
Hypothesis target_dynamic : is_dynamic_sized (Rows (base mt)) (Cols (base mt)) = true.
Hypothesis not_aliased : mentions target e = false.
Hypothesis evaluates : expression_of st e = Ok x.
Hypothesis counted : 0 <= n_bitpacks_ (expr_base x).
Hypothesis readable :
  forall p, 0 <= p < n_bitpacks_ (expr_base x) -> exists w, expr_bitpack x p = Ok w.

(** The copy loop of the assignment: after [i] iterations the first [i]
    words of the target are the first [i] bitpacks of the expression. *)
Lemma assign_copy_loop (b' : BinMtxBase) (d : list Z) :
  Z.of_nat (length d) = n_bitpacks_ (expr_base x) ->
  exists d',
    for_range (bitpacks (expr_base x))
      (fun i st2 =>
         let* x2 := expression_of st2 e in
         let* w := expr_bitpack x2 i in
         let* m2 := deref st2 target in
         let* d2 := data_write (data_ m2) i w in
         Ok (<[target := with_data m2 d2]> st2))
      (<[target := mkMatrix b' d]> st)
    = Ok (<[target := mkMatrix b' d']> st) /\
    Z.of_nat (length d') = n_bitpacks_ (expr_base x) /\
    forall p, 0 <= p < n_bitpacks_ (expr_base x) -> expr_bitpack x p = Ok (word_at d' p).
Proof.
  intros Hlen.
  destruct (expression_of_inv _ _ _ evaluates) as (Hb & _ & Hpack).
  assert (Htarget : (target < length st)%nat) by (apply (lookup_lt_Some _ _ _ target_stored)).
  destruct (for_range_invariant
              (fun i st2 =>
                 exists d2, st2 = <[target := mkMatrix b' d2]> st /\
                   Z.of_nat (length d2) = n_bitpacks_ (expr_base x) /\
                   forall p, 0 <= p < i -> expr_bitpack x p = Ok (word_at d2 p))
              (fun i st2 =>
                 let* x2 := expression_of st2 e in
                 let* w := expr_bitpack x2 i in
                 let* m2 := deref st2 target in
                 let* d2 := data_write (data_ m2) i w in
                 Ok (<[target := with_data m2 d2]> st2))
              (bitpacks (expr_base x)) (<[target := mkMatrix b' d]> st) counted)
    as (st' & Hrun & d' & -> & Hlen' & Hcopied).
  - exists d. split; [reflexivity |]. split; [exact Hlen |]. intros p Hp. lia.
  - intros i st2 Hi (d2 & -> & Hlen2 & Hcopied). unfold bitpacks in Hi.
    destruct (xpr_independent st target (mkMatrix b' d2) e not_aliased) as (Hb2 & _ & Hpack2).
    unfold expression_of. rewrite Hb2, Hb. cbn [bind expr_bitpack].
    rewrite Hpack2, <- Hpack.
    destruct (readable i Hi) as (w & Hw). rewrite Hw. cbn [bind].
    rewrite (deref_target st target _ Htarget). cbn [bind data_].
    unfold data_write. destruct (Z.ltb_spec i 0); [lia |].
    destruct (Z.ltb_spec i (Z.of_nat (length d2))); [| lia].
    cbn [bind with_data base]. eexists. split; [reflexivity |].
    exists (<[Z.to_nat i := w]> d2).
    split; [apply list_insert_insert_eq |].
    split; [rewrite length_insert; exact Hlen2 |].
    intros p Hp. unfold word_at.
    destruct (Z.eq_dec p i) as [-> | Hne].
    + rewrite list_lookup_insert_eq by lia. exact Hw.
    + rewrite list_lookup_insert_ne by lia. apply Hcopied. lia.
  - exists d'. split; [exact Hrun |]. split; [exact Hlen' |]. exact Hcopied.
Qed.

(** What the assignment does whatever the bitpacks of the expression
    hold: it gives the target the extents it computes and the number of
    bitpacks of the expression, and copies these bitpacks. *)
Lemma assign_copies_bitpacks :
  exists st' m',
    assign st target (fun s => expression_of s e) = Ok st' /\
    st' !! target = Some m' /\
    (forall r, r <> target -> st' !! r = st !! r) /\
    base m' = mkBase (Rows (base mt)) (Cols (base mt))
                (assigned_rows (Cols (base mt)) (expr_base x))
                (assigned_cols (Cols (base mt)) (expr_base x))
                (bitpacks (expr_base x)) /\
    Z.of_nat (length (data_ m')) = n_bitpacks_ (expr_base x) /\
    (forall p, 0 <= p < n_bitpacks_ (expr_base x) ->
       expr_bitpack x p = Ok (word_at (data_ m') p)).
Proof.
  destruct (vector_resize_length (data_ mt) (bitpacks (expr_base x)))
    as (d & Hresize & Hlen); [exact counted |].
  set (b' := mkBase (Rows (base mt)) (Cols (base mt))
               (assigned_rows (Cols (base mt)) (expr_base x))
               (assigned_cols (Cols (base mt)) (expr_base x))
               (bitpacks (expr_base x))).
  destruct (assign_copy_loop b' d Hlen) as (d' & Hrun & Hlen' & Hcopied).
  assert (Htarget : (target < length st)%nat) by (apply (lookup_lt_Some _ _ _ target_stored)).
  exists (<[target := mkMatrix b' d']> st), (mkMatrix b' d').
  split.
  { unfold assign, deref. rewrite target_stored. cbn [bind]. rewrite evaluates. cbn [bind].
    rewrite target_dynamic. cbn [orb fdapde_static_assert bind].
    rewrite Hresize. cbn [bind]. exact Hrun. }
  split; [apply list_lookup_insert_eq; exact Htarget |].
  split; [intros r Hr; apply list_lookup_insert_ne; congruence |].
  split; [reflexivity |]. split; [exact Hlen' | exact Hcopied].
Qed.

End Assignment.

(** The words of a matrix that received the bitpacks of an expression
    whose bitpacks hold its coefficients: bit [k] is coefficient [k], and
    the matrix is well formed when its extents hold as many cells as the
    expression. *)
Lemma assigned_cells (x : Expression) (cell : Z -> bool) (m' : BinaryMatrix) :
  represents x cell ->
  n_bitpacks_ (base m') = n_bitpacks_ (expr_base x) ->
  Z.of_nat (length (data_ m')) = n_bitpacks_ (expr_base x) ->
  (forall p, 0 <= p < n_bitpacks_ (expr_base x) ->
     expr_bitpack x p = Ok (word_at (data_ m') p)) ->
  (forall k, 0 <= k < size (expr_base x) -> bit_of (data_ m') k = cell k) /\
  (0 <= n_rows_ (base m') -> 0 <= n_cols_ (base m') ->
   size (base m') = size (expr_base x) ->
   well_formed m' = true /\
   forall i j, 0 <= i < n_rows_ (base m') -> 0 <= j < n_cols_ (base m') ->
     BinaryMatrix_call m' i j = Ok (cell (i * n_cols_ (base m') + j))).
Proof.
  intros (HR & HC & Hsz & Hnb & _ & Hwords) Hnb' Hlen Hcopied.
  assert (Hsz0 : 0 <= size (expr_base x)) by (unfold size; nia).
  assert (Hq : 0 <= size (expr_base x) / PackSize) by (apply Z.div_pos; [lia | reflexivity]).
  assert (Hbits : forall k, 0 <= k < size (expr_base x) -> bit_of (data_ m') k = cell k).
  { intros k Hk. rewrite bit_of_word.
    pose proof (Z.div_mod k PackSize ltac:(discriminate)) as Hdm.
    pose proof (Z.mod_pos_bound k PackSize ltac:(reflexivity)) as Hmod.
    assert (Hp : 0 <= k / PackSize < n_bitpacks_ (expr_base x)).
    { split; [apply Z.div_pos; [lia | reflexivity] |].
      rewrite Hnb. assert (k / PackSize <= size (expr_base x) / PackSize)
        by (apply Z.div_le_mono; [reflexivity | lia]). lia. }
    destruct (Hwords (k / PackSize) Hp) as (w & Hw & _ & Hb).
    rewrite (Hcopied _ Hp) in Hw. injection Hw as ->.
    rewrite Hb by (unfold PackSize in *; lia). f_equal. unfold PackSize in *. lia. }
  split; [exact Hbits |].
  intros Hrows Hcols Hsize.
  assert (Hwf : well_formed m' = true).
  { apply well_formed_of_facts; rewrite ?Hsize, ?Hnb'; try assumption; try lia.
    apply words_are_words. intros p Hp.
    destruct (Hwords p ltac:(lia)) as (w & Hw & Hrange & _).
    rewrite (Hcopied p ltac:(lia)) in Hw. injection Hw as ->. exact Hrange. }
  split; [exact Hwf |].
  intros i j Hi Hj. destruct (cell_is_bit m' i j Hwf Hi Hj) as [-> Hk].
  rewrite Hbits by (rewrite <- Hsize; exact Hk). reflexivity.
Qed.



(** ** Vectors built from a range *)

Lemma set_vector_bits (m : BinaryMatrix) (i : Z) :
  well_formed m = true -> Cols (base m) = 1 -> n_cols_ (base m) = 1 ->
  0 <= i < n_rows_ (base m) ->
  exists m', set_vector m i = Ok m' /\ well_formed m' = true /\ base m' = base m /\
    forall k, 0 <= k -> bit_of (data_ m') k = bit_of (data_ m) k || (k =? i).
Proof.
  intros Hwf HC Hc Hi.
  destruct (set_bit_cell m i 0 Hwf Hi ltac:(lia)) as (m' & Hset & Hwf' & Hb & Hbits).
  exists m'. split.
  - unfold set_vector, set. rewrite HC. cbn [Z.eqb Pos.eqb fdapde_static_assert bind].
    rewrite in_bounds_true by lia. exact Hset.
  - split; [exact Hwf' |]. split; [exact Hb |]. intros k Hk.
    rewrite Hbits by exact Hk. rewrite Hc. do 2 f_equal. lia.
Qed.

Lemma vector_element (m : BinaryMatrix) (i : Z) :
  well_formed m = true -> Cols (base m) = 1 -> n_cols_ (base m) = 1 ->
  0 <= i < n_rows_ (base m) ->
  BinaryMatrix_subscript m i = Ok (bit_of (data_ m) i).
Proof.
  intros Hwf HC Hc Hi. unfold BinaryMatrix_subscript. rewrite HC. cbn [Z.eqb Pos.eqb].
  destruct (cell_is_bit m i 0 Hwf Hi ltac:(lia)) as [-> _]. rewrite Hc. do 2 f_equal. lia.
Qed.

(** The vector of [n] elements that the vector constructors start from. *)
Lemma zero_vector (n : Z) (m : BinaryMatrix) :
  0 <= n <= INT_MAX ->
  m = mkMatrix (mkBase Dynamic 1 n 1 (1 + n / PackSize))
        (replicate (Z.to_nat (1 + n / PackSize)) 0) ->
  well_formed m = true /\ Cols (base m) = 1 /\ n_cols_ (base m) = 1 /\
  n_rows_ (base m) = n /\ forall k, bit_of (data_ m) k = false.
Proof.
  intros Hn Hm.
  destruct (zero_matrix Dynamic 1 n 1 m ltac:(lia) ltac:(lia) ltac:(lia)) as [Hwf Hbits].
  { rewrite Hm, Z.mul_1_r. reflexivity. }
  rewrite Hm in *. repeat split; assumption.
Qed.

Lemma iterator_read_lookup {A : Type} (l : list A) (i : Z) :
  0 <= i -> iterator_read l i = match l !! Z.to_nat i with Some v => Ok v | None => Undefined end.
Proof. intros Hi. unfold iterator_read. destruct (Z.ltb_spec i 0); [lia | reflexivity]. Qed.

(** The loop of the vector constructor on a range of exactly [n_rows]
    elements. *)
Lemma iterator_loop_exact (l : list bool) :
  forall (fuel : nat) (i : Z) (m : BinaryMatrix),
    well_formed m = true -> Cols (base m) = 1 -> n_cols_ (base m) = 1 ->
    n_rows_ (base m) = Z.of_nat (length l) ->
    0 <= i <= Z.of_nat (length l) -> Z.of_nat (length l) < i + Z.of_nat fuel ->
    exists m',
      iterator_loop l (Z.of_nat (length l)) (fun i m1 => set_vector m1 i) fuel i m = Ok m' /\
      well_formed m' = true /\ base m' = base m /\
      forall k, 0 <= k ->
        bit_of (data_ m') k
        = bit_of (data_ m) k || ((i <=? k) && default false (l !! Z.to_nat k)).
Proof.
  induction fuel as [| fuel IH]; intros i m Hwf HC Hc Hrows Hi Hfuel; [lia |].
  cbn [iterator_loop].
  destruct (Z.eqb_spec i (Z.of_nat (length l))) as [Hend | Hmore].
  - destruct (Z.ltb_spec i (Z.of_nat (length l))); [lia |]. cbn [negb orb].
    exists m. split; [reflexivity |]. split; [exact Hwf |]. split; [reflexivity |].
    intros k Hk. destruct (Z.leb_spec i k) as [Hle | Hgt]; [| symmetry; apply orb_false_r].
    rewrite (proj2 (lookup_ge_None l (Z.to_nat k))) by lia. symmetry. apply orb_false_r.
  - cbn [negb orb]. rewrite iterator_read_lookup by lia.
    destruct (l !! Z.to_nat i) as [v |] eqn:Hv;
      [| apply lookup_ge_None in Hv; lia].
    cbn [bind].
    assert (Hstep : exists m1,
               (if v then set_vector m i else Ok m) = Ok m1 /\
               well_formed m1 = true /\ base m1 = base m /\
               forall k, 0 <= k -> bit_of (data_ m1) k = bit_of (data_ m) k || ((k =? i) && v)).
    { destruct v.
      - destruct (set_vector_bits m i Hwf HC Hc ltac:(lia)) as (m1 & Hs & Hwf1 & Hb1 & Hbits1).
        exists m1. repeat split; try assumption. intros k Hk.
        rewrite Hbits1 by exact Hk. rewrite andb_true_r. reflexivity.
      - exists m. repeat split; try assumption. intros k Hk.
        rewrite andb_false_r, orb_false_r. reflexivity. }
    destruct Hstep as (m1 & -> & Hwf1 & Hb1 & Hbits1). cbn [bind].
    destruct (IH (i + 1) m1 Hwf1) as (m' & Hrun & Hwf' & Hb' & Hbits');
      rewrite ?Hb1; try assumption; try lia.
    exists m'. split; [exact Hrun |]. split; [exact Hwf' |]. split; [congruence |].
    intros k Hk. rewrite Hbits', Hbits1 by exact Hk. rewrite <- orb_assoc. f_equal.
    destruct (Z.eqb_spec k i) as [-> | Hne].
    + rewrite Hv. cbn [default]. destruct (Z.leb_spec (i + 1) i); [lia |].
      destruct (Z.leb_spec i i); [| lia]. destruct v; reflexivity.
    + cbn [andb orb]. destruct (Z.leb_spec (i + 1) k), (Z.leb_spec i k); try lia; reflexivity.
Qed.

(** The same loop on a range of fewer than [n] elements ends by reading
    the end of the range. *)
Lemma iterator_loop_short (l : list bool) (n : Z) :
  Z.of_nat (length l) < n ->
  forall (fuel : nat) (i : Z) (m : BinaryMatrix),
    well_formed m = true -> Cols (base m) = 1 -> n_cols_ (base m) = 1 ->
    n_rows_ (base m) = n ->
    0 <= i <= Z.of_nat (length l) -> Z.of_nat (length l) < i + Z.of_nat fuel ->
    iterator_loop l n (fun i m1 => set_vector m1 i) fuel i m = Undefined.
Proof.
  intros Hshort. induction fuel as [| fuel IH]; intros i m Hwf HC Hc Hrows Hi Hfuel; [lia |].
  cbn [iterator_loop].
  destruct (Z.ltb_spec i n); [| lia]. rewrite orb_true_r.
  rewrite iterator_read_lookup by lia.
  destruct (l !! Z.to_nat i) as [v |] eqn:Hv; [| reflexivity].
  pose proof (lookup_lt_Some _ _ _ Hv) as Hlt. cbn [bind].
  destruct v.
  - destruct (set_vector_bits m i Hwf HC Hc ltac:(lia)) as (m1 & -> & Hwf1 & Hb1 & _).
    cbn [bind]. apply IH; rewrite ?Hb1; try assumption; lia.
  - cbn [bind]. apply IH; try assumption; lia.
Qed.

Lemma vector_constructor_start (l : list bool) (n : Z) :
  0 <= n <= INT_MAX ->
  BinaryMatrix_of_range_vector Dynamic 1 l n
  = iterator_loop l n (fun i m1 => set_vector m1 i) (iterator_fuel l n) 0
      (mkMatrix (mkBase Dynamic 1 n 1 (1 + n / PackSize))
         (replicate (Z.to_nat (1 + n / PackSize)) 0)).
Proof.
  intros [Hn Hmax]. unfold BinaryMatrix_of_range_vector.
  cbn [fdapde_static_assert bind Z.eqb Pos.eqb andb Dynamic].
  rewrite BinaryMatrix_sized_in_range by (try reflexivity; lia).
  cbn [bind]. unfold resize_vector.
  cbn [base Rows Cols BinMtxBase_init Z.eqb Pos.eqb andb Dynamic].
  rewrite storage_count_nonneg by exact Hn.
  rewrite std_ceil_quot by exact Hn. reflexivity.
Qed.

(** The vector constructor from a range: on a range of exactly [n_rows]
    elements it builds the vector whose [i]-th element is the truth value
    of the [i]-th element of the range; on a shorter range it reads the end
    of the range. *)
Theorem vector_of_range_copies_the_range :
  forall (l : list bool) (n : Z),
    0 <= n <= INT_MAX ->
    (Z.of_nat (length l) = n ->
     exists v, BinaryMatrix_of_range_vector Dynamic 1 l n = Ok v /\
       well_formed v = true /\ n_rows_ (base v) = n /\ n_cols_ (base v) = 1 /\
       forall (i : nat) (b : bool),
         l !! i = Some b -> BinaryMatrix_subscript v (Z.of_nat i) = Ok b) /\
    (Z.of_nat (length l) < n ->
     BinaryMatrix_of_range_vector Dynamic 1 l n = Undefined).
Proof.
  intros l n Hn.
  destruct (zero_vector n _ Hn eq_refl) as (Hwf & HC & Hc & Hrows & Hzero).
  rewrite (vector_constructor_start l n) by lia. split.
  - intros Hlen. subst n.
    destruct (iterator_loop_exact l (iterator_fuel l (Z.of_nat (length l))) 0 _ Hwf HC Hc Hrows)
      as (v & Hrun & Hwfv & Hb & Hbits); [lia | unfold iterator_fuel; lia |].
    exists v. split; [exact Hrun |]. split; [exact Hwfv |].
    split; [rewrite Hb; reflexivity |]. split; [rewrite Hb; reflexivity |].
    intros i b Hi. pose proof (lookup_lt_Some _ _ _ Hi) as Hlt.
    rewrite vector_element; rewrite ?Hb; try assumption; [| cbn; lia].
    rewrite Hbits, Hzero by lia. rewrite Nat2Z.id, Hi.
    destruct (Z.leb_spec 0 (Z.of_nat i)); [reflexivity | lia].
  - intros Hshort.
    apply (iterator_loop_short l n Hshort); try assumption; [lia |].
    unfold iterator_fuel. lia.
Qed.

Lemma vector_of_range_copies_the_range_witness :
  (exists v, BinaryMatrix_of_range_vector Dynamic 1 [true; false; true] 3 = Ok v /\
     BinaryMatrix_subscript v 2 = Ok true) /\
  BinaryMatrix_of_range_vector Dynamic 1 [true; false; true] 4 = Undefined.
Proof.
  split.
  - destruct (proj1 (vector_of_range_copies_the_range [true; false; true] 3
                       ltac:(unfold INT_MAX; lia)) eq_refl)
      as (v & Hrun & _ & _ & _ & Hcells).
    exists v. split; [exact Hrun |]. apply (Hcells 2%nat true). reflexivity.
  - apply (proj2 (vector_of_range_copies_the_range [true; false; true] 4
                    ltac:(unfold INT_MAX; lia))).
    cbn. lia.
Defined.

(** [make_binary_vector(first, last, c)] builds the vector of as many
    elements as the range has, whose [i]-th element is true exactly when
    the [i]-th element of the range equals [c]. *)
Theorem make_binary_vector_marks_the_equal_elements :
  forall (A : Type) (eqb : A -> A -> bool) (values : list A) (c : A),
    Z.of_nat (length values) <= INT_MAX ->
    exists v, make_binary_vector eqb values c = Ok v /\
      well_formed v = true /\
      n_rows_ (base v) = Z.of_nat (length values) /\ n_cols_ (base v) = 1 /\
      forall (i : nat) (a : A),
        values !! i = Some a -> BinaryMatrix_subscript v (Z.of_nat i) = Ok (eqb a c).
Proof.
  intros A eqb values c Hlen.
  set (n := Z.of_nat (length values)) in *.
  assert (Hn : 0 <= n <= INT_MAX) by lia.
  destruct (zero_vector n _ Hn eq_refl) as (Hwf & HC & Hc & Hrows & Hzero).
  assert (Hstart : BinaryMatrix_vector Dynamic 1 n
                   = Ok (mkMatrix (mkBase Dynamic 1 n 1 (1 + n / PackSize))
                           (replicate (Z.to_nat (1 + n / PackSize)) 0))).
  { unfold BinaryMatrix_vector.
    cbn [fdapde_static_assert bind Z.eqb Pos.eqb andb Dynamic].
    rewrite BinaryMatrix_sized_in_range by (try reflexivity; lia).
    unfold BinMtxBase_init.
    rewrite !Z.mul_1_r, !std_ceil_quot by lia. reflexivity. }
  unfold make_binary_vector. fold n. rewrite Hstart. cbn [bind].
  destruct (for_range_invariant
              (fun i (m : BinaryMatrix) =>
                 well_formed m = true /\
                 base m = mkBase Dynamic 1 n 1 (1 + n / PackSize) /\
                 forall k, 0 <= k ->
                   bit_of (data_ m) k
                   = (k <? i) && match values !! Z.to_nat k with
                                 | Some a => eqb a c
                                 | None => false
                                 end)
              (fun i vec1 =>
                 let* v := iterator_read values i in
                 if eqb v c then set_vector vec1 i else Ok vec1)
              n (mkMatrix (mkBase Dynamic 1 n 1 (1 + n / PackSize))
                   (replicate (Z.to_nat (1 + n / PackSize)) 0)))
    as (v & Hrun & Hwfv & Hb & Hbits).
  - lia.
  - split; [exact Hwf |]. split; [reflexivity |]. intros k Hk. rewrite Hzero.
    destruct (Z.ltb_spec k 0); [lia | reflexivity].
  - intros i m Hi (Hwfm & Hbm & Hbitsm).
    rewrite iterator_read_lookup by lia.
    destruct (values !! Z.to_nat i) as [a |] eqn:Ha;
      [| apply lookup_ge_None in Ha; unfold n in Hi; lia].
    cbn [bind].
    assert (Hstep : exists m1,
               (if eqb a c then set_vector m i else Ok m) = Ok m1 /\
               well_formed m1 = true /\ base m1 = base m /\
               forall k, 0 <= k ->
                 bit_of (data_ m1) k = bit_of (data_ m) k || ((k =? i) && eqb a c)).
    { destruct (eqb a c).
      - assert (HCm : Cols (base m) = 1) by (rewrite Hbm; reflexivity).
        assert (Hcm : n_cols_ (base m) = 1) by (rewrite Hbm; reflexivity).
        assert (Him : 0 <= i < n_rows_ (base m)) by (rewrite Hbm; cbn; lia).
        destruct (set_vector_bits m i Hwfm HCm Hcm Him) as (m1 & Hs & Hwf1 & Hb1 & Hbits1).
        exists m1. repeat split; try assumption. intros k Hk.
        rewrite Hbits1 by exact Hk. rewrite andb_true_r. reflexivity.
      - exists m. repeat split; try assumption. intros k Hk.
        rewrite andb_false_r, orb_false_r. reflexivity. }
    destruct Hstep as (m1 & -> & Hwf1 & Hb1 & Hbits1).
    exists m1. split; [reflexivity |]. split; [exact Hwf1 |]. split; [congruence |].
    intros k Hk. rewrite Hbits1, Hbitsm by exact Hk.
    destruct (Z.eqb_spec k i) as [-> | Hne].
    + rewrite Ha. destruct (Z.ltb_spec i i); [lia |].
      destruct (Z.ltb_spec i (i + 1)); [| lia]. reflexivity.
    + rewrite orb_false_r.
      destruct (Z.ltb_spec k i), (Z.ltb_spec k (i + 1)); try lia; reflexivity.
  - exists v. split; [exact Hrun |]. split; [exact Hwfv |].
    split; [rewrite Hb; reflexivity |]. split; [rewrite Hb; reflexivity |].
    intros i a Hi. pose proof (lookup_lt_Some _ _ _ Hi) as Hlt.
    rewrite vector_element; rewrite ?Hb; try reflexivity; try assumption;
      [| cbn; unfold n; lia].
    rewrite Hbits by lia. rewrite Nat2Z.id, Hi.
    destruct (Z.ltb_spec (Z.of_nat i) n); [reflexivity | unfold n in *; lia].
Qed.

Lemma make_binary_vector_marks_the_equal_elements_witness :
  exists v, make_binary_vector Z.eqb [3; 7; 3; 1] 3 = Ok v /\
    BinaryMatrix_subscript v 2 = Ok (3 =? 3).
Proof.
  destruct (make_binary_vector_marks_the_equal_elements Z Z.eqb [3; 7; 3; 1] 3
              ltac:(cbn; unfold INT_MAX; lia)) as (v & Hrun & _ & _ & _ & Hcells).
  exists v. split; [exact Hrun |]. apply (Hcells 2%nat 3). reflexivity.
Defined.

(** ** [set()] and [clear()] of a block *)

Lemma set_writes (m1 : BinaryMatrix) (i j : Z) :
  well_formed m1 = true ->
  0 <= i < n_rows_ (base m1) -> 0 <= j < n_cols_ (base m1) ->
  exists m', set m1 i j = Ok m' /\ well_formed m' = true /\ base m' = base m1 /\
    forall k, 0 <= k ->
      bit_of (data_ m') k = if k =? i * n_cols_ (base m1) + j then true else bit_of (data_ m1) k.
Proof.
  intros Hwf Hi Hj. unfold set. rewrite in_bounds_true by lia. cbn [fdapde_assert bind].
  apply set_bit_writes; assumption.
Qed.

Lemma clear_writes (m1 : BinaryMatrix) (i j : Z) :
  well_formed m1 = true ->
  0 <= i < n_rows_ (base m1) -> 0 <= j < n_cols_ (base m1) ->
  exists m', clear m1 i j = Ok m' /\ well_formed m' = true /\ base m' = base m1 /\
    forall k, 0 <= k ->
      bit_of (data_ m') k = if k =? i * n_cols_ (base m1) + j then false else bit_of (data_ m1) k.
Proof.
  intros Hwf Hi Hj. unfold clear. rewrite in_bounds_true by lia. cbn [fdapde_assert bind].
  apply clear_bit_writes; assumption.
Qed.

Section BlockFill.

Variables (st : store) (target : nat) (mt : BinaryMatrix).
Variables (b : BinMtxBase) (sr sc : Z).
Variable write : BinaryMatrix -> Z -> Z -> outcome BinaryMatrix.
Variable view_write : store -> Xpr -> Z -> Z -> outcome store.
Variable v : bool.

Hypothesis target_stored : st !! target = Some mt.
Hypothesis target_wf : well_formed mt = true.
Hypothesis start_row_ok : 0 <= sr.
Hypothesis start_col_ok : 0 <= sc.
Hypothesis block_rows_ok : 0 <= n_rows_ b /\ sr + n_rows_ b <= n_rows_ (base mt).
Hypothesis block_cols_ok : 0 <= n_cols_ b /\ sc + n_cols_ b <= n_cols_ (base mt).
Hypothesis through_the_view :
  forall st' i j,
    view_write st' (XBlock b (XMatrix target) sr sc) i j
    = (let* m := deref st' target in
       let* m' := write m (i + sr) (j + sc) in
       Ok (<[target := m']> st')).
Hypothesis writes_one_cell :
  forall m1 i j,
    well_formed m1 = true ->
    0 <= i < n_rows_ (base m1) -> 0 <= j < n_cols_ (base m1) ->
    exists m', write m1 i j = Ok m' /\ well_formed m' = true /\ base m' = base m1 /\
      forall k, 0 <= k ->
        bit_of (data_ m') k = if k =? i * n_cols_ (base m1) + j then v else bit_of (data_ m1) k.

(** The two loops of [set()] and [clear()] of a block over a stored
    matrix. *)
Lemma block_fill_loops :
  exists st' m',
    for_range (n_rows_ b)
      (fun i st1 =>
         for_range (n_cols_ b)
           (fun j st2 => view_write st2 (XBlock b (XMatrix target) sr sc) i j) st1) st
    = Ok st' /\
    st' !! target = Some m' /\
    (forall r, r <> target -> st' !! r = st !! r) /\
    well_formed m' = true /\ base m' = base mt /\
    forall a c, 0 <= a < n_rows_ (base mt) -> 0 <= c < n_cols_ (base mt) ->
      BinaryMatrix_call m' a c =
      if (sr <=? a) && (a <? sr + n_rows_ b) && (sc <=? c) && (c <? sc + n_cols_ b)
      then Ok v else BinaryMatrix_call mt a c.
Proof.
  set (N := n_cols_ (base mt)) in *.
  pose (visited := assigned_before (fun _ _ => true) N sr sc (n_cols_ b)).
  pose (P := fun (i j : Z) (st' : store) =>
               exists m', st' !! target = Some m' /\
                 (forall r, r <> target -> st' !! r = st !! r) /\
                 well_formed m' = true /\ base m' = base mt /\
                 forall k, 0 <= k ->
                   bit_of (data_ m') k = if visited i j k then v else bit_of (data_ mt) k).
  destruct (for_range_invariant (fun i st1 => P i 0 st1)
              (fun i st1 =>
                 for_range (n_cols_ b)
                   (fun j st2 => view_write st2 (XBlock b (XMatrix target) sr sc) i j) st1)
              (n_rows_ b) st (proj1 block_rows_ok))
    as (st' & Hrun & m' & Htgt & Hothers & Hwf & Hbase & Hbits).
  - exists mt. split; [exact target_stored |]. split; [reflexivity |].
    split; [exact target_wf |]. split; [reflexivity |].
    intros k Hk. unfold visited. rewrite assigned_before_start. reflexivity.
  - intros i st1 Hi Hinv.
    destruct (for_range_invariant (fun j st2 => P i j st2)
                (fun j st2 => view_write st2 (XBlock b (XMatrix target) sr sc) i j)
                (n_cols_ b) st1 (proj1 block_cols_ok) Hinv)
      as (st2 & Hrun & m2 & Htgt & Hothers & Hwf & Hbase & Hbits).
    + intros j st2 Hj (m2 & Htgt & Hothers & Hwf & Hbase & Hbits).
      rewrite through_the_view. unfold deref. rewrite Htgt. cbn [bind].
      destruct (writes_one_cell m2 (i + sr) (j + sc) Hwf) as (m3 & -> & Hwf3 & Hb3 & Hbits3);
        [rewrite Hbase; lia | rewrite Hbase; fold N; lia |].
      cbn [bind]. eexists. split; [reflexivity |].
      exists m3. split; [apply list_lookup_insert_eq; apply (lookup_lt_Some _ _ _ Htgt) |].
      split.
      { intros r Hr. etransitivity; [apply list_lookup_insert_ne; congruence |].
        apply Hothers. exact Hr. }
      split; [exact Hwf3 |]. split; [congruence |].
      intros k Hk. rewrite Hbits3, Hbits by exact Hk. rewrite Hbase. fold N.
      unfold visited. rewrite assigned_before_next_cell by lia.
      rewrite andb_true_r.
      destruct (Z.eqb_spec k ((i + sr) * N + (j + sc))); [rewrite orb_true_r; reflexivity |].
      rewrite orb_false_r. reflexivity.
    + exists st2. split; [exact Hrun |]. exists m2. repeat split; try assumption.
      intros k Hk. rewrite Hbits by exact Hk. unfold visited.
      rewrite assigned_before_next_row. reflexivity.
  - exists st', m'. split; [exact Hrun |]. split; [exact Htgt |]. split; [exact Hothers |].
    split; [exact Hwf |]. split; [exact Hbase |].
    intros a c Ha Hc.
    destruct (cell_is_bit m' a c Hwf) as [-> Hk]; rewrite ?Hbase; try assumption.
    destruct (cell_is_bit mt a c target_wf Ha Hc) as [-> _].
    fold N. rewrite Hbits by (rewrite Hbase in Hk; fold N in Hk; lia).
    unfold visited, assigned_before.
    destruct (row_major_index N a c ltac:(fold N in Hc; lia)) as [-> ->].
    destruct (Z.leb_spec sr a), (Z.ltb_spec a (sr + n_rows_ b)), (Z.leb_spec sc c),
      (Z.ltb_spec c (sc + n_cols_ b)), (Z.leb_spec 0 (a - sr)), (Z.leb_spec 0 (c - sc)),
      (Z.ltb_spec (c - sc) (n_cols_ b)), (Z.ltb_spec (a - sr) (n_rows_ b)),
      (Z.eqb_spec (a - sr) (n_rows_ b)), (Z.ltb_spec (c - sc) 0);
      try lia; cbn [andb orb]; reflexivity.
Qed.

End BlockFill.

(** [set()] and [clear()] of a block that lies inside a stored well-formed
    matrix succeed; they leave the other matrices alone, make the cells of
    the block true, respectively false, and keep every cell of the matrix
    outside the block. *)
Theorem block_set_and_clear_stay_in_the_block :
  forall (st : store) (target : nat) (mt : BinaryMatrix) (b : BinMtxBase) (sr sc : Z),
    st !! target = Some mt -> well_formed mt = true ->
    0 <= sr -> 0 <= sc ->
    0 <= n_rows_ b /\ sr + n_rows_ b <= n_rows_ (base mt) ->
    0 <= n_cols_ b /\ sc + n_cols_ b <= n_cols_ (base mt) ->
    (exists st' m',
        block_set_all st (XBlock b (XMatrix target) sr sc) = Ok st' /\
        st' !! target = Some m' /\
        (forall r, r <> target -> st' !! r = st !! r) /\
        well_formed m' = true /\ base m' = base mt /\
        forall a c, 0 <= a < n_rows_ (base mt) -> 0 <= c < n_cols_ (base mt) ->
          BinaryMatrix_call m' a c =
          if (sr <=? a) && (a <? sr + n_rows_ b) && (sc <=? c) && (c <? sc + n_cols_ b)
          then Ok true else BinaryMatrix_call mt a c) /\
    (exists st' m',
        block_clear_all st (XBlock b (XMatrix target) sr sc) = Ok st' /\
        st' !! target = Some m' /\
        (forall r, r <> target -> st' !! r = st !! r) /\
        well_formed m' = true /\ base m' = base mt /\
        forall a c, 0 <= a < n_rows_ (base mt) -> 0 <= c < n_cols_ (base mt) ->
          BinaryMatrix_call m' a c =
          if (sr <=? a) && (a <? sr + n_rows_ b) && (sc <=? c) && (c <? sc + n_cols_ b)
          then Ok false else BinaryMatrix_call mt a c).
Proof.
  intros st target mt b sr sc Hs Hwf Hsr Hsc Hrows Hcols. split.
  - apply (block_fill_loops st target mt b sr sc set xpr_set true Hs Hwf Hsr Hsc Hrows Hcols).
    + intros st' i j. reflexivity.
    + apply set_writes.
  - apply (block_fill_loops st target mt b sr sc clear xpr_clear false
             Hs Hwf Hsr Hsc Hrows Hcols).
    + intros st' i j. reflexivity.
    + apply clear_writes.
Qed.

Lemma block_set_and_clear_stay_in_the_block_witness :
  exists st' m',
    block_clear_all [mkMatrix (BinMtxBase_init Dynamic Dynamic 3 4) [4095]]
      (XBlock (BinMtxBase_init 1 Dynamic 1 4) (XMatrix 0) 1 0) = Ok st' /\
    st' !! 0%nat = Some m' /\
    BinaryMatrix_call m' 1 2 = Ok false /\
    BinaryMatrix_call m' 2 2
    = BinaryMatrix_call (mkMatrix (BinMtxBase_init Dynamic Dynamic 3 4) [4095]) 2 2.
Proof.
  destruct (proj2 (block_set_and_clear_stay_in_the_block
                     [mkMatrix (BinMtxBase_init Dynamic Dynamic 3 4) [4095]] 0
                     (mkMatrix (BinMtxBase_init Dynamic Dynamic 3 4) [4095])
                     (BinMtxBase_init 1 Dynamic 1 4) 1 0 eq_refl eq_refl
                     ltac:(lia) ltac:(lia) ltac:(cbn; lia) ltac:(cbn; lia)))
    as (st' & m' & Hrun & Hm' & _ & _ & _ & Hcells).
  exists st', m'. split; [exact Hrun |]. split; [exact Hm' |]. split.
  - apply (Hcells 1 2); cbn; lia.
  - apply (Hcells 2 2); cbn; lia.
Defined.

(** ** Comparison of expressions *)

(** Away from the word boundary [==] decides whether two expressions of
    equal extents denote the same coefficients, and [!=] is its negation. *)
Lemma comparison_of_represented (st : store) (e1 e2 : Xpr) (x1 x2 : Expression)
      (c1 c2 : Z -> bool) :
  expression_of st e1 = Ok x1 -> expression_of st e2 = Ok x2 ->
  represents x1 c1 -> represents x2 c2 ->
  comparable (expr_base x1) (expr_base x2) = true ->
  n_rows_ (expr_base x1) = n_rows_ (expr_base x2) ->
  n_cols_ (expr_base x1) = n_cols_ (expr_base x2) ->
  size (expr_base x1) mod PackSize <> 0 ->
  exists b,
    operator_eq st e1 e2 = Ok b /\
    operator_neq st e1 e2 = Ok (negb b) /\
    (b = true <-> forall k, 0 <= k < size (expr_base x1) -> c1 k = c2 k).
Proof.
  intros Hx1 Hx2 (HR & HC & Hsz & Hnb1 & _ & Hwords1) (_ & _ & _ & Hnb2 & _ & Hwords2)
    Hcmp Hrows Hcols Hmod.
  destruct (expression_of_inv _ _ _ Hx1) as (Hb1 & _ & Hpack1).
  destruct (expression_of_inv _ _ _ Hx2) as (Hb2 & _ & Hpack2).
  set (b1 := expr_base x1) in *. set (b2 := expr_base x2) in *.
  assert (Hsize : size b2 = size b1) by (unfold size; congruence).
  rewrite Hsize in Hnb2, Hwords2.
  set (sz := size b1) in *.
  assert (Hsz0 : 0 <= sz) by (unfold sz, size; nia).
  pose proof (Z.div_mod sz PackSize ltac:(discriminate)) as Hdm.
  pose proof (Z.mod_pos_bound sz PackSize ltac:(reflexivity)) as Hmodr.
  assert (Hq : 0 <= sz / PackSize) by (apply Z.div_pos; [lia | reflexivity]).
  set (f1 := fun k => match xpr_bitpack st e1 k with Ok w => w | _ => 0 end).
  set (f2 := fun k => match xpr_bitpack st e2 k with Ok w => w | _ => 0 end).
  assert (Hread1 : forall k, 0 <= k < n_bitpacks_ b1 ->
            xpr_bitpack st e1 k = Ok (f1 k) /\ 0 <= f1 k < 2 ^ PackSize /\
            forall t, 0 <= t < PackSize -> k * PackSize + t < sz ->
              Z.testbit (f1 k) t = c1 (k * PackSize + t)).
  { intros k Hk. destruct (Hwords1 k Hk) as (w & Hw & Hrange & Hbits).
    rewrite Hpack1 in Hw. unfold f1. rewrite Hw. repeat split; try assumption; lia. }
  assert (Hread2 : forall k, 0 <= k < n_bitpacks_ b1 ->
            xpr_bitpack st e2 k = Ok (f2 k) /\ 0 <= f2 k < 2 ^ PackSize /\
            forall t, 0 <= t < PackSize -> k * PackSize + t < sz ->
              Z.testbit (f2 k) t = c2 (k * PackSize + t)).
  { intros k Hk. destruct (Hwords2 k) as (w & Hw & Hrange & Hbits); [lia |].
    rewrite Hpack2 in Hw. unfold f2. rewrite Hw. repeat split; try assumption; lia. }
  destruct (comparison_masked st e1 e2 b1 b2 f1 f2 (sz / PackSize) Hb1 Hb2 Hcmp
              Hrows Hcols ltac:(unfold bitpacks; lia) Hq
              ltac:(intros k Hk; split; [apply Hread1 | apply Hread2]; lia)
              (sz mod PackSize) ltac:(fold sz; lia) ltac:(lia)
              ltac:(apply Hread1; lia) ltac:(apply Hread2; lia))
    as (b & Heq & Hneq & Hb).
  exists b. split; [exact Heq |]. split; [exact Hneq |]. rewrite Hb. split.
  - intros [Hfull Hlast] k Hk.
    pose proof (Z.div_mod k PackSize ltac:(discriminate)) as Hdk.
    pose proof (Z.mod_pos_bound k PackSize ltac:(reflexivity)) as Hmk.
    assert (Hp : 0 <= k / PackSize <= sz / PackSize).
    { split; [apply Z.div_pos; [lia | reflexivity] |].
      apply Z.div_le_mono; [reflexivity | lia]. }
    destruct (Hread1 (k / PackSize) ltac:(lia)) as (_ & _ & Hbits1).
    destruct (Hread2 (k / PackSize) ltac:(lia)) as (_ & _ & Hbits2).
    replace k with (k / PackSize * PackSize + k mod PackSize) by lia.
    rewrite <- Hbits1, <- Hbits2 by lia.
    destruct (Z.eq_dec (k / PackSize) (sz / PackSize)) as [Hlastp | Hfullp].
    + rewrite Hlastp.
      apply (proj1 (masked_equal_iff (sz mod PackSize) _ _ ltac:(lia)) Hlast).
      rewrite Hlastp in Hdk. lia.
    + rewrite Hfull by lia. reflexivity.
  - intros Hcells. split.
    + intros k Hk.
      destruct (Hread1 k ltac:(lia)) as (_ & Hr1 & Hbits1).
      destruct (Hread2 k ltac:(lia)) as (_ & Hr2 & Hbits2).
      apply (word_equal_iff _ _ Hr1 Hr2). intros t Ht.
      rewrite Hbits1, Hbits2 by (unfold PackSize in *; lia).
      apply Hcells. unfold PackSize in *. lia.
    + apply masked_equal_iff; [lia |]. intros t Ht.
      destruct (Hread1 (sz / PackSize) ltac:(lia)) as (_ & _ & Hbits1).
      destruct (Hread2 (sz / PackSize) ltac:(lia)) as (_ & _ & Hbits2).
      rewrite Hbits1, Hbits2 by (unfold PackSize in *; lia).
      apply Hcells. unfold PackSize in *. lia.
Qed.

Lemma comparable_same_type (b1 b2 b : BinMtxBase) :
  Rows b1 = Rows b -> Cols b1 = Cols b -> Rows b2 = Rows b -> Cols b2 = Cols b ->
  comparable b b = true -> comparable b1 b2 = true.
Proof. unfold comparable. intros -> -> -> ->. exact (fun H => H). Qed.

(** De Morgan's laws through the operators: for two stored well-formed
    matrices of the same type and extents whose size is not a multiple of
    the word width, [~(m1 & m2) == (~m1 | ~m2)] and
    [~(m1 | m2) == (~m1 & ~m2)] are both true. *)
Theorem de_morgan_laws_hold :
  forall (st : store) (r1 r2 : nat) (m1 m2 : BinaryMatrix),
    st !! r1 = Some m1 -> st !! r2 = Some m2 ->
    well_formed m1 = true -> well_formed m2 = true ->
    base m1 = base m2 ->
    comparable (base m1) (base m1) = true ->
    size (base m1) mod PackSize <> 0 ->
    (let* a := operator_and st (XMatrix r1) (XMatrix r2) in
     let* lhs := operator_not st a in
     let* n1 := operator_not st (XMatrix r1) in
     let* n2 := operator_not st (XMatrix r2) in
     let* rhs := operator_or st n1 n2 in
     operator_eq st lhs rhs) = Ok true /\
    (let* o := operator_or st (XMatrix r1) (XMatrix r2) in
     let* lhs := operator_not st o in
     let* n1 := operator_not st (XMatrix r1) in
     let* n2 := operator_not st (XMatrix r2) in
     let* rhs := operator_and st n1 n2 in
     operator_eq st lhs rhs) = Ok true.
Proof.
  intros st r1 r2 m1 m2 Hs1 Hs2 Hwf1 Hwf2 Hbase Hcmp Hmod.
  pose proof (expression_of_base st (XMatrix r1) (base m1) (matrix_base st r1 m1 Hs1)) as Hx1.
  pose proof (expression_of_base st (XMatrix r2) (base m2) (matrix_base st r2 m2 Hs2)) as Hx2.
  destruct (matrix_represents st r1 m1 _ Hs1 Hwf1 Hx1) as [Hb1 Hrep1].
  destruct (matrix_represents st r2 m2 _ Hs2 Hwf2 Hx2) as [Hb2 Hrep2].
  set (x1 := mkExpression (base m1) _ _) in *. set (x2 := mkExpression (base m2) _ _) in *.
  destruct (not_represents st _ x1 _ Hx1 Hrep1)
    as (n1 & xn1 & Hn1 & Hxn1 & HRn1 & HCn1 & Hrn1 & Hcn1 & Hrepn1).
  destruct (not_represents st _ x2 _ Hx2 Hrep2)
    as (n2 & xn2 & Hn2 & Hxn2 & HRn2 & HCn2 & Hrn2 & Hcn2 & Hrepn2).
  assert (Hlaw : forall (f g : BinaryOperation),
             (forall p q, negb (apply_bool f p q) = apply_bool g (negb p) (negb q)) ->
             (let* a := binary_operator f st (XMatrix r1) (XMatrix r2) in
              let* lhs := operator_not st a in
              let* n1 := operator_not st (XMatrix r1) in
              let* n2 := operator_not st (XMatrix r2) in
              let* rhs := binary_operator g st n1 n2 in
              operator_eq st lhs rhs) = Ok true).
  { intros f g Hfg.
    destruct (binary_represents f st _ _ x1 x2 _ _ Hx1 Hx2 Hrep1 Hrep2)
      as (a & xa & Ha & Hxa & _ & HRa & HCa & Hra & Hca & Hrepa);
      [rewrite Hb1, Hb2, Hbase; reflexivity .. |].
    destruct (not_represents st a xa _ Hxa Hrepa)
      as (lhs & xl & Hlhs & Hxl & HRl & HCl & Hrl & Hcl & Hrepl).
    destruct (binary_represents g st n1 n2 xn1 xn2 _ _ Hxn1 Hxn2 Hrepn1 Hrepn2)
      as (rhs & xr & Hrhs & Hxr & _ & HRr & HCr & Hrr & Hcr & Hrepr);
      [congruence .. |].
    rewrite Ha. cbn [bind]. rewrite Hlhs. cbn [bind]. rewrite Hn1. cbn [bind].
    rewrite Hn2. cbn [bind]. rewrite Hrhs. cbn [bind].
    destruct (comparison_of_represented st lhs rhs xl xr _ _ Hxl Hxr Hrepl Hrepr)
      as (b & Heq & _ & Hb).
    - apply (comparable_same_type _ _ (base m1)); try congruence.
    - congruence.
    - congruence.
    - replace (size (expr_base xl)) with (size (base m1)); [exact Hmod |].
      unfold size. rewrite Hrl, Hcl, Hra, Hca, Hb1. reflexivity.
    - rewrite Heq. f_equal. apply Hb. intros k _. apply Hfg. }
  split.
  - apply (Hlaw bit_and bit_or). intros p q. apply negb_andb.
  - apply (Hlaw bit_or bit_and). intros p q. apply negb_orb.
Qed.

Lemma de_morgan_laws_hold_witness :
  (let* a := operator_and
               [mkMatrix (BinMtxBase_init Dynamic Dynamic 4 5) [1023];
                mkMatrix (BinMtxBase_init Dynamic Dynamic 4 5) [31775]]
               (XMatrix 0) (XMatrix 1) in
   let* lhs := operator_not
                 [mkMatrix (BinMtxBase_init Dynamic Dynamic 4 5) [1023];
                  mkMatrix (BinMtxBase_init Dynamic Dynamic 4 5) [31775]] a in
   let* n1 := operator_not
                [mkMatrix (BinMtxBase_init Dynamic Dynamic 4 5) [1023];
                 mkMatrix (BinMtxBase_init Dynamic Dynamic 4 5) [31775]] (XMatrix 0) in
   let* n2 := operator_not
                [mkMatrix (BinMtxBase_init Dynamic Dynamic 4 5) [1023];
                 mkMatrix (BinMtxBase_init Dynamic Dynamic 4 5) [31775]] (XMatrix 1) in
   let* rhs := operator_or
                 [mkMatrix (BinMtxBase_init Dynamic Dynamic 4 5) [1023];
                  mkMatrix (BinMtxBase_init Dynamic Dynamic 4 5) [31775]] n1 n2 in
   operator_eq
     [mkMatrix (BinMtxBase_init Dynamic Dynamic 4 5) [1023];
      mkMatrix (BinMtxBase_init Dynamic Dynamic 4 5) [31775]] lhs rhs) = Ok true.
Proof.
  apply (de_morgan_laws_hold
           [mkMatrix (BinMtxBase_init Dynamic Dynamic 4 5) [1023];
            mkMatrix (BinMtxBase_init Dynamic Dynamic 4 5) [31775]]
           0 1 _ _ eq_refl eq_refl eq_refl eq_refl eq_refl eq_refl).
  vm_compute. discriminate.
Defined.

(** ** Matrices built from a range *)

(** The loop of the matrix constructor on a range of exactly
    [n_rows * n_cols] elements, for a matrix with at least as many rows as
    columns: element [t] of the range, when true, sets the cell
    [(t / n_rows, t mod n_cols)]. *)
Lemma iterator_loop_matrix (l : list bool) (r c : Z) :
  0 < c <= r -> Z.of_nat (length l) = r * c ->
  forall (fuel : nat) (i : Z) (m : BinaryMatrix),
    well_formed m = true -> n_rows_ (base m) = r -> n_cols_ (base m) = c ->
    0 <= i <= r * c -> r * c < i + Z.of_nat fuel ->
    exists m',
      iterator_loop l (r * c)
        (fun i m1 => let* q := int_div i r in let* rm := int_rem i c in set m1 q rm)
        fuel i m = Ok m' /\
      well_formed m' = true /\ base m' = base m /\
      forall k, 0 <= k ->
        bit_of (data_ m') k = true <->
        bit_of (data_ m) k = true \/
        exists t, i <= t < r * c /\ l !! Z.to_nat t = Some true /\ k = (t / r) * c + t mod c.
Proof.
  intros Hshape Hlen.
  induction fuel as [| fuel IH]; intros i m Hwf Hrows Hcols Hi Hfuel; [lia |].
  cbn [iterator_loop]. rewrite Hlen.
  destruct (Z.eqb_spec i (r * c)) as [Hend | Hmore].
  - destruct (Z.ltb_spec i (r * c)); [lia |]. cbn [negb orb].
    exists m. split; [reflexivity |]. split; [exact Hwf |]. split; [reflexivity |].
    intros k Hk. split; [intros Hold; left; exact Hold |].
    intros [Hold | (t & Ht & _)]; [exact Hold | lia].
  - cbn [negb orb]. rewrite iterator_read_lookup by lia.
    destruct (l !! Z.to_nat i) as [v |] eqn:Hv;
      [| apply lookup_ge_None in Hv; lia].
    cbn [bind].
    assert (Hq : 0 <= i / r < r).
    { split; [apply Z.div_pos; lia |]. apply Z.div_lt_upper_bound; nia. }
    pose proof (Z.mod_pos_bound i c ltac:(lia)) as Hm.
    assert (Hstep : exists m1,
               (if v then let* q := int_div i r in let* rm := int_rem i c in set m q rm
                else Ok m) = Ok m1 /\
               well_formed m1 = true /\ base m1 = base m /\
               forall k, 0 <= k ->
                 bit_of (data_ m1) k
                 = bit_of (data_ m) k || ((k =? (i / r) * c + i mod c) && v)).
    { destruct v.
      - rewrite int_div_nonneg, int_rem_nonneg by lia. cbn [bind].
        destruct (set_writes m (i / r) (i mod c) Hwf) as (m1 & Hs & Hwf1 & Hb1 & Hbits1);
          [lia | lia |].
        exists m1. repeat split; try assumption. intros k Hk.
        rewrite Hbits1 by exact Hk. rewrite Hcols, andb_true_r.
        destruct (k =? _); [symmetry; apply orb_true_r | symmetry; apply orb_false_r].
      - exists m. repeat split; try assumption. intros k Hk.
        rewrite andb_false_r, orb_false_r. reflexivity. }
    destruct Hstep as (m1 & -> & Hwf1 & Hb1 & Hbits1). cbn [bind].
    destruct (IH (i + 1) m1 Hwf1) as (m' & Hrun & Hwf' & Hb' & Hbits');
      rewrite ?Hb1; try assumption; try lia.
    exists m'. split; [exact Hrun |]. split; [exact Hwf' |]. split; [congruence |].
    intros k Hk. rewrite Hbits', Hbits1 by exact Hk.
    rewrite orb_true_iff, andb_true_iff, Z.eqb_eq. split.
    + intros [[Hold | [Hkeq ->]] | (t & Ht & Hlt & Hkt)].
      * left. exact Hold.
      * right. exists i. split; [lia |]. split; [exact Hv | exact Hkeq].
      * right. exists t. split; [lia |]. split; assumption.
    + intros [Hold | (t & Ht & Hlt & Hkt)].
      * left. left. exact Hold.
      * destruct (Z.eq_dec t i) as [-> | Hne].
        -- left. right. split; [exact Hkt |]. congruence.
        -- right. exists t. split; [lia |]. split; assumption.
Qed.

(** The matrix constructor from a range of exactly [n_rows * n_cols]
    elements, for a matrix with at least as many rows as columns: the cell
    [(a, b)] is true exactly when some true element [t] of the range has
    [t / n_rows = a] and [t mod n_cols = b].  So a square matrix receives
    the range in row-major order, and a matrix with more rows than columns
    keeps every row from [n_cols] on false, whatever the range holds. *)
Theorem matrix_of_range_fills_by_row_count :
  forall (l : list bool) (r c : Z),
    0 < c <= r -> r * c <= INT_MAX -> Z.of_nat (length l) = r * c ->
    exists m, BinaryMatrix_of_range Dynamic Dynamic l r c = Ok m /\
      well_formed m = true /\ n_rows_ (base m) = r /\ n_cols_ (base m) = c /\
      (forall a b, 0 <= a < r -> 0 <= b < c ->
         exists v, BinaryMatrix_call m a b = Ok v /\
           (v = true <->
            exists t, 0 <= t < r * c /\ l !! Z.to_nat t = Some true /\
                      t / r = a /\ t mod c = b)) /\
      (r = c ->
       forall a b, 0 <= a < r -> 0 <= b < c ->
         BinaryMatrix_call m a b = Ok (default false (l !! Z.to_nat (a * c + b)))) /\
      (forall a b, c <= a < r -> 0 <= b < c -> BinaryMatrix_call m a b = Ok false).
Proof.
  intros l r c Hshape Hsz Hlen.
  set (z := mkMatrix (mkBase Dynamic Dynamic r c (1 + (r * c) / PackSize))
              (replicate (Z.to_nat (1 + (r * c) / PackSize)) 0)).
  destruct (zero_matrix Dynamic Dynamic r c z ltac:(lia) ltac:(lia) Hsz eq_refl)
    as [Hwfz Hzero].
  assert (Hstart : BinaryMatrix_of_range Dynamic Dynamic l r c
                   = iterator_loop l (r * c)
                       (fun i m1 => let* q := int_div i r in let* rm := int_rem i c in
                                    set m1 q rm)
                       (iterator_fuel l (r * c)) 0 z).
  { unfold BinaryMatrix_of_range.
    cbn [fdapde_static_assert bind Z.eqb Pos.eqb andb Dynamic].
    rewrite resize_in_range; [| reflexivity | reflexivity | lia | lia | exact Hsz].
    cbn [bind base Rows Cols BinMtxBase_init].
    rewrite std_ceil_quot by nia. reflexivity. }
  destruct (iterator_loop_matrix l r c Hshape Hlen (iterator_fuel l (r * c)) 0 z Hwfz
              eq_refl eq_refl)
    as (m & Hrun & Hwf & Hb & Hbits); [nia | unfold iterator_fuel; lia |].
  exists m. split; [rewrite Hstart; exact Hrun |]. split; [exact Hwf |].
  split; [rewrite Hb; reflexivity |]. split; [rewrite Hb; reflexivity |].
  assert (Hcell : forall a b, 0 <= a < r -> 0 <= b < c ->
            BinaryMatrix_call m a b = Ok (bit_of (data_ m) (a * c + b)) /\ 0 <= a * c + b).
  { intros a b Ha Hb'.
    destruct (cell_is_bit m a b Hwf) as [-> Hk]; rewrite ?Hb; try assumption.
    cbn [base z n_cols_] in *. split; [reflexivity | lia]. }
  assert (Hset : forall a b, 0 <= a < r -> 0 <= b < c ->
            bit_of (data_ m) (a * c + b) = true <->
            exists t, 0 <= t < r * c /\ l !! Z.to_nat t = Some true /\
                      t / r = a /\ t mod c = b).
  { intros a b Ha Hb'. destruct (Hcell a b Ha Hb') as [_ Hk].
    rewrite (Hbits _ Hk), Hzero. split.
    - intros [Hold | (t & Ht & Hlt & Hkt)]; [discriminate |].
      pose proof (Z.mod_pos_bound t c ltac:(lia)) as Hm.
      destruct (row_major_injective c a b (t / r) (t mod c) Hb' Hm Hkt) as [Ha' Hb''].
      exists t. repeat split; try assumption; try lia.
    - intros (t & Ht & Hlt & Hq & Hm). right. exists t.
      split; [exact Ht |]. split; [exact Hlt |]. rewrite Hq, Hm. reflexivity. }
  split; [| split].
  - intros a b Ha Hb'. destruct (Hcell a b Ha Hb') as [-> _].
    eexists. split; [reflexivity |]. apply Hset; assumption.
  - intros <- a b Ha Hb'. destruct (Hcell a b Ha Hb') as [-> Hk]. f_equal.
    apply eq_true_iff_eq. rewrite (Hset a b Ha Hb'). split.
    + intros (t & Ht & Hlt & Hq & Hm).
      pose proof (Z.div_mod t r ltac:(lia)) as Hdm.
      replace (a * r + b) with t by lia. rewrite Hlt. reflexivity.
    + intros Hold. exists (a * r + b).
      split; [nia |]. split.
      * destruct (l !! Z.to_nat (a * r + b)) as [[|] |]; try discriminate. reflexivity.
      * split; [symmetry; apply (Z.div_unique _ _ a b); lia
               | symmetry; apply (Z.mod_unique _ _ a b); lia].
  - intros a b Ha Hb'. destruct (Hcell a b ltac:(lia) Hb') as [-> Hk]. f_equal.
    apply not_true_is_false. rewrite (Hset a b ltac:(lia) Hb').
    intros (t & Ht & _ & Hq & _).
    assert (Htr : t / r < c) by (apply Z.div_lt_upper_bound; nia).
    lia.
Qed.

Lemma matrix_of_range_fills_by_row_count_witness :
  (exists m, BinaryMatrix_of_range Dynamic Dynamic [false; true; false; false] 2 2 = Ok m /\
     BinaryMatrix_call m 0 1 = Ok true) /\
  (exists m, BinaryMatrix_of_range Dynamic Dynamic [true; true; true] 3 1 = Ok m /\
     BinaryMatrix_call m 1 0 = Ok false) /\
  (exists m v, BinaryMatrix_of_range Dynamic Dynamic
                 [false; false; false; false; true; false] 3 2 = Ok m /\
     BinaryMatrix_call m 1 0 = Ok v /\
     (v = true <->
      exists t, 0 <= t < 3 * 2 /\
                [false; false; false; false; true; false] !! Z.to_nat t = Some true /\
                t / 3 = 1 /\ t mod 2 = 0)).
Proof.
  split; [| split].
  - destruct (matrix_of_range_fills_by_row_count [false; true; false; false] 2 2
                ltac:(lia) ltac:(unfold INT_MAX; lia) eq_refl)
      as (m & Hrun & _ & _ & _ & _ & Hsquare & _).
    exists m. split; [exact Hrun |]. apply (Hsquare eq_refl 0 1); lia.
  - destruct (matrix_of_range_fills_by_row_count [true; true; true] 3 1
                ltac:(lia) ltac:(unfold INT_MAX; lia) eq_refl)
      as (m & Hrun & _ & _ & _ & _ & _ & Htall).
    exists m. split; [exact Hrun |]. apply (Htall 1 0); lia.
  - destruct (matrix_of_range_fills_by_row_count
                [false; false; false; false; true; false] 3 2
                ltac:(lia) ltac:(unfold INT_MAX; lia) eq_refl)
      as (m & Hrun & _ & _ & _ & Hcells & _).
    destruct (Hcells 1 0 ltac:(lia) ltac:(lia)) as (v & Hv & Hiff).
    exists m, v. split; [exact Hrun |]. split; [exact Hv | exact Hiff].
Defined.

(** ** The number of bitpacks *)




(** ** The identity of the test of the operators *)

(** C6 (as the code has it).  For two matrices of equal shape,
    [(m1 ^ m2) | (m1 & m2)] has the bitpacks and the coefficients of
    [m1 | m2].  When the size is not a multiple of the word width, [==]
    between the two returns true, and [((m1 ^ m2) | (m1 & m2)) == m2]
    returns true exactly when every true coefficient of [m1] is true in
    [m2]. *)
Theorem C6_xor_or_and_equals_or :
  forall (st : store) (r1 r2 : nat) (m1 m2 : BinaryMatrix),
    st !! r1 = Some m1 -> st !! r2 = Some m2 ->
    well_formed m1 = true -> well_formed m2 = true ->
    Rows (base m1) = Rows (base m2) -> Cols (base m1) = Cols (base m2) ->
    n_rows_ (base m1) = n_rows_ (base m2) -> n_cols_ (base m1) = n_cols_ (base m2) ->
    exists lhs rhs,
      xor_or_and st (XMatrix r1) (XMatrix r2) = Ok lhs /\
      operator_or st (XMatrix r1) (XMatrix r2) = Ok rhs /\
      (forall k, 0 <= k < bitpacks (base m1) ->
         exists w, xpr_bitpack st lhs k = Ok w /\ xpr_bitpack st rhs k = Ok w) /\
      (forall i j, 0 <= i < n_rows_ (base m1) -> 0 <= j < n_cols_ (base m1) ->
         exists v, xpr_call st lhs i j = Ok v /\ xpr_call st rhs i j = Ok v) /\
      (comparable (base m1) (base m2) = true ->
       size (base m1) mod PackSize <> 0 ->
       operator_eq st lhs rhs = Ok true /\
       exists b,
         operator_eq st lhs (XMatrix r2) = Ok b /\
         (b = true <->
          forall i j, 0 <= i < n_rows_ (base m1) -> 0 <= j < n_cols_ (base m1) ->
            BinaryMatrix_call m1 i j = Ok true -> BinaryMatrix_call m2 i j = Ok true)).
Proof.
  intros st r1 r2 m1 m2 Hs1 Hs2 Hwf1 Hwf2 HR HC Hr Hc.
  destruct (well_formed_facts m1 Hwf1) as (Hr1 & Hc1 & Hsz1 & Hnb1 & Hl1 & _).
  destruct (well_formed_facts m2 Hwf2) as (_ & _ & _ & Hnb2 & Hl2 & _).
  assert (Hsize : size (base m2) = size (base m1)) by (unfold size; congruence).
  rewrite Hsize in Hnb2.
  set (b := BinMtxBase_init (Rows (base m1)) (Cols (base m1))
              (rows (base m1)) (cols (base m1))).
  exists (XBinaryOp b (XBinaryOp b (XMatrix r1) (XMatrix r2) bit_xor)
                      (XBinaryOp b (XMatrix r1) (XMatrix r2) bit_and) bit_or).
  exists (XBinaryOp b (XMatrix r1) (XMatrix r2) bit_or).
  assert (Hbuild : forall f,
    binary_operator f st (XMatrix r1) (XMatrix r2) = Ok (XBinaryOp b (XMatrix r1) (XMatrix r2) f)).
  { intros f. unfold binary_operator, xpr_base, deref. rewrite Hs1, Hs2. simpl.
    unfold rows, cols. rewrite HR, HC, Hr, Hc, !Z.eqb_refl. simpl.
    unfold b, rows, cols. rewrite HR, HC, Hr, Hc. reflexivity. }
  assert (Hlhs : xor_or_and st (XMatrix r1) (XMatrix r2) =
                 Ok (XBinaryOp b (XBinaryOp b (XMatrix r1) (XMatrix r2) bit_xor)
                       (XBinaryOp b (XMatrix r1) (XMatrix r2) bit_and) bit_or)).
  { unfold xor_or_and, operator_xor, operator_and, operator_or.
    rewrite !Hbuild. simpl. unfold binary_operator. simpl.
    rewrite !Z.eqb_refl. simpl. reflexivity. }
  assert (Hpacks : forall k, 0 <= k < bitpacks (base m1) ->
    exists w,
      xpr_bitpack st (XBinaryOp b (XBinaryOp b (XMatrix r1) (XMatrix r2) bit_xor)
                        (XBinaryOp b (XMatrix r1) (XMatrix r2) bit_and) bit_or) k = Ok w /\
      xpr_bitpack st (XBinaryOp b (XMatrix r1) (XMatrix r2) bit_or) k = Ok w).
  { intros k Hk. unfold bitpacks in Hk. simpl. unfold deref. rewrite Hs1, Hs2. simpl.
    destruct (data_at_lookup (data_ m1) k ltac:(lia)) as (w1 & _ & ->).
    destruct (data_at_lookup (data_ m2) k ltac:(lia)) as (w2 & _ & ->).
    simpl. exists (Z.lor w1 w2). split; [| reflexivity].
    rewrite lor_lxor_land. reflexivity. }
  split; [exact Hlhs |]. split; [apply (Hbuild bit_or) |].
  split; [exact Hpacks |]. split.
  - intros i j Hi Hj. simpl. unfold deref. rewrite Hs1, Hs2. simpl.
    assert (Hk : 0 <= i * n_cols_ (base m1) + j < size (base m1)) by (unfold size; nia).
    assert (Hp : (i * n_cols_ (base m1) + j) / PackSize <= size (base m1) / PackSize)
      by (apply Z.div_le_mono; [reflexivity | lia]).
    rewrite (BinaryMatrix_call_bit m1 i j) by lia.
    rewrite (BinaryMatrix_call_bit m2 i j) by (rewrite <- Hc; lia).
    simpl. eexists. split; [| reflexivity]. f_equal.
    destruct (bit_of (data_ m1) _), (bit_of (data_ m2) _); reflexivity.
  - intros Hcmp Hmod. split.
    + apply (operator_eq_equal_bitpacks st _ _ b b); try reflexivity.
      * unfold comparable in *. simpl. rewrite <- HR, <- HC in Hcmp. exact Hcmp.
      * unfold b, size. simpl. exact (proj1 Hsz1).
      * unfold b, bitpacks, size, rows, cols. simpl.
        rewrite std_ceil_quot by (exact (proj1 Hsz1)). reflexivity.
      * exact Hmod.
      * intros k Hk. apply Hpacks.
        unfold b, bitpacks, rows, cols in *. simpl in Hk.
        rewrite std_ceil_quot in Hk by (exact (proj1 Hsz1)).
        rewrite Hnb1. exact Hk.
    + set (X1 := mkExpression (base m1) (xpr_call st (XMatrix r1))
                   (xpr_bitpack st (XMatrix r1))).
      set (X2 := mkExpression (base m2) (xpr_call st (XMatrix r2))
                   (xpr_bitpack st (XMatrix r2))).
      assert (Hx1 : expression_of st (XMatrix r1) = Ok X1).
      { unfold expression_of. rewrite (matrix_base st r1 m1 Hs1). reflexivity. }
      assert (Hx2 : expression_of st (XMatrix r2) = Ok X2).
      { unfold expression_of. rewrite (matrix_base st r2 m2 Hs2). reflexivity. }
      destruct (matrix_represents st r1 m1 X1 Hs1 Hwf1 Hx1) as [_ Hrep1].
      destruct (matrix_represents st r2 m2 X2 Hs2 Hwf2 Hx2) as [_ Hrep2].
      destruct (binary_represents bit_xor st (XMatrix r1) (XMatrix r2) X1 X2 _ _
                  Hx1 Hx2 Hrep1 Hrep2 HR HC Hr Hc)
        as (ex & xx & Hex & Hxx & _ & HRx & HCx & Hrx & Hcx & Hrepx).
      destruct (binary_represents bit_and st (XMatrix r1) (XMatrix r2) X1 X2 _ _
                  Hx1 Hx2 Hrep1 Hrep2 HR HC Hr Hc)
        as (ea & xa & Hea & Hxa & _ & HRa & HCa & Hra & Hca & Hrepa).
      destruct (binary_represents bit_or st ex ea xx xa _ _ Hxx Hxa Hrepx Hrepa
                  ltac:(congruence) ltac:(congruence) ltac:(congruence) ltac:(congruence))
        as (eo & xo & Heo & Hxo & _ & HRo & HCo & Hro & Hco & Hrepo).
      assert (Hsame : xor_or_and st (XMatrix r1) (XMatrix r2) = Ok eo).
      { unfold xor_or_and, operator_xor, operator_and, operator_or.
        rewrite Hex, Hea. exact Heo. }
      rewrite Hlhs in Hsame. injection Hsame as Hsame. rewrite <- Hsame in Hxo.
      assert (HRo' : Rows (expr_base xo) = Rows (base m1)) by (rewrite HRo, HRx; reflexivity).
      assert (HCo' : Cols (expr_base xo) = Cols (base m1)) by (rewrite HCo, HCx; reflexivity).
      assert (Hro' : n_rows_ (expr_base xo) = n_rows_ (base m1))
        by (rewrite Hro, Hrx; reflexivity).
      assert (Hco' : n_cols_ (expr_base xo) = n_cols_ (base m1))
        by (rewrite Hco, Hcx; reflexivity).
      assert (Hsizeo : size (expr_base xo) = size (base m1))
        by (unfold size; rewrite Hro', Hco'; reflexivity).
      destruct (comparison_of_represented st _ (XMatrix r2) xo X2 _ _ Hxo Hx2 Hrepo Hrep2)
        as (v & Heq & _ & Hiff).
      { unfold comparable in *. cbn [X2 expr_base]. rewrite HRo', HCo'. exact Hcmp. }
      { cbn [X2 expr_base]. rewrite Hro'. exact Hr. }
      { cbn [X2 expr_base]. rewrite Hco'. exact Hc. }
      { rewrite Hsizeo. exact Hmod. }
      exists v. split; [exact Heq |]. rewrite Hiff, Hsizeo. cbn [apply_bool]. split.
      * intros Hall i j Hi Hj Hcall.
        destruct (cell_is_bit m1 i j Hwf1 Hi Hj) as [Hc1' Hk].
        destruct (cell_is_bit m2 i j Hwf2 ltac:(lia) ltac:(lia)) as [Hc2' _].
        rewrite Hc1' in Hcall. injection Hcall as Hcall.
        rewrite Hc2', <- Hc. f_equal.
        pose proof (Hall _ Hk) as Hat. cbn beta in Hat. rewrite Hcall in Hat.
        destruct (bit_of (data_ m2) (i * n_cols_ (base m1) + j));
          [reflexivity | discriminate Hat].
      * intros Hwithin k Hk.
        assert (Hpos : 0 < n_cols_ (base m1)) by (unfold size in Hk; nia).
        pose proof (Z.div_mod k (n_cols_ (base m1)) ltac:(lia)) as Hdm.
        pose proof (Z.mod_pos_bound k (n_cols_ (base m1)) Hpos) as Hm.
        assert (Hi : 0 <= k / n_cols_ (base m1) < n_rows_ (base m1)).
        { split; [apply Z.div_pos; lia |].
          apply Z.div_lt_upper_bound; [exact Hpos |]. unfold size in Hk. lia. }
        destruct (cell_is_bit m1 _ _ Hwf1 Hi Hm) as [Hc1' _].
        destruct (cell_is_bit m2 (k / n_cols_ (base m1)) (k mod n_cols_ (base m1)) Hwf2
                    ltac:(lia) ltac:(lia)) as [Hc2' _].
        rewrite <- Hc in Hc2'.
        replace (k / n_cols_ (base m1) * n_cols_ (base m1) + k mod n_cols_ (base m1))
          with k in Hc1', Hc2' by lia.
        specialize (Hwithin _ _ Hi Hm). rewrite Hc1', Hc2' in Hwithin.
        destruct (bit_of (data_ m1) k); [| destruct (bit_of (data_ m2) k); reflexivity].
        specialize (Hwithin eq_refl). injection Hwithin as ->. reflexivity.
Qed.

Lemma C6_xor_or_and_equals_or_witness :
  exists lhs,
    xor_or_and [C6_m2; C6_m1] (XMatrix 0) (XMatrix 1) = Ok lhs /\
    operator_eq [C6_m2; C6_m1] lhs (XMatrix 1) = Ok true.
Proof.
  destruct (C6_xor_or_and_equals_or [C6_m2; C6_m1] 0%nat 1%nat C6_m2 C6_m1
              eq_refl eq_refl eq_refl eq_refl eq_refl eq_refl eq_refl eq_refl)
    as (lhs & rhs & Hl & _ & _ & _ & Heq).
  destruct (Heq eq_refl ltac:(vm_compute; discriminate)) as (_ & b & Hb & Hiff).
  exists lhs. split; [exact Hl |]. rewrite Hb. f_equal. apply Hiff.
  intros i j Hi Hj _.
  assert (Hij : i = 0 /\ j = 0) by (change (0 <= i < 1) in Hi; change (0 <= j < 1) in Hj; lia).
  destruct Hij as [-> ->]. reflexivity.
Defined.

Lemma C6_counterexample :
  BinaryMatrix_call C6_m1 0 0 = Ok true /\
  BinaryMatrix_call C6_m2 0 0 = Ok false /\
  (let* lhs := xor_or_and [C6_m1; C6_m2] (XMatrix 0) (XMatrix 1) in
   operator_eq [C6_m1; C6_m2] lhs (XMatrix 1)) = Ok false.
Proof. repeat split; by_evaluation. Qed.
